(** * Scoring and trend-detection engine of the Threads scraper

    A shallow embedding of [DataProcessor] (process_data.py): the four
    metric calculators, the keyword extractor, the topic clusterer, the
    keyword-momentum and keyword-trend analysis, the saving of the results
    and the whole run, followed by the properties proved about them.

    Conventions.
    - A pandas [DataFrame] is a row count plus a finite map from column
      names to typed columns; [df[c] = s] is map insertion, [df[c]] is map
      lookup and raises [KeyError] on a missing column.
    - A method body of the shape [try: ...; return df / except: return df]
      runs in a state-and-exception monad over the frame: the frame is
      mutated in place, so what was assigned before an exception stays.
    - float64 values are idealised: finite values are real numbers, and
      the three special values of IEEE arithmetic are kept, because the
      code reacts to them ([replace], [fillna], [max], [clip]).  Rounding,
      overflow, underflow and the sign of zero are not modelled.
    - Timestamps are integers, nanoseconds since the epoch (UTC), as in
      [datetime64[ns, UTC]]; a calendar date is a day number.
    - A Python [str] is the list of its code points; literals are written
      as UTF-8 Rocq strings and decoded.  Column names stay Rocq strings.
    - [datetime.now] is an input of the stage that reads the clock.
    - The database client is a service with a state of its own: a request
      is answered with data, without data, or with an exception. *)

From Stdlib Require Import Reals Lra Lia ZArith QArith Ascii String List Sorted.
From stdpp Require Import gmap strings list.

#[local] Open Scope R_scope.

(** ** Idealised float64 *)

Inductive float64 : Type :=
| Fin (r : R)
| PInf
| NInf
| NaN.

Definition of_int (z : Z) : float64 := Fin (IZR z).

Definition Rsign (r : R) : comparison :=
  if Rlt_dec 0 r then Gt else if Rlt_dec r 0 then Lt else Eq.

Definition signed_inf (c : comparison) : float64 :=
  match c with Gt => PInf | Lt => NInf | Eq => NaN end.

Definition fneg (x : float64) : float64 :=
  match x with Fin r => Fin (- r) | PInf => NInf | NInf => PInf | NaN => NaN end.

Definition fadd (x y : float64) : float64 :=
  match x, y with
  | NaN, _ | _, NaN => NaN
  | Fin a, Fin b => Fin (a + b)
  | PInf, NInf | NInf, PInf => NaN
  | PInf, _ | _, PInf => PInf
  | NInf, _ | _, NInf => NInf
  end.

Definition fmul (x y : float64) : float64 :=
  match x, y with
  | NaN, _ | _, NaN => NaN
  | Fin a, Fin b => Fin (a * b)
  | Fin a, PInf | PInf, Fin a => signed_inf (Rsign a)
  | Fin a, NInf | NInf, Fin a => signed_inf (CompOpp (Rsign a))
  | PInf, PInf | NInf, NInf => PInf
  | PInf, NInf | NInf, PInf => NInf
  end.

(** Division as numpy does it on arrays: a zero divisor gives an infinity
    of the sign of the dividend, and [0 / 0] gives NaN. *)
Definition fdiv (x y : float64) : float64 :=
  match x, y with
  | NaN, _ | _, NaN => NaN
  | Fin a, Fin b => if Req_dec_T b 0 then signed_inf (Rsign a) else Fin (a / b)
  | Fin _, _ => Fin 0
  | PInf, Fin b => if Rlt_dec b 0 then NInf else PInf
  | NInf, Fin b => if Rlt_dec b 0 then PInf else NInf
  | _, _ => NaN
  end.

(** [np.exp].  Underflow is not modelled: below about -745 the float64
    result is 0.0 where this result is a positive real. *)
Definition fexp (x : float64) : float64 :=
  match x with Fin r => Fin (exp r) | PInf => PInf | NInf => Fin 0 | NaN => NaN end.

(** [np.log1p]: [-inf] at [-1], NaN below. *)
Definition flog1p (x : float64) : float64 :=
  match x with
  | Fin r => if Rlt_dec (-1) r then Fin (ln (1 + r))
             else if Req_dec_T r (-1) then NInf else NaN
  | PInf => PInf
  | NInf | NaN => NaN
  end.

(** [x < y]; every comparison with NaN is false. *)
Definition fltb (x y : float64) : bool :=
  match x, y with
  | NaN, _ | _, NaN => false
  | Fin a, Fin b => if Rlt_dec a b then true else false
  | NInf, (Fin _ | PInf) | Fin _, PInf => true
  | _, _ => false
  end.

Definition fgtb (x y : float64) : bool := fltb y x.

Definition is_inf (x : float64) : bool :=
  match x with PInf | NInf => true | _ => false end.

Definition is_nan (x : float64) : bool :=
  match x with NaN => true | _ => false end.

(** [Series.max()]: missing values are skipped; NaN when nothing is left. *)
Definition fmax_skipna (x y : float64) : float64 :=
  match x, y with
  | NaN, _ => y
  | _, NaN => x
  | _, _ => if fltb x y then y else x
  end.

Definition series_max (s : list float64) : float64 := foldr fmax_skipna NaN s.

(** [Series.clip(lo, hi)]: NaN stays NaN. *)
Definition fclip (lo hi x : float64) : float64 :=
  if is_nan x then NaN
  else if fltb x lo then lo
  else if fltb hi x then hi
  else x.

(** [Series.replace([np.inf, -np.inf], v)] and [Series.fillna(v)]. *)
Definition replace_inf (v x : float64) : float64 := if is_inf x then v else x.
Definition fillna (v x : float64) : float64 := if is_nan x then v else x.

(** [np.sum] and [np.mean] of a sequence of floats. *)
Definition np_sum (s : list float64) : float64 := foldr fadd (Fin 0) s.

Definition np_mean (s : list float64) : float64 :=
  match s with
  | [] => NaN
  | _ => fdiv (np_sum s) (of_int (Z.of_nat (length s)))
  end.

(** [Series.sum()] and [Series.mean()] of a float column: missing values
    are skipped. *)
Definition dropna (s : list float64) : list float64 :=
  List.filter (λ x, negb (is_nan x)) s.

Definition series_sum (s : list float64) : float64 := np_sum (dropna s).

Definition series_mean (s : list float64) : float64 := np_mean (dropna s).

(** ** Python strings *)

Definition str : Type := list N.

Fixpoint utf8_decode (bs : list N) : str :=
  match bs with
  | [] => []
  | b :: r0 =>
    if (b <? 128)%N then b :: utf8_decode r0 else
    match r0 with
    | [] => []
    | b1 :: r1 =>
      if (b <? 224)%N
      then (N.land b 31 * 64 + N.land b1 63)%N :: utf8_decode r1 else
      match r1 with
      | [] => []
      | b2 :: r2 =>
        if (b <? 240)%N
        then (N.land b 15 * 4096 + N.land b1 63 * 64 + N.land b2 63)%N
             :: utf8_decode r2 else
        match r2 with
        | [] => []
        | b3 :: r3 =>
          (N.land b 7 * 262144 + N.land b1 63 * 4096
           + N.land b2 63 * 64 + N.land b3 63)%N :: utf8_decode r3
        end
      end
    end
  end.

(** A string literal of the source. *)
Definition u (s : string) : str :=
  utf8_decode (N_of_ascii <$> list_ascii_of_string s).

(** [pat in s]; also what [str.contains] does for a pattern without
    regular-expression metacharacters. *)
Fixpoint contains (pat s : str) : bool :=
  bool_decide (take (length pat) s = pat) ||
  match s with
  | [] => false
  | _ :: s' => contains pat s'
  end.

(** [sep.join(words)]. *)
Fixpoint join (sep : str) (words : list str) : str :=
  match words with
  | [] => []
  | [w] => w
  | w :: ws => w ++ sep ++ join sep ws
  end.

(** ** Data frames *)

Inductive column : Type :=
| IntCol (l : list Z)
| FloatCol (l : list float64)
| StrCol (l : list str)
| TimeCol (l : list Z).

Record DataFrame : Type := mkFrame {
  nrows : nat;
  cols : gmap string column
}.

(** [df.empty]: some axis has length zero. *)
Definition empty (df : DataFrame) : bool :=
  bool_decide (nrows df = 0%nat) || bool_decide (cols df = ∅).

Definition set_col (c : string) (v : column) (df : DataFrame) : DataFrame :=
  mkFrame (nrows df) (<[c := v]> (cols df)).

(** Boolean indexing [df[mask]]. *)
Fixpoint select {A} (mask : list bool) (l : list A) : list A :=
  match mask, l with
  | b :: mask', x :: l' => if b then x :: select mask' l' else select mask' l'
  | _, _ => []
  end.

Definition select_col (mask : list bool) (c : column) : column :=
  match c with
  | IntCol l => IntCol (select mask l)
  | FloatCol l => FloatCol (select mask l)
  | StrCol l => StrCol (select mask l)
  | TimeCol l => TimeCol (select mask l)
  end.

Definition select_rows (mask : list bool) (df : DataFrame) : DataFrame :=
  mkFrame (length (filter (λ b, b = true) (take (nrows df) mask)))
          (select_col mask <$> cols df).

(** ** The monad of a [try] block over a frame mutated in place *)

Definition stage (A : Type) : Type := DataFrame → option A * DataFrame.

Definition ret {A} (a : A) : stage A := λ df, (Some a, df).

Definition raise {A} : stage A := λ df, (None, df).

Definition bind {A B} (m : stage A) (k : A → stage B) : stage B :=
  λ df, match m df with
        | (Some a, df') => k a df'
        | (None, df') => (None, df')
        end.

#[global] Instance stage_ret : MRet stage := @ret.
#[global] Instance stage_bind : MBind stage := λ A B k m, bind m k.

(** [df[c]]. *)
Definition getcol (c : string) : stage column :=
  λ df, (cols df !! c, df).

(** [df[c] = v]. *)
Definition assign (c : string) (v : column) : stage unit :=
  λ df, (Some tt, set_col c v df).

(** A column used in arithmetic: integers are promoted to floats. *)
Definition getnum (c : string) : stage (list float64) :=
  v ← getcol c ;
  match v with
  | IntCol l => ret (of_int <$> l)
  | FloatCol l => ret l
  | _ => raise
  end.

(** A column used through the [.dt] accessor. *)
Definition gettime (c : string) : stage (list Z) :=
  v ← getcol c ;
  match v with TimeCol l => ret l | _ => raise end.

(** A column used through the [.str] accessor. *)
Definition getstr (c : string) : stage (list str) :=
  v ← getcol c ;
  match v with StrCol l => ret l | _ => raise end.

(** [try: body; return df / except: return df]. *)
Definition try_return (body : stage unit) (df : DataFrame) : DataFrame :=
  (body df).2.

(** Element-wise arithmetic of two and three aligned series. *)
Definition map2 {A B C} (f : A → B → C) (a : list A) (b : list B) : list C :=
  zip_with f a b.

Definition map3 {A B C D} (f : A → B → C → D)
    (a : list A) (b : list B) (c : list C) : list D :=
  zip_with (λ ab c, f ab.1 ab.2 c) (zip a b) c.

(** [Timedelta.total_seconds()] of a difference in nanoseconds. *)
Definition total_seconds (ns : Z) : float64 := Fin (IZR ns / 1000000000).

Definition hours_since (current_time t : Z) : float64 :=
  fdiv (total_seconds (current_time - t)) (Fin 3600).

Definition bool_int (b : bool) : Z := if b then 1%Z else 0%Z.

(** ** Ingestion: [fetch_raw_posts] after the database call *)

(** A row of the database with its timestamps parsed, and the frame that
    [fetch_raw_posts] builds from such rows when every conversion
    succeeds.  The [except] branch, which returns an empty frame when a
    timestamp does not parse, is outside [frame_of_posts]; so are counters
    beyond 2^53, where a column with missing values is no longer exact. *)

Record RawPost : Type := mkRawPost {
  post_id : str;
  username : str;
  content : option str;
  timestamp : Z;
  scraped_at : Z;
  likes : option Z;
  replies : option Z;
  reposts : option Z
}.

Definition frame_of_posts (posts_data : list RawPost) : DataFrame :=
  match posts_data with
  | [] => mkFrame 0 ∅
  | _ =>
    let likes_c := (λ p, default 0%Z (likes p)) <$> posts_data in
    let replies_c := (λ p, default 0%Z (replies p)) <$> posts_data in
    let reposts_c := (λ p, default 0%Z (reposts p)) <$> posts_data in
    mkFrame (length posts_data)
      (<["total_interactions" :=
           IntCol (map3 (λ l r p, (l + r + p)%Z) likes_c replies_c reposts_c)]>
      (<["content" := StrCol ((λ p, default [] (content p)) <$> posts_data)]>
      (<["reposts" := IntCol reposts_c]>
      (<["replies" := IntCol replies_c]>
      (<["likes" := IntCol likes_c]>
      (<["scraped_at" := TimeCol (scraped_at <$> posts_data)]>
      (<["timestamp" := TimeCol (timestamp <$> posts_data)]>
      (<["username" := StrCol (username <$> posts_data)]>
      (<["post_id" := StrCol (post_id <$> posts_data)]> ∅)))))))))
  end.

(** ** Metric calculator *)

Definition calculate_heat_density (current_time : Z) (df : DataFrame) : DataFrame :=
  if empty df then df else
  try_return (
    ts ← gettime "timestamp" ;
    assign "hours_since_post" (FloatCol (hours_since current_time <$> ts)) ;;
    let decay_rate := Fin (1 / 10) in
    h ← getnum "hours_since_post" ;
    assign "time_decay"
      (FloatCol ((λ x, fexp (fdiv (fmul (fneg decay_rate) x) (Fin 24))) <$> h)) ;;
    l ← getnum "likes" ;
    r ← getnum "replies" ;
    p ← getnum "reposts" ;
    assign "base_heat"
      (FloatCol (map3 (λ l r p,
         fadd (fadd (fmul l (Fin 1)) (fmul r (Fin 2))) (fmul p (Fin (3 / 2))))
         l r p)) ;;
    c ← getstr "content" ;
    assign "content_length" (IntCol ((λ s, Z.of_nat (length s)) <$> c)) ;;
    n ← getnum "content_length" ;
    assign "length_factor" (FloatCol ((λ x, fdiv (flog1p x) (Fin 10)) <$> n)) ;;
    b ← getnum "base_heat" ;
    d ← getnum "time_decay" ;
    f ← getnum "length_factor" ;
    assign "heat_density"
      (FloatCol (map3 (λ b d f, fmul (fmul b d) (fadd (Fin 1) f)) b d f)) ;;
    hd ← getnum "heat_density" ;
    if fgtb (series_max hd) (Fin 0)
    then assign "heat_density"
           (FloatCol ((λ x, fmul (fdiv x (series_max hd)) (Fin 100)) <$> hd))
    else ret tt
  ) df.

Definition calculate_freshness_score (current_time : Z) (df : DataFrame) : DataFrame :=
  if empty df then df else
  try_return (
    ts ← gettime "timestamp" ;
    assign "hours_since_post" (FloatCol (hours_since current_time <$> ts)) ;;
    h ← getnum "hours_since_post" ;
    assign "freshness_score" (FloatCol ((λ x, fexp (fdiv (fneg x) (Fin 24))) <$> h)) ;;
    s ← getnum "freshness_score" ;
    assign "freshness_score" (FloatCol (fclip (Fin 0) (Fin 1) <$> s))
  ) df.

(** [df.groupby(k)[v].mean()], as the table from a key to the mean of its
    group, and [Series.map(table)], which gives NaN for a missing key. *)
Definition groupby_mean (keys : list str) (vals : list float64) (k : str)
    : option float64 :=
  match (filter (λ kv, kv.1 = k) (zip keys vals)).*2 with
  | [] => None
  | grp => Some (series_mean grp)
  end.

Definition series_map (table : str → option float64) (keys : list str)
    : list float64 :=
  (λ k, default NaN (table k)) <$> keys.

Definition calculate_engagement_rate (df : DataFrame) : DataFrame :=
  if empty df then df else
  try_return (
    k ← getstr "username" ;
    t ← getnum "total_interactions" ;
    let user_avg_interactions := groupby_mean k t in
    k ← getstr "username" ;
    assign "user_avg_interactions" (FloatCol (series_map user_avg_interactions k)) ;;
    t ← getnum "total_interactions" ;
    a ← getnum "user_avg_interactions" ;
    assign "engagement_rate" (FloatCol (map2 fdiv t (fillna (Fin 1) <$> a))) ;;
    e ← getnum "engagement_rate" ;
    assign "engagement_rate"
      (FloatCol ((λ x, fillna (Fin 1) (replace_inf (Fin 1) x)) <$> e)) ;;
    e ← getnum "engagement_rate" ;
    assign "engagement_rate" (FloatCol (flog1p <$> e))
  ) df.

Definition calculate_viral_potential (df : DataFrame) : DataFrame :=
  if empty df then df else
  try_return (
    p ← getnum "reposts" ;
    t ← getnum "total_interactions" ;
    assign "repost_ratio" (FloatCol (map2 (λ p t, fdiv p (fadd t (Fin 1))) p t)) ;;
    t ← getnum "total_interactions" ;
    h ← getnum "hours_since_post" ;
    assign "interaction_velocity"
      (FloatCol (map2 (λ t h, fdiv t (fadd h (Fin 1))) t h)) ;;
    c ← getstr "content" ;
    assign "has_hashtag" (IntCol ((λ s, bool_int (contains (u "#") s)) <$> c)) ;;
    c ← getstr "content" ;
    assign "has_mention" (IntCol ((λ s, bool_int (contains (u "@") s)) <$> c)) ;;
    c ← getstr "content" ;
    assign "has_url" (IntCol ((λ s, bool_int (contains (u "http") s)) <$> c)) ;;
    r ← getnum "repost_ratio" ;
    v ← getnum "interaction_velocity" ;
    hh ← getnum "has_hashtag" ;
    hm ← getnum "has_mention" ;
    hu ← getnum "has_url" ;
    f ← getnum "freshness_score" ;
    let signals := map3 (λ a b c, fadd (fadd a b) c) hh hm hu in
    assign "viral_potential"
      (FloatCol (map2 fadd
         (map3 (λ r v s,
            fadd (fadd (fmul r (Fin (4 / 10))) (fmul (flog1p v) (Fin (3 / 10))))
                 (fmul s (Fin (1 / 10))))
            r v signals)
         ((λ f, fmul f (Fin (2 / 10))) <$> f))) ;;
    vp ← getnum "viral_potential" ;
    if fgtb (series_max vp) (Fin 0)
    then assign "viral_potential" (FloatCol ((λ x, fdiv x (series_max vp)) <$> vp))
    else ret tt
  ) df.

(** ** Reading a frame without changing it *)

Definition read {A} (m : stage A) (df : DataFrame) : option A := (m df).1.

(** [x <= y]; false when NaN is involved. *)
Definition fleb (x y : float64) : bool :=
  match x, y with
  | NaN, _ | _, NaN => false
  | Fin a, Fin b => if Rle_dec a b then true else false
  | NInf, _ | _, PInf => true
  | _, _ => false
  end.

(** Python's built-in [min(a, b)] and [max(a, b)] on floats: the first
    argument wins unless the second is strictly better. *)
Definition pymin (a b : float64) : float64 := if fltb b a then b else a.

(** [DataFrame.sort_values(c)] for a key column of timestamps or
    integers: the rows are put in ascending key order (rows of equal key
    keep their order here; pandas leaves that order open). *)
Fixpoint insert_key (x : Z * nat) (l : list (Z * nat)) : list (Z * nat) :=
  match l with
  | [] => [x]
  | y :: l' => if (y.1 <? x.1)%Z then y :: insert_key x l' else x :: l
  end.

Definition order_by (keys : list Z) : list nat :=
  (foldr insert_key [] (zip keys (seq 0 (length keys)))).*2.

Definition reorder {A} (order : list nat) (l : list A) : list A :=
  omap (λ i, l !! i) order.

Definition reorder_col (order : list nat) (c : column) : column :=
  match c with
  | IntCol l => IntCol (reorder order l)
  | FloatCol l => FloatCol (reorder order l)
  | StrCol l => StrCol (reorder order l)
  | TimeCol l => TimeCol (reorder order l)
  end.

Definition sort_values (c : string) (df : DataFrame) : option DataFrame :=
  match cols df !! c with
  | Some (TimeCol keys) | Some (IntCol keys) =>
    Some (mkFrame (nrows df) (reorder_col (order_by keys) <$> cols df))
  | _ => None
  end.

(** ** Result records *)

Inductive Sentiment : Type := positive | negative | neutral.

Record TopicSummary : Type := mkTopicSummary {
  topic_id : Z;
  topic_keywords : list str;
  topic_name : str;
  post_count : nat;
  average_heat_density : float64;
  total_interactions : float64;
  dominant_sentiment : Sentiment;
  trending_score : float64
}.

(** ** Topic naming *)

Definition tech_keywords : list str :=
  u <$> ["ai"; "人工智慧"; "科技"; "技術"; "軟體"; "程式"; "數據"]%string.
Definition finance_keywords : list str :=
  u <$> ["投資"; "股票"; "金融"; "經濟"; "市場"; "價格"; "利率"]%string.
Definition social_keywords : list str :=
  u <$> ["社會"; "政治"; "新聞"; "事件"; "討論"; "觀點"]%string.
Definition life_keywords : list str :=
  u <$> ["生活"; "健康"; "美食"; "旅行"; "娛樂"; "電影"; "音樂"]%string.

Definition any_in (keywords : list str) (s : str) : bool :=
  existsb (λ keyword, contains keyword s) keywords.

Definition _generate_topic_name (keywords : list str) (contents : list str) : str :=
  match keywords with
  | [] => u "未知主題"
  | primary_keyword :: _ =>
    if any_in tech_keywords primary_keyword
    then u "科技趨勢 - " ++ primary_keyword
    else if any_in finance_keywords primary_keyword
    then u "財經動態 - " ++ primary_keyword
    else if any_in social_keywords primary_keyword
    then u "社會議題 - " ++ primary_keyword
    else if any_in life_keywords primary_keyword
    then u "生活分享 - " ++ primary_keyword
    else u "熱門話題 - " ++ primary_keyword
  end.

(** ** Trending score of a cluster *)

Definition _calculate_trending_score (cluster_posts : DataFrame) : float64 :=
  default (Fin 0) (
    posts_sorted ← sort_values "timestamp" cluster_posts ;
    if (nrows posts_sorted <? 2)%nat then Some (Fin 0) else
    ts ← read (gettime "timestamp") posts_sorted ;
    t_last ← last ts ;
    t_first ← head ts ;
    let time_diff := fdiv (total_seconds (t_last - t_first)) (Fin 3600) in
    if fleb time_diff (Fin 0) then Some (Fin 0) else
    ti ← read (getnum "total_interactions") posts_sorted ;
    let interaction_velocity := fdiv (series_sum ti) time_diff in
    f ← read (getnum "freshness_score") posts_sorted ;
    let avg_freshness := series_mean f in
    let trending_score := fmul interaction_velocity avg_freshness in
    Some (pymin (fdiv trending_score (Fin 100)) (Fin 1))).

(** ** Text feature extractor, topic clusterer and keyword momentum *)

(** [re.match(r'^[a-zA-Z一-鿿]+$', w)]; [$] also matches before a
    final newline. *)
Definition word_char (c : N) : bool :=
  ((65 <=? c) && (c <=? 90) || (97 <=? c) && (c <=? 122)
   || (19968 <=? c) && (c <=? 40959))%N.

Definition word_re (w : str) : bool :=
  let body := match last w with Some 10%N => removelast w | _ => w end in
  match body with [] => false | _ => forallb word_char body end.

(** [np.mean(matrix, axis=0)] of a dense matrix with [m] columns. *)
Definition mean_axis0 (m : nat) (rows : list (list R)) : list R :=
  (λ s, s / INR (length rows)) <$> foldr (zip_with Rplus) (replicate m 0) rows.

(** [list.sort(key=lambda x: x[1], reverse=True)]: descending by weight,
    entries of equal weight keep their order. *)
Fixpoint insert_desc (x : str * R) (l : list (str * R)) : list (str * R) :=
  match l with
  | [] => [x]
  | y :: l' => if Rlt_dec x.2 y.2 then y :: insert_desc x l' else x :: l
  end.

Definition sort_desc (l : list (str * R)) : list (str * R) :=
  foldr insert_desc [] l.

(** [Series.groupby(dates).size()]: the distinct dates in ascending order,
    each with the number of its rows. *)
Fixpoint bump (d : Z) (l : list (Z * nat)) : list (Z * nat) :=
  match l with
  | [] => [(d, 1%nat)]
  | (d', n) :: l' =>
    if (d <? d')%Z then (d, 1%nat) :: l
    else if (d =? d')%Z then (d', S n) :: l'
    else (d', n) :: bump d l'
  end.

Definition groupby_size (dates : list Z) : list (Z * nat) := foldr bump [] dates.

(** [Timestamp.date()] as a day number. *)
Definition date_of (t : Z) : Z := (t `div` 86400000000000)%Z.

Definition pymax_Q (a b : Q) : Q := if Qlt_le_dec a b then b else a.

(** What the processor is given: Python's [str] methods, the libraries it
    calls and its configuration. *)
Class Environment : Type := {
  (** Python's [str] methods used on words. *)
  str_lower : str → str;
  str_strip : str → str;
  str_isdigit : str → bool;
  (** [jieba.cut]. *)
  jieba_cut : str → list str;
  (** Membership in [self.chinese_stopwords]. *)
  chinese_stopwords : str → bool;
  (** Configuration read from the environment in [__init__]. *)
  min_interactions_threshold : Z;
  max_topics : Z;
  keyword_min_freq : nat;
  (** [TfidfVectorizer(max_features, min_df, max_df, ngram_range)]:
      [fit_transform] on the documents, giving [get_feature_names_out()]
      and the dense matrix, one row per document; [None] when it raises. *)
  TfidfVectorizer :
    nat → nat → R → nat * nat → list str → option (list str * list (list R));
  (** [SentimentIntensityAnalyzer().polarity_scores(text)['compound']], or
      [None] when the analyser could not be created. *)
  sentiment_analyzer : option (str → float64);
  (** numpy's random generators: the type of their states and
      [RandomState(seed)]. *)
  rng : Type;
  RandomState : Z → rng;
  (** The k-means computation of scikit-learn, a function of the generator
      it draws from: labels and cluster centres, or [None] when it raises,
      and the generator afterwards. *)
  kmeans_run :
    rng → Z → nat → list (list R) → option (list nat * list (list R)) * rng;
  (** [ndarray.argsort()]. *)
  argsort : list R → list nat;
  (** [Series.str.contains(pat, case=..., na=False)] compiles [pat] as a
      regular expression: the matcher, or [None] for [re.error]. *)
  str_contains : str → bool → option (str → bool)
}.

Section Engine.
Context `{Environment}.

(** *** extract_keywords *)

Definition keyword_word (w : str) : bool :=
  (1 <? length w)%nat && negb (chinese_stopwords w)
  && negb (str_isdigit w) && word_re w.

Definition tokens (keep : str → bool) (text : str) : list str :=
  List.filter keep (str_strip <$> jieba_cut (str_lower text)).

Definition keyword_documents (texts : list (option str)) : list str :=
  omap (λ text,
    match text with
    | None => None
    | Some text =>
      match str_strip text with
      | [] => None
      | _ =>
        match tokens keyword_word text with
        | [] => None
        | filtered_words => Some (join (u " ") filtered_words)
        end
      end
    end) texts.

Definition extract_keywords (texts : list (option str)) (max_features : nat)
    : list (str * R) :=
  match texts with
  | [] => []
  | _ =>
    match keyword_documents texts with
    | [] => []
    | processed_texts =>
      match TfidfVectorizer max_features keyword_min_freq (8 / 10) (1, 2)%nat
              processed_texts with
      | None => []
      | Some (feature_names, tfidf_matrix) =>
        let mean_scores := mean_axis0 (length feature_names) tfidf_matrix in
        let keyword_scores := zip feature_names mean_scores in
        take 50 (sort_desc keyword_scores)
      end
    end
  end.

(** *** perform_topic_clustering *)

(** [KMeans(n_clusters, random_state, n_init).fit_predict(X)]: an integer
    [random_state] seeds a generator of its own, [None] draws from the
    global generator [g]. *)
Definition KMeans_fit_predict (random_state : option Z) (n_clusters : Z)
    (n_init : nat) (X : list (list R)) (g : rng)
    : option (list nat * list (list R)) * rng :=
  match random_state with
  | Some seed => ((kmeans_run (RandomState seed) n_clusters n_init X).1, g)
  | None => kmeans_run g n_clusters n_init X
  end.

Definition _analyze_cluster_sentiment (contents : list str) : Sentiment :=
  match sentiment_analyzer, contents with
  | None, _ | _, [] => neutral
  | Some polarity, _ =>
    let sentiment_scores :=
      polarity <$> List.filter
        (λ c, negb (bool_decide (c = [])) && negb (bool_decide (str_strip c = [])))
        contents in
    match sentiment_scores with
    | [] => neutral
    | _ =>
      let avg_sentiment := np_mean sentiment_scores in
      if fgtb avg_sentiment (Fin (1 / 10)) then positive
      else if fltb avg_sentiment (Fin (- (1 / 10))) then negative
      else neutral
    end
  end.

Definition cluster_word (w : str) : bool :=
  (1 <? length w)%nat && negb (chinese_stopwords w).

(** One round of the loop over [range(n_clusters)]: [None] is an
    exception, [Some None] is [continue]. *)
Definition topic_of_cluster (filtered_df : DataFrame) (feature_names : list str)
    (cluster_labels : list nat) (cluster_centers : list (list R))
    (cluster_id : nat) : option (option TopicSummary) :=
  let cluster_mask := (λ l, bool_decide (l = cluster_id)) <$> cluster_labels in
  let cluster_posts := select_rows cluster_mask filtered_df in
  if (nrows cluster_posts <? 2)%nat then Some None else
  cluster_center ← cluster_centers !! cluster_id ;
  let order := argsort cluster_center in
  let top_indices := reverse (drop (length order - 10) order) in
  cluster_keywords ← mapM (λ i, feature_names !! i)
    (List.filter (λ i, if Rlt_dec 0 (default 0 (cluster_center !! i))
                       then true else false) top_indices) ;
  match cluster_keywords with
  | [] => Some None
  | _ =>
    contents ← read (getstr "content") cluster_posts ;
    let topic_name := _generate_topic_name cluster_keywords contents in
    t ← read (getnum "total_interactions") cluster_posts ;
    h ← read (getnum "heat_density") cluster_posts ;
    Some (Some {|
      topic_id := Z.of_nat cluster_id + 1;
      topic_keywords := take 5 cluster_keywords;
      topic_name := topic_name;
      post_count := nrows cluster_posts;
      average_heat_density := series_mean h;
      total_interactions := series_sum t;
      dominant_sentiment := _analyze_cluster_sentiment contents;
      trending_score := _calculate_trending_score cluster_posts |})
  end.

Definition clustering_body (df : DataFrame) (g : rng)
    : option (list TopicSummary) * rng :=
  match read (getnum "total_interactions") df with
  | None => (None, g)
  | Some t =>
    let mask := (λ x, fleb (of_int min_interactions_threshold) x) <$> t in
    let filtered_df := select_rows mask df in
    if (nrows filtered_df <? 3)%nat then (Some [], g) else
    match read (getstr "content") filtered_df with
    | None => (None, g)
    | Some texts =>
      let processed_texts :=
        (λ text, join (u " ") (tokens cluster_word text)) <$> texts in
      match TfidfVectorizer 200 2 (8 / 10) (1, 2)%nat processed_texts with
      | None => (None, g)
      | Some (feature_names, tfidf_matrix) =>
        let n_clusters :=
          (max_topics `min` (2 `max` (Z.of_nat (nrows filtered_df) `div` 10)))%Z in
        match KMeans_fit_predict (Some 42%Z) n_clusters 10 tfidf_matrix g with
        | (None, g') => (None, g')
        | (Some (cluster_labels, cluster_centers), g') =>
          if bool_decide (length cluster_labels = nrows filtered_df) then
            (omap (λ topic, topic) <$>
               mapM (topic_of_cluster filtered_df feature_names
                       cluster_labels cluster_centers)
                    (seq 0 (Z.to_nat n_clusters)), g')
          else (None, g')
        end
      end
    end
  end.

Definition perform_topic_clustering (df : DataFrame) (g : rng)
    : list TopicSummary * rng :=
  if empty df || (nrows df <? 5)%nat then ([], g) else
  match clustering_body df g with
  | (Some topics, g') => (topics, g')
  | (None, g') => ([], g')
  end.

(** *** _calculate_keyword_momentum *)

Definition _calculate_keyword_momentum (keyword : str) (current_date : Z)
    (df : DataFrame) (days : Z) : Q :=
  let end_date := current_date in
  let start_date := (end_date - days)%Z in
  match read (gettime "timestamp") df, read (getstr "content") df,
        str_contains keyword false with
  | Some ts, Some content, Some matches =>
    let mask :=
      zip_with (λ t c,
        (start_date <=? date_of t)%Z && (date_of t <=? end_date)%Z && matches c)
        ts content in
    let recent_posts := select mask ts in
    if (length recent_posts <? 2)%nat then 0%Q else
    let daily_counts := groupby_size (date_of <$> recent_posts) in
    if (length daily_counts <? 2)%nat then 0%Q else
    let values := (λ dn, Z.of_nat dn.2) <$> daily_counts in
    let momentum :=
      if (1 <? length values)%nat
      then (inject_Z (default 0%Z (last values) - default 0%Z (head values))
            / inject_Z (Z.of_nat (length values) - 1))%Q
      else 0%Q in
    pymax_Q 0 momentum
  | _, _, _ => 0%Q
  end.

End Engine.

(** ** Metrics of the posts: step 2 of [run_full_analysis] *)

Module PostMetrics.
Record t : Type := mk {
  post_id : str;
  total_interactions : Z;
  heat_density : float64;
  freshness_score : float64;
  engagement_rate : float64;
  viral_potential : float64
}.
End PostMetrics.

(** The four calculators in a row; the first two read the clock. *)
Definition calculate_metrics (t_heat t_fresh : Z) (df : DataFrame) : DataFrame :=
  calculate_viral_potential
    (calculate_engagement_rate
       (calculate_freshness_score t_fresh
          (calculate_heat_density t_heat df))).

(** Python's [int(x)] of a float: truncation, an exception for NaN and the
    infinities. *)
Definition py_int (x : float64) : option Z :=
  match x with
  | Fin r => Some (if Rle_dec 0 r then Int_part r else - Int_part (- r))%Z
  | _ => None
  end.

(** A column whose values go through [int(...)]. *)
Definition getint (c : string) : stage (list Z) :=
  v ← getcol c ;
  match v with
  | IntCol l => ret l
  | FloatCol l => match mapM py_int l with Some zs => ret zs | None => raise end
  | _ => raise
  end.

(** The loop over [df.iterrows()] that builds one [PostMetrics] per row;
    [None] is the [KeyError] of a missing column. *)
Definition post_metrics_of (df : DataFrame) : option (list PostMetrics.t) :=
  if bool_decide (nrows df = 0%nat) then Some [] else
  read (
    ids ← getstr "post_id" ;
    ti ← getint "total_interactions" ;
    hd ← getnum "heat_density" ;
    fs ← getnum "freshness_score" ;
    er ← getnum "engagement_rate" ;
    vp ← getnum "viral_potential" ;
    ret (zip_with (λ m x, m x)
          (zip_with (λ m x, m x)
            (zip_with (λ m x, m x)
              (zip_with (λ m x, m x)
                (zip_with PostMetrics.mk ids ti) hd) fs) er) vp)
  ) df.

(** ** Keyword trends *)

Module KeywordTrend.
(** [date] is the day whose [isoformat()] the field holds. *)
Record t : Type := mk {
  keyword : str;
  date : Z;
  post_count : nat;
  total_interactions : Z;
  average_sentiment : float64;
  momentum_score : Q
}.
End KeywordTrend.

(** The cells that [Series.count()] counts: those that are not null. *)
Definition notna (c : column) : list bool :=
  match c with
  | FloatCol l => (λ x, negb (is_nan x)) <$> l
  | IntCol l => (λ _, true) <$> l
  | StrCol l => (λ _, true) <$> l
  | TimeCol l => (λ _, true) <$> l
  end.

(** The column of days that [df['timestamp'].dt.date] gives, as day
    numbers. *)
Definition getdays (c : string) : stage (list Z) :=
  v ← getcol c ;
  match v with IntCol l => ret l | _ => raise end.

Section Trends.
Context `{Environment}.

Definition _analyze_sentiment_for_posts (contents : list str) : float64 :=
  match sentiment_analyzer, contents with
  | None, _ | _, [] => Fin 0
  | Some polarity, _ =>
    let scores :=
      polarity <$> List.filter
        (λ c, negb (bool_decide (c = [])) && negb (bool_decide (str_strip c = [])))
        contents in
    match scores with
    | [] => Fin 0
    | _ => np_mean scores
    end
  end.

(** One row of [daily_stats]: the posts of [keyword_posts] of one day. *)
Definition trend_of_day (keyword : str) (df : DataFrame)
    (dates : list Z) (ids : list bool) (ti : list float64) (contents : list str)
    (date : Z) : option KeywordTrend.t :=
  let momentum_score := _calculate_keyword_momentum keyword date df 3 in
  let on_day := (λ d, bool_decide (d = date)) <$> dates in
  let avg_sentiment := _analyze_sentiment_for_posts (select on_day contents) in
  total ← py_int (series_sum (select on_day ti)) ;
  Some {|
    KeywordTrend.keyword := keyword;
    KeywordTrend.date := date;
    KeywordTrend.post_count := length (filter (λ b, b = true) (select on_day ids));
    KeywordTrend.total_interactions := total;
    KeywordTrend.average_sentiment := avg_sentiment;
    KeywordTrend.momentum_score := momentum_score |}.

(** One round of the loop over [top_keywords]: [None] is an exception. *)
Definition trends_of_keyword (df : DataFrame) (keyword : str)
    : option (list KeywordTrend.t) :=
  content ← read (getstr "content") df ;
  matches ← str_contains keyword false ;
  let keyword_posts := select_rows (matches <$> content) df in
  if (nrows keyword_posts <? keyword_min_freq)%nat then Some [] else
  dates ← read (getdays "date") keyword_posts ;
  ids ← read (getcol "post_id") keyword_posts ;
  ti ← read (getnum "total_interactions") keyword_posts ;
  _ ← read (getcol "timestamp") keyword_posts ;
  contents ← read (getstr "content") keyword_posts ;
  mapM (trend_of_day keyword df dates (notna ids) ti contents)
       (groupby_size dates).*1.

(** The loop over [top_keywords], reading the frame. *)
Definition trends_of_keywords (top_keywords : list str)
    : stage (list KeywordTrend.t) :=
  λ df, (@List.concat _ <$> mapM (trends_of_keyword df) top_keywords, df).

Definition keyword_trends_body : stage (list KeywordTrend.t) :=
  ts ← gettime "timestamp" ;
  assign "date" (IntCol (date_of <$> ts)) ;;
  content ← getstr "content" ;
  let all_keywords := extract_keywords (Some <$> content) 50 in
  let top_keywords := (take 20 all_keywords).*1 in
  trends_of_keywords top_keywords.

(** [days] is not used: the momentum looks back three days. *)
Definition analyze_keyword_trends (df : DataFrame) (days : Z)
    : list KeywordTrend.t * DataFrame :=
  if empty df then ([], df) else
  match keyword_trends_body df with
  | (Some keyword_trends, df') => (keyword_trends, df')
  | (None, df') => ([], df')
  end.

End Trends.

(** ** Saving the results: [save_processed_data] *)

(** The rows sent to the three tables, without their [processed_at]. *)
Inductive payload : Type :=
| metric_data (post_id : str) (total_interactions : Z)
    (heat_density freshness_score engagement_rate viral_potential : float64)
| topic_data (topic_keywords : list str) (topic_name : str) (post_count : nat)
    (average_heat_density total_interactions : float64)
    (dominant_sentiment : Sentiment) (trending_score : float64)
| trend_data (keyword : str) (date : Z) (post_count : nat)
    (total_interactions : Z) (average_sentiment : float64) (momentum_score : Q).

(** [client.table(t).upsert(row, on_conflict=c)] and
    [client.table(t).insert(row)], with the [processed_at] of the row. *)
Inductive request : Type :=
| table_upsert (table : string) (data : payload) (processed_at : Z) (on_conflict : string)
| table_insert (table : string) (data : payload) (processed_at : Z).

(** The database service and the clock. *)
Class Service : Type := {
  world : Type;
  (** [datetime.now(timezone.utc)]. *)
  utcnow : world → Z * world;
  (** [request.execute()]: whether [result.data] is not empty, or [None]
      when it raises. *)
  execute : request → world → option bool * world
}.

Record SaveResults : Type := mkSaveResults {
  post_metrics_saved : nat;
  topics_saved : nat;
  trends_saved : nat;
  errors : nat
}.

Definition metric_request (metric : PostMetrics.t) (processed_at : Z) : request :=
  table_upsert "processed_post_metrics"
    (metric_data (PostMetrics.post_id metric)
       (PostMetrics.total_interactions metric)
       (PostMetrics.heat_density metric) (PostMetrics.freshness_score metric)
       (PostMetrics.engagement_rate metric) (PostMetrics.viral_potential metric))
    processed_at "post_id".

Definition topic_request (topic : TopicSummary) (processed_at : Z) : request :=
  table_insert "processed_topic_summary"
    (topic_data (topic_keywords topic) (topic_name topic) (post_count topic)
       (average_heat_density topic) (total_interactions topic)
       (dominant_sentiment topic) (trending_score topic))
    processed_at.

Definition trend_request (trend : KeywordTrend.t) (processed_at : Z) : request :=
  table_upsert "processed_keyword_trends"
    (trend_data (KeywordTrend.keyword trend) (KeywordTrend.date trend)
       (KeywordTrend.post_count trend) (KeywordTrend.total_interactions trend)
       (KeywordTrend.average_sentiment trend) (KeywordTrend.momentum_score trend))
    processed_at "keyword,date".

Section Saving.
Context `{Service}.

(** One round of a loop, with the counters [(saved, errors)]: the inner
    [try] counts an exception and goes on. *)
Definition save_one (req : Z → request) (counters : nat * nat) (w : world)
    : (nat * nat) * world :=
  let (processed_at, w1) := utcnow w in
  match execute (req processed_at) w1 with
  | (Some true, w2) => ((S counters.1, counters.2), w2)
  | (Some false, w2) => (counters, w2)
  | (None, w2) => ((counters.1, S counters.2), w2)
  end.

Fixpoint save_all {A} (req : A → Z → request) (items : list A)
    (counters : nat * nat) (w : world) : (nat * nat) * world :=
  match items with
  | [] => (counters, w)
  | item :: items' =>
    let (counters', w') := save_one (req item) counters w in
    save_all req items' counters' w'
  end.

Definition save_processed_data (post_metrics : list PostMetrics.t)
    (topic_summaries : list TopicSummary) (keyword_trends : list KeywordTrend.t)
    (w : world) : SaveResults * world :=
  let '((metrics_saved, errors1), w1) :=
    save_all metric_request post_metrics (0, 0)%nat w in
  let '((topics_saved, errors2), w2) :=
    save_all topic_request topic_summaries (0%nat, errors1) w1 in
  let '((trends_saved, errors3), w3) :=
    save_all trend_request keyword_trends (0%nat, errors2) w2 in
  (mkSaveResults metrics_saved topics_saved trends_saved errors3, w3).

End Saving.

(** ** The whole run: [run_full_analysis] *)

(** [results_summary], without the execution time; [save_results] is
    [None] for the empty dict, [analysis_errors] the number of messages in
    [errors]. *)
Record AnalysisSummary : Type := mkSummary {
  posts_processed : nat;
  metrics_calculated : nat;
  topics_identified : nat;
  keywords_analyzed : nat;
  save_results : option SaveResults;
  analysis_errors : nat
}.

Section Analysis.
Context `{Environment} `{Service}.

(** [df] is what [fetch_raw_posts] returns: the frame of the fetched rows,
    or an empty frame when no row was found or the fetch failed; [t_heat]
    and [t_fresh] are the clock readings of the two calculators that read
    the clock. *)
Definition run_full_analysis (df : DataFrame) (t_heat t_fresh : Z)
    (days_back : Z) (g : rng) (w : world) : AnalysisSummary * world :=
  if empty df then (mkSummary 0 0 0 0 None 0, w) else
  let posts_processed := nrows df in
  let df := calculate_metrics t_heat t_fresh df in
  match post_metrics_of df with
  | None => (mkSummary posts_processed 0 0 0 None 1, w)
  | Some post_metrics =>
    let metrics_calculated := length post_metrics in
    let (topic_summaries, _) := perform_topic_clustering df g in
    let topics_identified := length topic_summaries in
    let (keyword_trends, _) := analyze_keyword_trends df days_back in
    let keywords_analyzed :=
      size (list_to_set (KeywordTrend.keyword <$> keyword_trends) : gset str) in
    let (save_results, w') :=
      save_processed_data post_metrics topic_summaries keyword_trends w in
    (mkSummary posts_processed metrics_calculated topics_identified
       keywords_analyzed (Some save_results) 0, w')
  end.

End Analysis.

(** * Vocabulary of the properties, and example data *)

(** ** Batches of fetched posts *)

(** The fields of a fetched post after [fillna]. *)
Definition likes_of (p : RawPost) : Z := default 0%Z (likes p).
Definition replies_of (p : RawPost) : Z := default 0%Z (replies p).
Definition reposts_of (p : RawPost) : Z := default 0%Z (reposts p).
Definition content_of (p : RawPost) : str := default [] (content p).
Definition interactions_of (p : RawPost) : Z :=
  (likes_of p + replies_of p + reposts_of p)%Z.

(** The frame holds the posts, one row each, in the columns that
    [fetch_raw_posts] delivers. *)
Record raw_columns (posts : list RawPost) (df : DataFrame) : Prop := {
  rc_rows : nrows df = length posts;
  rc_username : cols df !! "username" = Some (StrCol (username <$> posts));
  rc_timestamp : cols df !! "timestamp" = Some (TimeCol (timestamp <$> posts));
  rc_likes : cols df !! "likes" = Some (IntCol (likes_of <$> posts));
  rc_replies : cols df !! "replies" = Some (IntCol (replies_of <$> posts));
  rc_reposts : cols df !! "reposts" = Some (IntCol (reposts_of <$> posts));
  rc_content : cols df !! "content" = Some (StrCol (content_of <$> posts));
  rc_total :
    cols df !! "total_interactions" = Some (IntCol (interactions_of <$> posts))
}.

Definition non_negative_counters (p : RawPost) : Prop :=
  (0 <= likes_of p ∧ 0 <= replies_of p ∧ 0 <= reposts_of p)%Z.

(** ** Heat density and freshness *)

(** [heat_density] of a post before the batch normalisation. *)
Definition heat_raw (now : Z) (p : RawPost) : R :=
  (IZR (likes_of p) * 1 + IZR (replies_of p) * 2 + IZR (reposts_of p) * (3 / 2))
  * exp (- (1 / 10) * (IZR (now - timestamp p) / 1000000000 / 3600) / 24)
  * (1 + ln (1 + IZR (Z.of_nat (length (content_of p)))) / 10).

(** What is claimed of the [heat_density] column [hd] of a batch: it has a
    value in [0,100] for every post; it is the raw heat divided by the
    batch maximum [m] and scaled by 100 when [m > 0], and the raw heat
    otherwise; a post of maximal raw heat gets exactly 100 when some post
    has interactions; every post gets 0 when none has. *)
Definition heat_density_spec (now : Z) (posts : list RawPost) (hd : list R) : Prop :=
  length hd = length posts
  ∧ Forall (λ x, 0 <= x <= 100) hd
  ∧ (∃ m, m ∈ (heat_raw now <$> posts)
        ∧ Forall (λ p, heat_raw now p <= m) posts
        ∧ hd = (λ p, if Rlt_dec 0 m then heat_raw now p / m * 100
                     else heat_raw now p) <$> posts)
  ∧ (Exists (λ p, (0 < interactions_of p)%Z) posts →
       Exists (λ x, x = 100) hd
       ∧ ∀ i p, posts !! i = Some p →
           Forall (λ q, heat_raw now q <= heat_raw now p) posts →
           hd !! i = Some 100)
  ∧ (Forall (λ p, interactions_of p = 0%Z) posts → Forall (λ x, x = 0) hd).

(** A batch of three posts written at the same instant, one of them with
    ten likes. *)
Definition example_posts : list RawPost :=
  [ mkRawPost (u "p1") (u "ann") (Some (u "first post")) 0 0 (Some 10%Z) (Some 0%Z) (Some 0%Z);
    mkRawPost (u "p2") (u "ann") (Some (u "second post")) 0 0 (Some 0%Z) None (Some 0%Z);
    mkRawPost (u "p3") (u "bob") None 0 0 (Some 0%Z) (Some 0%Z) (Some 0%Z) ].

(** [clip(x, 0, 1)] and the freshness of a post [h] hours old, as the
    specification words them. *)
Definition clip01 (x : R) : R :=
  if Rlt_dec x 0 then 0 else if Rlt_dec 1 x then 1 else x.

Definition freshness_of (h : R) : R := clip01 (exp (- h / 24)).

Definition hours_of (now t : Z) : R := IZR (now - t) / 1000000000 / 3600.

(** ** Columns written by the calculators *)

(** A computation writes only columns of [W] and keeps the row count,
    whether it ends normally or by an exception. *)
Definition frames {A} (W : list string) (m : stage A) : Prop :=
  ∀ df, nrows (m df).2 = nrows df
        ∧ ∀ c, c ∉ W → cols (m df).2 !! c = cols df !! c.

(** The columns each calculator assigns. *)
Definition heat_fields : list string :=
  ["hours_since_post"; "time_decay"; "base_heat"; "content_length";
   "length_factor"; "heat_density"]%string.
Definition freshness_fields : list string :=
  ["hours_since_post"; "freshness_score"]%string.
Definition engagement_fields : list string :=
  ["user_avg_interactions"; "engagement_rate"]%string.
Definition viral_fields : list string :=
  ["repost_ratio"; "interaction_velocity"; "has_hashtag"; "has_mention";
   "has_url"; "viral_potential"]%string.

(** The fields of a raw post. *)
Definition raw_fields : list string :=
  ["post_id"; "username"; "content"; "timestamp"; "likes"; "replies";
   "reposts"]%string.

(** The calculators in the order in which [run_full_analysis] applies
    them, and the fields that exist before each: the raw fields and those
    of the calculators before it. *)
Inductive calculator : Type := heat | freshness | engagement | viral.

Definition run_calculator (s : calculator) (now : Z) (df : DataFrame) : DataFrame :=
  match s with
  | heat => calculate_heat_density now df
  | freshness => calculate_freshness_score now df
  | engagement => calculate_engagement_rate df
  | viral => calculate_viral_potential df
  end.

Definition fields_before (s : calculator) : list string :=
  match s with
  | heat => raw_fields
  | freshness => raw_fields ++ heat_fields
  | engagement => raw_fields ++ heat_fields ++ freshness_fields
  | viral => raw_fields ++ heat_fields ++ freshness_fields ++ engagement_fields
  end.

(** ** Sorted frames, sums and extremes *)

(** Keys with their row numbers, in the order [sort_values] gives. *)
Definition key_le (a b : Z * nat) : Prop := (a.1 <= b.1)%Z.

Definition sorted_pairs (keys : list Z) : list (Z * nat) :=
  foldr insert_key [] (zip keys (seq 0 (length keys))).

Definition Zsum (l : list Z) : Z := foldr Z.add 0%Z l.
Definition Rsum (l : list R) : R := foldr Rplus 0 l.

Definition earliest (ts : list Z) : Z := foldr Z.min (default 0%Z (head ts)) ts.
Definition latest (ts : list Z) : Z := foldr Z.max (default 0%Z (head ts)) ts.

(** ** Clusters *)

(** The frame of a cluster: its timestamps, interaction counts and
    freshness scores, one row per post. *)
Record cluster_columns (ts ti : list Z) (fs : list R) (df : DataFrame) : Prop := {
  cc_rows : nrows df = length ts;
  cc_total_rows : length ti = length ts;
  cc_fresh_rows : length fs = length ts;
  cc_timestamp : cols df !! "timestamp" = Some (TimeCol ts);
  cc_total : cols df !! "total_interactions" = Some (IntCol ti);
  cc_fresh : cols df !! "freshness_score" = Some (FloatCol (Fin <$> fs))
}.

(** Hours between the earliest and the latest post. *)
Definition time_span_hours (ts : list Z) : R := hours_of (latest ts) (earliest ts).

(** The score as the specification words it. *)
Definition trending_spec (ts ti : list Z) (fs : list R) : R :=
  if (length ts <? 2)%nat then 0
  else if Rle_dec (time_span_hours ts) 0 then 0
  else Rmin (IZR (Zsum ti) / time_span_hours ts
             * (Rsum fs / INR (length fs)) / 100) 1.

(** A cluster of three posts, written at hours 0, 3 and 5. *)
Definition example_cluster : DataFrame :=
  mkFrame 3
    (<["freshness_score" := FloatCol (Fin <$> [8 / 10; 9 / 10; 95 / 100])]>
    (<["total_interactions" := IntCol [100; 150; 200]%Z]>
    (<["timestamp" := TimeCol [0; 10800000000000; 18000000000000]%Z]> ∅))).

(** The posts that pass the interaction threshold. *)
Definition passing `{Environment} (ti : list Z) : list Z :=
  filter (λ z, (min_interactions_threshold <= z)%Z) ti.

(** ** Keyword weights *)

#[local] Instance R_eq_dec : EqDecision R := Req_dec_T.

Definition weight_ge (a b : str * R) : Prop := b.2 <= a.2.

(** ** An environment for examples *)

(** Texts of lower-case ASCII words separated by blanks: the segmenter
    cuts at blanks, lowering changes nothing, stripping removes blanks at
    both ends, no word is a number or a stop word. *)
Fixpoint split_blank (s : str) : list str :=
  match s with
  | [] => [[]]
  | c :: s' =>
    if (c =? 32)%N then [] :: split_blank s'
    else match split_blank s' with
         | w :: ws => (c :: w) :: ws
         | [] => [[c]]
         end
  end.

Fixpoint lstrip_blank (s : str) : str :=
  match s with
  | c :: s' => if (c =? 32)%N then lstrip_blank s' else s
  | [] => []
  end.

Definition strip_blank (s : str) : str :=
  reverse (lstrip_blank (reverse (lstrip_blank s))).

(** Four documents in which [aa] and [bb] occur three times each and every
    other word and every pair of words once. *)
Definition tie_texts : list str := u <$> ["bb aa"; "aa bb"; "bb cc aa"; "dd ee"]%string.

(** What scikit-learn's vectoriser gives for these documents with
    [min_df=3], [max_df=0.8], [ngram_range=(1,2)]: the vocabulary is
    [aa], [bb], in lexicographic order, and the rows are normalised to
    length 1. *)
Definition tie_vectorizer (max_features min_df : nat) (max_df : R)
    (ngram_range : nat * nat) (docs : list str)
    : option (list str * list (list R)) :=
  if bool_decide (docs = tie_texts ∧ min_df = 3%nat)
  then Some ([u "aa"; u "bb"],
             [ [/ sqrt 2; / sqrt 2]; [/ sqrt 2; / sqrt 2];
               [/ sqrt 2; / sqrt 2]; [0; 0] ])
  else None.

#[local] Instance example_env : Environment := {|
  str_lower := λ s, s;
  str_strip := strip_blank;
  str_isdigit := λ _, false;
  jieba_cut := split_blank;
  chinese_stopwords := λ _, false;
  min_interactions_threshold := 5;
  max_topics := 20;
  keyword_min_freq := 3;
  TfidfVectorizer := tie_vectorizer;
  sentiment_analyzer := None;
  rng := unit;
  RandomState := λ _, tt;
  kmeans_run := λ g _ _ _, (None, g);
  argsort := λ l, seq 0 (length l);
  str_contains := λ pat case, Some (contains pat)
|}.

(** The order the claim names: a term is first seen where it first occurs
    in the stream of tokens, and of two terms of equal weight the one
    seen first comes first. *)
Definition first_seen (stream : list str) (t : str) : option nat :=
  fst <$> list_find (λ x, x = t) stream.

Definition ties_by_first_seen (stream : list str) (out : list (str * R)) : Prop :=
  ∀ i j a b ia ib,
    (i < j)%nat → out !! i = Some a → out !! j = Some b → a.2 = b.2 →
    first_seen stream a.1 = Some ia → first_seen stream b.1 = Some ib →
    (ia <= ib)%nat.

(** ** Daily counts and the look-back window *)

(** Number of entries of a day, and number of distinct days. *)
Definition count_on (d : Z) (dates : list Z) : nat :=
  length (filter (λ x, x = d) dates).

Definition n_days (dates : list Z) : nat := size (list_to_set dates : gset Z).

(** The count recorded for day [k], 0 when there is none. *)
Fixpoint assoc (k : Z) (l : list (Z * nat)) : nat :=
  match l with
  | [] => 0
  | (k', n) :: l' => if (k =? k')%Z then n else assoc k l'
  end.

Definition key_lt (a b : Z * nat) : Prop := (a.1 < b.1)%Z.

(** The look-back window of [days] days that ends at [current_date], both
    ends included. *)
Definition in_window (current_date days d : Z) : Prop :=
  (current_date - days <= d <= current_date)%Z.

#[local] Instance in_window_dec c n d : Decision (in_window c n d).
Proof. unfold in_window. apply _. Defined.

(** The posts of the window, and the dates of those that match. *)
Definition window_posts (current_date days : Z) (ts : list Z) (content : list str)
    : list (Z * str) :=
  filter (λ tc, in_window current_date days (date_of tc.1)) (zip ts content).

Definition matching_dates (matches : str → bool) (posts : list (Z * str)) : list Z :=
  (λ tc, date_of tc.1) <$> filter (λ tc : Z * str, matches tc.2 = true) posts.

(** Growth per day between the first and the last day of the counts,
    negative growth reported as 0. *)
Definition growth (first_count last_count days_with_data : nat) : Q :=
  let m := (inject_Z (Z.of_nat last_count - Z.of_nat first_count)
            / inject_Z (Z.of_nat days_with_data - 1))%Q in
  if Qlt_le_dec 0 m then m else 0%Q.

(** ** Example batches for the momentum *)

(** Midnight of day [d]. *)
Definition day (d : Z) : Z := (d * 86400000000000)%Z.

(** Twelve posts about "ai" on three consecutive days: two on day 0, four
    on day 1 and six on day 2. *)
Definition momentum_timestamps : list Z :=
  [day 0; (day 0 + 1); day 1; day 1; (day 1 + 7); (day 2 - 1);
   day 2; day 2; day 2; (day 2 + 5); (day 3 - 1); (day 3 - 1)]%Z.

Definition momentum_frame : DataFrame :=
  mkFrame 12
    (<["content" := StrCol (replicate 12 (u "news about ai"))]>
    (<["timestamp" := TimeCol momentum_timestamps]> ∅)).

(** The same batch with one more post, five days before the end date. *)
Definition momentum_frame_with_old_post : DataFrame :=
  mkFrame 13
    (<["content" := StrCol (replicate 13 (u "news about ai"))]>
    (<["timestamp" := TimeCol (day (-3) :: momentum_timestamps)]> ∅)).

(** ** Engagement of a user *)

(** The interaction counts of the posts of [name] in the batch, and their
    mean. *)
Definition user_posts (us : list str) (ti : list Z) (name : str) : list Z :=
  (filter (λ kv : str * Z, kv.1 = name) (zip us ti)).*2.

Definition user_mean (us : list str) (ti : list Z) (name : str) : R :=
  IZR (Zsum (user_posts us ti name)) / INR (length (user_posts us ti name)).

(** ** Viral potential *)

(** The frame holds the posts with the two columns that
    [calculate_freshness_score] has assigned at clock reading [now]. *)
Record fresh_columns (now : Z) (posts : list RawPost) (df : DataFrame) : Prop := {
  fc_raw : raw_columns posts df;
  fc_hours : cols df !! "hours_since_post"
             = Some (FloatCol (Fin <$> (hours_of now <$> (timestamp <$> posts))));
  fc_fresh : cols df !! "freshness_score"
             = Some (FloatCol (Fin <$> (freshness_of <$>
                       (hours_of now <$> (timestamp <$> posts)))))
}.

(** The number of the three content signals a text shows. *)
Definition content_signals (s : str) : Z :=
  (bool_int (contains (u "#") s) + bool_int (contains (u "@") s)
   + bool_int (contains (u "http") s))%Z.

(** [viral_potential] of a post before the batch normalisation. *)
Definition viral_raw (now : Z) (p : RawPost) : R :=
  IZR (reposts_of p) / (IZR (interactions_of p) + 1) * (4 / 10)
  + ln (1 + IZR (interactions_of p) / (hours_of now (timestamp p) + 1)) * (3 / 10)
  + IZR (content_signals (content_of p)) * (1 / 10)
  + freshness_of (hours_of now (timestamp p)) * (2 / 10).

(** A post with counters that are not negative, written at or before
    [now]. *)
Definition past_post (now : Z) (p : RawPost) : Prop :=
  non_negative_counters p ∧ (timestamp p <= now)%Z.

(** ** A batch that clusters into one topic *)

(** Five posts; the third has too few interactions to take part.  For the
    other four the vectoriser with [min_df=2], [max_df=0.8],
    [ngram_range=(1,2)] keeps [aa], [aa bb] and [bb], each in three of the
    four documents, so the rows of these three are [1/sqrt 3] throughout
    and the row of [cc dd] is zero; k-means with two clusters puts the
    three equal rows together. *)
Definition cluster_texts : list str :=
  u <$> ["aa bb"; "aa bb"; "zz"; "aa bb"; "cc dd"]%string.

Definition cluster_frame : DataFrame :=
  set_col "heat_density" (FloatCol (Fin <$> [1; 1 / 2; 0; 1 / 4; 1 / 8]))
    (set_col "total_interactions" (IntCol [10; 20; 1; 30; 40]%Z)
       (set_col "content" (StrCol cluster_texts) (mkFrame 5 ∅))).

Definition cluster_vectorizer (max_features min_df : nat) (max_df : R)
    (ngram_range : nat * nat) (docs : list str)
    : option (list str * list (list R)) :=
  if bool_decide (docs = u <$> ["aa bb"; "aa bb"; "aa bb"; "cc dd"]%string
                  ∧ min_df = 2%nat)
  then Some (u <$> ["aa"; "aa bb"; "bb"]%string,
             [ [/ sqrt 3; / sqrt 3; / sqrt 3]; [/ sqrt 3; / sqrt 3; / sqrt 3];
               [/ sqrt 3; / sqrt 3; / sqrt 3]; [0; 0; 0] ])
  else None.

Definition cluster_env : Environment := {|
  str_lower := λ s, s;
  str_strip := strip_blank;
  str_isdigit := λ _, false;
  jieba_cut := split_blank;
  chinese_stopwords := λ _, false;
  min_interactions_threshold := 5;
  max_topics := 20;
  keyword_min_freq := 3;
  TfidfVectorizer := cluster_vectorizer;
  sentiment_analyzer := None;
  rng := unit;
  RandomState := λ _, tt;
  kmeans_run := λ g n_clusters _ _,
    if bool_decide (n_clusters = 2%Z)
    then (Some ([0; 0; 0; 1]%nat, [[/ sqrt 3; / sqrt 3; / sqrt 3]; [0; 0; 0]]), g)
    else (None, g);
  argsort := λ l, seq 0 (length l);
  str_contains := λ pat case, Some (contains pat)
|}.

Definition well_formed_topic `{Environment} (t : TopicSummary) : Prop :=
  (2 ≤ post_count t)%nat
  ∧ (1 ≤ length (topic_keywords t) ≤ 5)%nat
  ∧ (1 ≤ topic_id t ≤ max_topics)%Z
  ∧ ∃ k label, head (topic_keywords t) = Some k ∧ topic_name t = label ++ k.

(** ** Texts without keywords *)

(** A missing text, a blank one, or one of which no word passes the filter
    of [extract_keywords]. *)
Definition no_keywords `{Environment} (text : option str) : Prop :=
  match text with
  | None => True
  | Some s => str_strip s = [] ∨ tokens keyword_word s = []
  end.

(** ** Keyword trends of a batch *)

(** The posts whose text the keyword's pattern matches, the posts of a day,
    and the keywords that [analyze_keyword_trends] follows. *)
Definition keyword_posts_of (matches : str → bool) (posts : list RawPost)
    : list RawPost :=
  filter (λ p, matches (content_of p) = true) posts.

Definition posts_of_day (d : Z) (posts : list RawPost) : list RawPost :=
  filter (λ p, date_of (timestamp p) = d) posts.

Definition top_keywords_of `{Environment} (posts : list RawPost) : list str :=
  (take 20 (extract_keywords (Some <$> (content_of <$> posts)) 50)).*1.

(** The record of keyword [kw] for day [d], from the posts that match. *)
Definition trend_record `{Environment} (df : DataFrame) (kw : str)
    (posts : list RawPost) (d : Z) : KeywordTrend.t :=
  KeywordTrend.mk kw d
    (length (posts_of_day d posts))
    (Zsum (interactions_of <$> posts_of_day d posts))
    (_analyze_sentiment_for_posts (content_of <$> posts_of_day d posts))
    (_calculate_keyword_momentum kw d df 3).

(** The frame after [df['date'] = df['timestamp'].dt.date]. *)
Record dated_columns (posts : list RawPost) (df : DataFrame) : Prop := {
  dc_raw : raw_columns posts df;
  dc_post_id : cols df !! "post_id" = Some (StrCol (post_id <$> posts));
  dc_date :
    cols df !! "date" = Some (IntCol ((λ p, date_of (timestamp p)) <$> posts))
}.

(** What a trend record says about the batch: its keyword reaches the
    minimal frequency, and the record counts the posts of its day that
    match the keyword. *)
Definition counts_posts `{Environment} (posts : list RawPost)
    (r : KeywordTrend.t) : Prop :=
  ∃ matches,
    str_contains (KeywordTrend.keyword r) false = Some matches
    ∧ let day := posts_of_day (KeywordTrend.date r)
                   (keyword_posts_of matches posts) in
      (keyword_min_freq ≤ length (keyword_posts_of matches posts))%nat
      ∧ (1 ≤ length day)%nat
      ∧ KeywordTrend.post_count r = length day
      ∧ KeywordTrend.total_interactions r = Zsum (interactions_of <$> day)
      ∧ KeywordTrend.average_sentiment r
        = _analyze_sentiment_for_posts (content_of <$> day).

(** The records of one keyword: one for each day on which a post matches
    it, in ascending order of the days, and none when too few posts match. *)
Definition keyword_block `{Environment} (posts : list RawPost) (kw : str)
    (block : list KeywordTrend.t) : Prop :=
  ∃ matches,
    str_contains kw false = Some matches
    ∧ Forall (λ r, KeywordTrend.keyword r = kw) block
    ∧ StronglySorted Z.lt (KeywordTrend.date <$> block)
    ∧ ∀ d, d ∈ KeywordTrend.date <$> block
           ↔ (keyword_min_freq ≤ length (keyword_posts_of matches posts))%nat
             ∧ ∃ p, p ∈ keyword_posts_of matches posts
                    ∧ date_of (timestamp p) = d.

(** Four posts of two days with the texts of [tie_texts]. *)
Definition trend_posts : list RawPost :=
  [ mkRawPost (u "p1") (u "ann") (Some (u "bb aa")) 3600000000000 0
              (Some 3%Z) (Some 1%Z) None;
    mkRawPost (u "p2") (u "bob") (Some (u "aa bb")) 7200000000000 0
              (Some 5%Z) None (Some 2%Z);
    mkRawPost (u "p3") (u "ann") (Some (u "bb cc aa")) 90000000000000 0
              (Some 7%Z) (Some 0%Z) (Some 0%Z);
    mkRawPost (u "p4") (u "cat") (Some (u "dd ee")) 93600000000000 0
              None None None ].

(** ** Sentiment *)

(** The label of an average compound score. *)
Definition sentiment_label (avg : float64) : Sentiment :=
  if fgtb avg (Fin (1 / 10)) then positive
  else if fltb avg (Fin (- (1 / 10))) then negative
  else neutral.

(** The analyser gives compound scores between -1 and 1. *)
Definition compound_scores `{Environment} : Prop :=
  ∀ polarity text, sentiment_analyzer = Some polarity →
    ∃ r, polarity text = Fin r ∧ -1 <= r <= 1.

(** An analyser that knows two words. *)
Definition two_word_polarity (text : str) : float64 :=
  if contains (u "good") text then Fin (1 / 2)
  else if contains (u "bad") text then Fin (- (3 / 4))
  else Fin 0.

Definition sentiment_env : Environment := {|
  str_lower := λ s, s;
  str_strip := strip_blank;
  str_isdigit := λ _, false;
  jieba_cut := split_blank;
  chinese_stopwords := λ _, false;
  min_interactions_threshold := 5;
  max_topics := 20;
  keyword_min_freq := 3;
  TfidfVectorizer := tie_vectorizer;
  sentiment_analyzer := Some two_word_polarity;
  rng := unit;
  RandomState := λ _, tt;
  kmeans_run := λ g _ _ _, (None, g);
  argsort := λ l, seq 0 (length l);
  str_contains := λ pat case, Some (contains pat)
|}.

(** ** Observing the requests *)

(** A request without its [processed_at]. *)
Definition sent (r : request) : string * payload * option string :=
  match r with
  | table_upsert table data _ on_conflict => (table, data, Some on_conflict)
  | table_insert table data _ => (table, data, None)
  end.

(** The service that also keeps the list of the requests it was given. *)
Definition logged (S : Service) : Service := {|
  world := list request * @world S;
  utcnow := λ lw, let (t, w') := @utcnow S lw.2 in (t, (lw.1, w'));
  execute := λ req lw,
    let (r, w') := @execute S req lw.2 in (r, (lw.1 ++ [req], w'))
|}.

(** The rows of the results, as they are sent. *)
Definition rows_of (post_metrics : list PostMetrics.t)
    (topic_summaries : list TopicSummary) (keyword_trends : list KeywordTrend.t)
    : list (string * payload * option string) :=
  ((λ m, sent (metric_request m 0)) <$> post_metrics)
  ++ ((λ t, sent (topic_request t 0)) <$> topic_summaries)
  ++ ((λ k, sent (trend_request k 0)) <$> keyword_trends).

(** A service that stores every row, and one that answers every second
    request with an exception. *)
Definition storing_service : Service := {|
  world := Z;
  utcnow := λ t, (t, (t + 1)%Z);
  execute := λ _ t, (Some true, t)
|}.

Definition flaky_service : Service := {|
  world := Z;
  utcnow := λ t, (t, (t + 1)%Z);
  execute := λ _ t, (if Z.even t then None else Some true, t)
|}.

Definition example_metric : PostMetrics.t :=
  PostMetrics.mk (u "p1") 4 (Fin 100) (Fin 1) (Fin 0) (Fin 1).

Definition example_topic : TopicSummary :=
  mkTopicSummary 1 [u "aa"] (u "aa") 2 (Fin 50) (Fin 11) neutral (Fin 0).

Definition example_trend : KeywordTrend.t :=
  KeywordTrend.mk (u "aa") 0 2 11 (Fin 0) 0.

(** ** Frames that agree on some columns *)

Definition same_on (fields : list string) (df1 df2 : DataFrame) : Prop :=
  nrows df1 = nrows df2 ∧ ∀ c, c ∈ fields → cols df1 !! c = cols df2 !! c.

(** The columns that the topic clusterer reads. *)
Definition cluster_fields : list string :=
  ["total_interactions"; "content"; "heat_density"; "timestamp";
   "freshness_score"]%string.

(** ** The momentum as the claims word it *)

(** Growth between the first and the last day divided by the number of
    days of the window minus one, negative growth reported as 0. *)
Definition claimed_momentum (first_count last_count : nat) (window_days : Z) : Q :=
  let m := (inject_Z (Z.of_nat last_count - Z.of_nat first_count)
            / inject_Z (window_days - 1))%Q in
  if Qlt_le_dec 0 m then m else 0%Q.

(** A window of [days] calendar days of which the end date is the last. *)
Definition in_claimed_window (current_date days d : Z) : Prop :=
  (current_date - days < d <= current_date)%Z.

#[local] Instance in_claimed_window_dec c n d : Decision (in_claimed_window c n d).
Proof. unfold in_claimed_window. apply _. Defined.

Definition claimed_window_posts (current_date days : Z) (ts : list Z)
    (content : list str) : list (Z * str) :=
  filter (λ tc, in_claimed_window current_date days (date_of tc.1)) (zip ts content).

(** Eight posts about "ai": two on day 0, none on day 1 and six on day 2. *)
Definition gap_timestamps : list Z :=
  [day 0; (day 0 + 1); day 2; day 2; day 2; (day 2 + 5); (day 3 - 1); (day 3 - 1)]%Z.

Definition momentum_frame_with_gap : DataFrame :=
  mkFrame 8
    (<["content" := StrCol (replicate 8 (u "news about ai"))]>
    (<["timestamp" := TimeCol gap_timestamps]> ∅)).

(** The batch of [momentum_frame] with one more post, on day -1, three
    days before the end date 2. *)
Definition momentum_frame_with_boundary_post : DataFrame :=
  mkFrame 13
    (<["content" := StrCol (replicate 13 (u "news about ai"))]>
    (<["timestamp" := TimeCol (day (-1) :: momentum_timestamps)]> ∅)).

(** ** Posts of the last year *)

(** A post at most 365 days old at the clock reading [now]: its decay
    factor [exp(-days)] is at least [exp(-365)], far above the smallest
    positive float64. *)
Definition recent (now t : Z) : Prop := (now - t <= day 365)%Z.

(** * Properties *)

(** ** Running a stage *)

Section Run.
Context {B : Type}.

Lemma run_assign c v (k : unit → stage B) df :
  (assign c v ≫= k) df = k tt (set_col c v df).
Proof. reflexivity. Qed.

Lemma run_getnum_float c l (k : list float64 → stage B) df :
  cols df !! c = Some (FloatCol l) → (getnum c ≫= k) df = k l df.
Proof. intros H. unfold getnum, getcol, mbind, stage_bind, bind. by rewrite H. Qed.

Lemma run_getnum_int c l (k : list float64 → stage B) df :
  cols df !! c = Some (IntCol l) → (getnum c ≫= k) df = k (of_int <$> l) df.
Proof. intros H. unfold getnum, getcol, mbind, stage_bind, bind. by rewrite H. Qed.

Lemma run_gettime c l (k : list Z → stage B) df :
  cols df !! c = Some (TimeCol l) → (gettime c ≫= k) df = k l df.
Proof. intros H. unfold gettime, getcol, mbind, stage_bind, bind. by rewrite H. Qed.

Lemma run_getstr c l (k : list str → stage B) df :
  cols df !! c = Some (StrCol l) → (getstr c ≫= k) df = k l df.
Proof. intros H. unfold getstr, getcol, mbind, stage_bind, bind. by rewrite H. Qed.

End Run.

Lemma empty_false df c v :
  nrows df ≠ 0%nat → cols df !! c = Some v → empty df = false.
Proof.
  intros Hn Hc. unfold empty. rewrite bool_decide_eq_false_2 by done.
  rewrite bool_decide_eq_false_2; [done|]. intros E. by rewrite E in Hc.
Qed.

(** Looks a column up in a frame built by assignments. *)
Ltac look :=
  cbn [cols set_col];
  repeat (rewrite lookup_insert_ne by done);
  first [ apply lookup_insert_eq | eassumption ].

(** Runs one statement of a stage whose columns are known. *)
Ltac step :=
  first
    [ rewrite run_assign
    | erewrite run_getnum_float by look
    | erewrite run_getnum_int by look
    | erewrite run_gettime by look
    | erewrite run_getstr by look ].

(** ** float64 on finite values *)

Lemma fdiv_fin a b : b ≠ 0 → fdiv (Fin a) (Fin b) = Fin (a / b).
Proof. intros H. simpl. by destruct (Req_dec_T b 0). Qed.

Lemma flog1p_fin r : -1 < r → flog1p (Fin r) = Fin (ln (1 + r)).
Proof. intros H. simpl. by destruct (Rlt_dec (-1) r). Qed.

Lemma fleb_fin a b : fleb (Fin a) (Fin b) = true ↔ a <= b.
Proof. simpl. destruct (Rle_dec a b); split; intros; done. Qed.

Lemma series_max_fin (l : list R) :
  l ≠ [] →
  ∃ m, series_max (Fin <$> l) = Fin m ∧ m ∈ l ∧ Forall (λ x, x <= m) l.
Proof.
  induction l as [|a l IH]; [done|]. intros _.
  destruct l as [|b l].
  - exists a. simpl. split; [done|]. split; [apply elem_of_cons; by left|].
    constructor; [lra|constructor].
  - destruct IH as (m & Hm & Hin & Hle); [done|].
    change (series_max (Fin <$> a :: b :: l))
      with (fmax_skipna (Fin a) (series_max (Fin <$> b :: l))).
    rewrite Hm. simpl. destruct (Rlt_dec a m) as [Hlt|Hge].
    + exists m. split; [done|]. split; [apply elem_of_cons; by right|].
      constructor; [lra|done].
    + exists a. split; [done|]. split; [apply elem_of_cons; by left|].
      constructor; [lra|]. eapply Forall_impl; [exact Hle|]. simpl. intros; lra.
Qed.

Lemma dropna_id (l : list float64) :
  Forall (λ x, is_nan x = false) l → dropna l = l.
Proof.
  induction 1 as [|x l Hx _ IH]; [done|].
  unfold dropna in *. simpl. by rewrite Hx, IH.
Qed.

Lemma dropna_fin (l : list R) : dropna (Fin <$> l) = Fin <$> l.
Proof. apply dropna_id. rewrite Forall_fmap. by apply Forall_true. Qed.

Lemma series_sum_fin (l : list R) :
  series_sum (Fin <$> l) = Fin (foldr Rplus 0 l).
Proof.
  unfold series_sum. rewrite dropna_fin.
  induction l as [|a l IH]; [done|].
  change (np_sum (Fin <$> a :: l)) with (fadd (Fin a) (np_sum (Fin <$> l))).
  by rewrite IH.
Qed.

Lemma map3_fmap {A B C D E} (f : B → C → D → E)
    (a : A → B) (b : A → C) (c : A → D) (l : list A) :
  map3 f (a <$> l) (b <$> l) (c <$> l) = (λ x, f (a x) (b x) (c x)) <$> l.
Proof. unfold map3. induction l; simpl; f_equal; auto. Qed.

(** ** Frames of fetched posts *)

Lemma frame_of_posts_columns posts :
  posts ≠ [] → raw_columns posts (frame_of_posts posts).
Proof.
  intros Hne. destruct posts as [|p posts]; [done|].
  unfold frame_of_posts.
  split; cbn [nrows cols]; try done;
    try (repeat (rewrite lookup_insert_ne by done); by rewrite lookup_insert_eq).
  rewrite lookup_insert_eq. do 2 f_equal.
  exact (map3_fmap (λ l r q, (l + r + q)%Z) likes_of replies_of reposts_of
           (p :: posts)).
Qed.

(** ** Heat density *)

Lemma ln1p_nonneg (n : nat) : 0 <= ln (1 + IZR (Z.of_nat n)).
Proof.
  assert (H : 0 <= IZR (Z.of_nat n)) by (apply IZR_le; lia).
  rewrite <- ln_1. destruct H as [H|<-].
  - left. apply ln_increasing; lra.
  - rewrite Rplus_0_r. lra.
Qed.

Lemma heat_raw_nonneg now p : non_negative_counters p → 0 <= heat_raw now p.
Proof.
  intros (Hl & Hr & Hp). unfold heat_raw.
  apply IZR_le in Hl, Hr, Hp.
  pose proof (exp_pos (- (1 / 10) * (IZR (now - timestamp p) / 1000000000 / 3600) / 24)).
  pose proof (ln1p_nonneg (length (content_of p))).
  apply Rmult_le_pos; [apply Rmult_le_pos|]; lra.
Qed.

Lemma heat_raw_pos now p :
  non_negative_counters p → (0 < interactions_of p)%Z → 0 < heat_raw now p.
Proof.
  intros (Hl & Hr & Hp) Hpos. unfold heat_raw, interactions_of in *.
  assert (0 < IZR (likes_of p) * 1 + IZR (replies_of p) * 2
              + IZR (reposts_of p) * (3 / 2)).
  { apply IZR_le in Hl, Hr, Hp. apply IZR_lt in Hpos.
    rewrite !plus_IZR in Hpos. lra. }
  pose proof (exp_pos (- (1 / 10) * (IZR (now - timestamp p) / 1000000000 / 3600) / 24)).
  pose proof (ln1p_nonneg (length (content_of p))).
  apply Rmult_lt_0_compat; [apply Rmult_lt_0_compat|]; lra.
Qed.

Lemma heat_raw_zero now p : interactions_of p = 0%Z → non_negative_counters p →
  heat_raw now p = 0.
Proof.
  intros Hz (Hl & Hr & Hp). unfold heat_raw, interactions_of in *.
  assert (likes_of p = 0 ∧ replies_of p = 0 ∧ reposts_of p = 0)%Z as (-> & -> & ->) by lia.
  lra.
Qed.

(** The column the stage leaves, in closed form. *)
Lemma heat_density_column now posts df :
  raw_columns posts df → posts ≠ [] →
  cols (calculate_heat_density now df) !! "heat_density" =
    Some (FloatCol
      (let raw := Fin <$> (heat_raw now <$> posts) in
       if fgtb (series_max raw) (Fin 0)
       then (λ x, fmul (fdiv x (series_max raw)) (Fin 100)) <$> raw
       else raw)).
Proof.
  intros [Hn Hu Ht Hl Hr Hp Hc Hi] Hne.
  unfold calculate_heat_density.
  rewrite (empty_false df "timestamp" _) by (try done; rewrite Hn; by destruct posts).
  unfold try_return. repeat step.
  match goal with |- context [series_max ?X] =>
    assert (Heq : X = Fin <$> (heat_raw now <$> posts)) end.
  { clear. unfold map3. induction posts as [|p posts IH]; [done|].
    rewrite !fmap_cons. cbn [zip_with fst snd]. rewrite IH. f_equal.
    unfold of_int, hours_since, total_seconds, heat_raw.
    rewrite (fdiv_fin _ 3600) by lra. cbn [fneg fmul].
    rewrite (fdiv_fin _ 24) by lra.
    rewrite flog1p_fin.
    2:{ assert (0 <= IZR (Z.of_nat (length (content_of p)))); [apply IZR_le; lia|lra]. }
    rewrite (fdiv_fin _ 10) by lra. cbn [fexp fadd fmul]. do 2 f_equal. }
  rewrite !Heq.
  destruct (fgtb (series_max (Fin <$> (heat_raw now <$> posts))) (Fin 0)).
  - unfold assign. cbn [snd]. look.
  - unfold ret. cbn [snd]. look.
Qed.

(** C1. For every non-empty batch of posts with non-negative counters,
    [calculate_heat_density] leaves a [heat_density] column with values in
    [0,100]; the division by the batch maximum happens only when that
    maximum is positive; if some post has positive interactions, the posts
    of maximal heat get exactly 100; if no post has interactions, every
    post gets 0. *)
Theorem heat_density_normalised now posts df :
  raw_columns posts df → posts ≠ [] → Forall non_negative_counters posts →
  ∃ hd, cols (calculate_heat_density now df) !! "heat_density"
          = Some (FloatCol (Fin <$> hd))
        ∧ heat_density_spec now posts hd.
Proof.
  intros Hcols Hne Hpos.
  rewrite (heat_density_column now posts df Hcols Hne). cbn zeta.
  destruct (series_max_fin (heat_raw now <$> posts)) as (m & Hm & Hin & Hle).
  { by destruct posts. }
  rewrite Hm. unfold fgtb. cbn [fltb].
  apply list_elem_of_fmap in Hin as (pm & Hpm & Hpmin).
  rewrite Forall_fmap in Hle.
  assert (Hraw : ∀ p, p ∈ posts → 0 <= heat_raw now p <= m).
  { intros p Hp. split.
    - apply heat_raw_nonneg. by eapply Forall_forall in Hpos.
    - by eapply Forall_forall in Hle. }
  exists ((λ p, if Rlt_dec 0 m then heat_raw now p / m * 100
                else heat_raw now p) <$> posts).
  split.
  { do 2 f_equal.
    destruct (Rlt_dec 0 m) as [Hlt|Hnlt].
    - rewrite <- !list_fmap_compose. apply list_fmap_ext. intros i p _. simpl.
      destruct (Req_dec_T m 0); [lra|done].
    - rewrite <- !list_fmap_compose. apply list_fmap_ext. intros i p _. simpl.
      by destruct (Rlt_dec 0 m). }
  split; [by rewrite length_fmap|].
  split.
  { rewrite Forall_fmap. apply Forall_forall. intros p Hp. simpl.
    destruct (Hraw p Hp) as [H0 H1].
    destruct (Rlt_dec 0 m) as [Hlt|Hnlt].
    - assert (Hq : heat_raw now p / m * m = heat_raw now p) by (field; lra).
      assert (0 <= heat_raw now p / m).
      { apply Rmult_le_pos; [done|]. left. by apply Rinv_0_lt_compat. }
      nra.
    - lra. }
  split.
  { exists m. split; [|done]. apply list_elem_of_fmap. by exists pm. }
  split.
  - intros Hex. apply Exists_exists in Hex as (p & Hp & Hppos).
    assert (Hlt : 0 < m).
    { pose proof (heat_raw_pos now p ltac:(by eapply Forall_forall in Hpos) Hppos).
      destruct (Hraw p Hp). lra. }
    destruct (Rlt_dec 0 m) as [_|]; [|done].
    split.
    + apply Exists_exists. exists 100. split; [|done].
      apply list_elem_of_fmap. exists pm. split; [|done]. rewrite <- Hpm. field. lra.
    + intros i q Hq Hmax. rewrite list_lookup_fmap, Hq. simpl. f_equal.
      assert (heat_raw now q = m) as ->.
      { apply Rle_antisym.
        - exact (proj2 (Hraw q (list_elem_of_lookup_2 _ _ _ Hq))).
        - rewrite Hpm. by eapply Forall_forall in Hmax. }
      field. lra.
  - intros Hz. rewrite Forall_fmap. apply Forall_forall. intros p Hp. simpl.
    assert (Hall : ∀ q, q ∈ posts → heat_raw now q = 0).
    { intros q Hq. apply heat_raw_zero.
      - by apply (proj1 (Forall_forall _ _) Hz).
      - by apply (proj1 (Forall_forall _ _) Hpos). }
    assert (m = 0) as -> by (rewrite Hpm; by apply Hall).
    destruct (Rlt_dec 0 0); [lra|]. by apply Hall.
Qed.

Lemma heat_density_normalised_witness :
  ∃ hd, cols (calculate_heat_density 3600000000000 (frame_of_posts example_posts))
          !! "heat_density" = Some (FloatCol (Fin <$> hd))
        ∧ heat_density_spec 3600000000000 example_posts hd.
Proof.
  apply heat_density_normalised.
  - by apply frame_of_posts_columns.
  - discriminate.
  - repeat constructor; cbn; lia.
Defined.

(** ** Freshness *)

Lemma hours_since_fin now t : hours_since now t = Fin (hours_of now t).
Proof. unfold hours_since, total_seconds, hours_of. apply fdiv_fin. lra. Qed.

Lemma clip01_range x : 0 <= clip01 x <= 1.
Proof. unfold clip01. destruct (Rlt_dec x 0), (Rlt_dec 1 x); lra. Qed.

Lemma clip01_mono x y : x <= y → clip01 x <= clip01 y.
Proof.
  intros H. unfold clip01.
  destruct (Rlt_dec x 0), (Rlt_dec 1 x), (Rlt_dec y 0), (Rlt_dec 1 y); lra.
Qed.

Lemma exp_le x y : x <= y → exp x <= exp y.
Proof. intros [H| ->]; [left; by apply exp_increasing|lra]. Qed.

Lemma fclip_fin x : fclip (Fin 0) (Fin 1) (Fin x) = Fin (clip01 x).
Proof.
  unfold fclip, clip01. cbn [is_nan fltb].
  destruct (Rlt_dec x 0); [done|]. by destruct (Rlt_dec 1 x).
Qed.

Lemma freshness_columns now ts df :
  nrows df ≠ 0%nat → cols df !! "timestamp" = Some (TimeCol ts) →
  cols (calculate_freshness_score now df) !! "hours_since_post"
    = Some (FloatCol (Fin <$> (hours_of now <$> ts)))
  ∧ cols (calculate_freshness_score now df) !! "freshness_score"
    = Some (FloatCol (Fin <$> (freshness_of <$> (hours_of now <$> ts)))).
Proof.
  intros Hn Ht. unfold calculate_freshness_score.
  rewrite (empty_false df "timestamp" _) by done.
  unfold try_return. repeat step. unfold assign. cbn [snd].
  assert (Hh : hours_since now <$> ts = Fin <$> (hours_of now <$> ts)).
  { rewrite <- list_fmap_compose. apply list_fmap_ext. intros i t _.
    apply hours_since_fin. }
  rewrite !Hh. split; [look|].
  cbn [cols set_col]. rewrite lookup_insert_eq. do 2 f_equal.
  rewrite <- !list_fmap_compose. apply list_fmap_ext. intros i t _.
  unfold compose. cbn [fneg]. rewrite fdiv_fin by lra. cbn [fexp].
  by rewrite fclip_fin.
Qed.

(** C7. [calculate_freshness_score] gives a post that is [h] hours old the
    score [clip(exp(-h/24), 0, 1)]; that score lies in [0,1] and does not
    increase when [h] increases. *)
Theorem freshness_score_clipped_monotone now ts df :
  nrows df ≠ 0%nat → cols df !! "timestamp" = Some (TimeCol ts) →
  cols (calculate_freshness_score now df) !! "freshness_score"
    = Some (FloatCol (Fin <$> (freshness_of <$> (hours_of now <$> ts))))
  ∧ (∀ h, 0 <= freshness_of h <= 1)
  ∧ (∀ h1 h2, h1 <= h2 → freshness_of h2 <= freshness_of h1).
Proof.
  intros Hn Ht. split; [by apply freshness_columns|].
  split; [intros h; apply clip01_range|].
  intros h1 h2 H. apply clip01_mono, exp_le. lra.
Qed.

Lemma freshness_score_clipped_monotone_witness :
  cols (calculate_freshness_score 3600000000000 (frame_of_posts example_posts))
    !! "freshness_score"
    = Some (FloatCol (Fin <$> (freshness_of <$>
        (hours_of 3600000000000 <$> (timestamp <$> example_posts)))))
  ∧ (∀ h, 0 <= freshness_of h <= 1)
  ∧ (∀ h1 h2, h1 <= h2 → freshness_of h2 <= freshness_of h1).
Proof.
  apply freshness_score_clipped_monotone.
  - discriminate.
  - apply (rc_timestamp _ _ (frame_of_posts_columns example_posts ltac:(discriminate))).
Defined.

(** ** Engagement rate *)

Lemma series_sum_zero (l : list float64) :
  Forall (λ x, x = Fin 0) l → series_sum l = Fin 0.
Proof.
  intros Hz. unfold series_sum. rewrite dropna_id.
  2:{ eapply Forall_impl; [exact Hz|]. by intros x ->. }
  induction Hz as [|x l -> _ IH]; [done|].
  change (np_sum (Fin 0 :: l)) with (fadd (Fin 0) (np_sum l)).
  rewrite IH. simpl. f_equal. lra.
Qed.

Lemma series_mean_zero (l : list float64) :
  l ≠ [] → Forall (λ x, x = Fin 0) l → series_mean l = Fin 0.
Proof.
  intros Hne Hz. pose proof (series_sum_zero l Hz) as Hs.
  unfold series_mean, series_sum in *. rewrite dropna_id in *;
    try (eapply Forall_impl; [exact Hz|]; by intros x ->).
  destruct l as [|x l]; [done|].
  unfold np_mean. rewrite Hs.
  unfold of_int. rewrite fdiv_fin.
  - f_equal. unfold Rdiv. apply Rmult_0_l.
  - apply not_0_IZR. simpl length. lia.
Qed.

(** The mean of a user whose posts all have no interactions is 0. *)
Lemma groupby_mean_zero (us : list str) (ti : list Z) (name : str) i :
  us !! i = Some name → ti !! i = Some 0%Z →
  (∀ j, us !! j = Some name → ti !! j = Some 0%Z) →
  groupby_mean us (of_int <$> ti) name = Some (Fin 0).
Proof.
  intros Hi Hti Hall. unfold groupby_mean.
  set (grp := (filter (λ kv, kv.1 = name) (zip us (of_int <$> ti))).*2).
  assert (Hz : Forall (λ x, x = Fin 0) grp).
  { subst grp. rewrite Forall_fmap. apply Forall_forall. intros [k v] Hin.
    apply list_elem_of_filter in Hin as [Hk Hin]. simpl in Hk. subst k.
    apply list_elem_of_lookup_1 in Hin as [j Hj].
    apply lookup_zip_with_Some in Hj as (k' & v' & Heq & Hk' & Hv').
    injection Heq as <- <-.
    rewrite list_lookup_fmap, (Hall j Hk') in Hv'. simpl in Hv'.
    by injection Hv' as <-. }
  assert (Hne : grp ≠ []).
  { subst grp. intros Hnil. apply fmap_nil_inv in Hnil.
    assert (Hin : (name, Fin 0) ∈ filter (λ kv : str * float64, kv.1 = name)
                                     (zip us (of_int <$> ti))).
    { apply list_elem_of_filter. split; [done|].
      apply (list_elem_of_lookup_2 _ i). apply lookup_zip_with_Some.
      exists name, (Fin 0). split; [done|]. split; [done|].
      by rewrite list_lookup_fmap, Hti. }
    rewrite Hnil in Hin. by apply not_elem_of_nil in Hin. }
  rewrite <- (series_mean_zero grp Hne Hz).
  by destruct grp.
Qed.

(** C10. A post without interactions whose author has only such posts in
    the batch gets [engagement_rate = log 2]: the ratio 0/0 against the
    author's zero mean is NaN, NaN is replaced by 1.0, and [log1p] of 1.0
    is [log 2]. *)
Theorem engagement_rate_zero_author (us : list str) (ti : list Z) df name i :
  nrows df ≠ 0%nat →
  cols df !! "username" = Some (StrCol us) →
  cols df !! "total_interactions" = Some (IntCol ti) →
  us !! i = Some name → ti !! i = Some 0%Z →
  (∀ j, us !! j = Some name → ti !! j = Some 0%Z) →
  ∃ e, cols (calculate_engagement_rate df) !! "engagement_rate" = Some (FloatCol e)
       ∧ e !! i = Some (Fin (ln 2)).
Proof.
  intros Hn Hu Ht Hi Hti Hall. unfold calculate_engagement_rate.
  rewrite (empty_false df "username" _) by done.
  unfold try_return. repeat step. unfold assign. cbn [snd].
  eexists. split; [look|].
  rewrite !list_lookup_fmap. unfold map2. rewrite lookup_zip_with.
  rewrite !list_lookup_fmap. unfold series_map. rewrite list_lookup_fmap.
  rewrite Hi, Hti. cbn [fmap option_fmap option_map mbind option_bind].
  rewrite (groupby_mean_zero us ti name i Hi Hti Hall).
  simpl. f_equal.
  destruct (Req_dec_T 0 0) as [_|]; [|done].
  unfold Rsign. destruct (Rlt_dec 0 0); [lra|].
  simpl. destruct (Rlt_dec (-1) 1); [|lra]. by replace (1 + 1) with 2 by lra.
Qed.

Lemma engagement_rate_zero_author_witness :
  ∃ e, cols (calculate_engagement_rate (frame_of_posts example_posts))
         !! "engagement_rate" = Some (FloatCol e)
       ∧ e !! 2%nat = Some (Fin (ln 2)).
Proof.
  pose proof (frame_of_posts_columns example_posts ltac:(discriminate)) as H.
  apply (engagement_rate_zero_author
           (username <$> example_posts) (interactions_of <$> example_posts)
           _ (u "bob")).
  - discriminate.
  - apply (rc_username _ _ H).
  - apply (rc_total _ _ H).
  - reflexivity.
  - reflexivity.
  - intros [|[|[|j]]] Hj; vm_compute in Hj; try discriminate; reflexivity.
Defined.

(** ** Enrichment and the columns a stage writes *)

Section Frames.
Context (W : list string).

Lemma frames_ret {A} (a : A) : frames W (ret a).
Proof. by intros df. Qed.

Lemma frames_raise {A} : frames W (@raise A).
Proof. by intros df. Qed.

Lemma frames_getcol c : frames W (getcol c).
Proof. by intros df. Qed.

Lemma frames_assign c v : c ∈ W → frames W (assign c v).
Proof.
  intros Hc df. split; [done|]. intros c' Hc'. cbn [assign snd set_col cols].
  apply lookup_insert_ne. intros ->. by apply Hc'.
Qed.

Lemma frames_bind {A B} (m : stage A) (k : A → stage B) :
  frames W m → (∀ a, frames W (k a)) → frames W (m ≫= k).
Proof.
  intros Hm Hk df. unfold mbind, stage_bind, bind.
  destruct (Hm df) as [Hn Hc]. destruct (m df) as [[a|] df'] eqn:E; [|done].
  destruct (Hk a df') as [Hn' Hc']. simpl in *. split; [congruence|].
  intros c Hin. by rewrite Hc', Hc.
Qed.

Lemma frames_getnum c : frames W (getnum c).
Proof.
  apply frames_bind; [apply frames_getcol|].
  intros [l|l|l|l]; first [apply frames_ret | apply frames_raise].
Qed.

Lemma frames_gettime c : frames W (gettime c).
Proof.
  apply frames_bind; [apply frames_getcol|].
  intros [l|l|l|l]; first [apply frames_ret | apply frames_raise].
Qed.

Lemma frames_getstr c : frames W (getstr c).
Proof.
  apply frames_bind; [apply frames_getcol|].
  intros [l|l|l|l]; first [apply frames_ret | apply frames_raise].
Qed.

Lemma frames_try (body : stage unit) df c :
  frames W body → c ∉ W →
  cols (if empty df then df else try_return body df) !! c = cols df !! c.
Proof.
  intros Hb Hc. destruct (empty df); [done|]. by apply Hb.
Qed.

End Frames.

Ltac in_list := apply list_elem_of_In; simpl; tauto.

Ltac not_in_list :=
  rewrite list_elem_of_In; simpl; intuition discriminate.

(** Goes through the statements of a stage body. *)
Ltac frame_body :=
  cbn zeta;
  repeat first
    [ apply frames_getnum | apply frames_gettime | apply frames_getstr
    | apply frames_assign; in_list
    | apply frames_bind; [|intros ?]
    | apply frames_ret
    | match goal with |- frames _ (if ?b then _ else _) => destruct b end ].

Lemma heat_density_frame now df c :
  c ∉ heat_fields → cols (calculate_heat_density now df) !! c = cols df !! c.
Proof. intros Hc. apply (frames_try heat_fields); [|done]. frame_body. Qed.

Lemma freshness_score_frame now df c :
  c ∉ freshness_fields →
  cols (calculate_freshness_score now df) !! c = cols df !! c.
Proof. intros Hc. apply (frames_try freshness_fields); [|done]. frame_body. Qed.

Lemma engagement_rate_frame df c :
  c ∉ engagement_fields → cols (calculate_engagement_rate df) !! c = cols df !! c.
Proof. intros Hc. apply (frames_try engagement_fields); [|done]. frame_body. Qed.

Lemma viral_potential_frame df c :
  c ∉ viral_fields → cols (calculate_viral_potential df) !! c = cols df !! c.
Proof. intros Hc. apply (frames_try viral_fields); [|done]. frame_body. Qed.

Lemma frames_try_rows W (body : stage unit) df :
  frames W body → nrows (if empty df then df else try_return body df) = nrows df.
Proof. intros Hb. destruct (empty df); [done|]. by apply Hb. Qed.

Lemma heat_density_rows now df : nrows (calculate_heat_density now df) = nrows df.
Proof. apply (frames_try_rows heat_fields). frame_body. Qed.

Lemma heat_density_hours now posts df :
  raw_columns posts df → posts ≠ [] →
  cols (calculate_heat_density now df) !! "hours_since_post"
    = Some (FloatCol (Fin <$> (hours_of now <$> (timestamp <$> posts)))).
Proof.
  intros [Hn Hu Ht Hl Hr Hp Hc Hi] Hne.
  unfold calculate_heat_density.
  rewrite (empty_false df "timestamp" _) by (try done; rewrite Hn; by destruct posts).
  unfold try_return. repeat step.
  assert (Hh : hours_since now <$> (timestamp <$> posts)
               = Fin <$> (hours_of now <$> (timestamp <$> posts))).
  { rewrite <- !list_fmap_compose. apply list_fmap_ext. intros i t _.
    apply hours_since_fin. }
  rewrite <- Hh.
  match goal with |- context [if ?b then _ else _] => destruct b end.
  - unfold assign. cbn [snd]. look.
  - unfold ret. cbn [snd]. look.
Qed.

(** C9, as the code has it. Each calculator leaves every raw field and
    every field of an earlier calculator as it was, with one exception:
    [calculate_freshness_score] assigns [hours_since_post], which
    [calculate_heat_density] has assigned before it. *)
Theorem enrichment_keeps_earlier_fields s now df c :
  c ∈ fields_before s →
  ¬ (s = freshness ∧ c = "hours_since_post"%string) →
  cols (run_calculator s now df) !! c = cols df !! c.
Proof.
  intros Hin Hex. apply list_elem_of_In in Hin.
  destruct s; cbn [run_calculator].
  - apply heat_density_frame. rewrite list_elem_of_In.
    simpl in *. intuition (subst; discriminate).
  - apply freshness_score_frame. rewrite list_elem_of_In.
    simpl in *. intuition (subst; first [discriminate | tauto]).
  - apply engagement_rate_frame. rewrite list_elem_of_In.
    simpl in *. intuition (subst; discriminate).
  - apply viral_potential_frame. rewrite list_elem_of_In.
    simpl in *. intuition (subst; discriminate).
Qed.

Lemma enrichment_keeps_earlier_fields_witness :
  cols (run_calculator freshness 1000
          (calculate_heat_density 0 (frame_of_posts example_posts)))
    !! "heat_density"
  = cols (calculate_heat_density 0 (frame_of_posts example_posts)) !! "heat_density".
Proof.
  apply enrichment_keeps_earlier_fields.
  - apply list_elem_of_In. simpl. tauto.
  - intros [_ H]. discriminate H.
Defined.

(** C9, as stated, fails: between two readings of the clock one
    microsecond apart, [calculate_freshness_score] changes the
    [hours_since_post] that [calculate_heat_density] has derived. *)
Lemma enrichment_changes_hours_since_post :
  let df := calculate_heat_density 0 (frame_of_posts example_posts) in
  "hours_since_post"%string ∈ fields_before freshness
  ∧ cols (run_calculator freshness 1000 df) !! "hours_since_post"
    ≠ cols df !! "hours_since_post".
Proof.
  pose proof (frame_of_posts_columns example_posts ltac:(discriminate)) as Hraw.
  cbn zeta. split; [apply list_elem_of_In; simpl; tauto|].
  rewrite (heat_density_hours 0 example_posts _ Hraw) by discriminate.
  cbn [run_calculator].
  destruct (freshness_columns 1000 (timestamp <$> example_posts)
              (calculate_heat_density 0 (frame_of_posts example_posts))) as [-> _].
  - rewrite heat_density_rows. discriminate.
  - rewrite heat_density_frame by not_in_list. apply (rc_timestamp _ _ Hraw).
  - intros H. injection H as H _. unfold hours_of in H.
    rewrite !Z.sub_0_r in H. lra.
Qed.

(** ** Sorting a frame by a key column *)

Lemma insert_key_perm x l : insert_key x l ≡ₚ x :: l.
Proof.
  induction l as [|y l IH]; [done|]. simpl.
  destruct (y.1 <? x.1)%Z; [|done].
  rewrite IH. apply Permutation_swap.
Qed.

Lemma insert_key_sorted x l :
  StronglySorted key_le l → StronglySorted key_le (insert_key x l).
Proof.
  induction 1 as [|y l Hs IH Hy]; simpl.
  - repeat constructor.
  - destruct (Z.ltb_spec y.1 x.1) as [Hlt|Hge].
    + constructor; [done|]. rewrite insert_key_perm.
      constructor; [unfold key_le; lia|done].
    + constructor; [by constructor|].
      constructor; [done|].
      eapply Forall_impl; [exact Hy|]. unfold key_le. intros; lia.
Qed.

Lemma sorted_pairs_perm keys :
  sorted_pairs keys ≡ₚ zip keys (seq 0 (length keys)).
Proof.
  unfold sorted_pairs. induction (zip keys (seq 0 (length keys))) as [|x l IH];
    [done|]. simpl. by rewrite insert_key_perm, IH.
Qed.

Lemma sorted_pairs_sorted keys : StronglySorted key_le (sorted_pairs keys).
Proof.
  unfold sorted_pairs. induction (zip keys (seq 0 (length keys))) as [|x l IH];
    simpl; [constructor|by apply insert_key_sorted].
Qed.

Lemma order_by_perm keys : order_by keys ≡ₚ seq 0 (length keys).
Proof.
  unfold order_by. fold (sorted_pairs keys). rewrite sorted_pairs_perm.
  rewrite snd_zip; [done|]. by rewrite length_seq.
Qed.

Lemma omap_lookup_seq_from {A} (pre l : list A) :
  omap (λ i, (pre ++ l) !! i) (seq (length pre) (length l)) = l.
Proof.
  revert pre. induction l as [|x l IH]; intros pre; [done|].
  simpl. rewrite list_lookup_middle by done. f_equal.
  specialize (IH (pre ++ [x])). rewrite length_app, Nat.add_1_r in IH.
  rewrite <- IH at 2. apply list_omap_ext.
  apply Forall2_same_length_lookup_2; [done|].
  intros i a b Ha Hb. assert (a = b) as <- by congruence.
  by rewrite <- app_assoc.
Qed.

Lemma omap_lookup_seq {A} (l : list A) :
  omap (λ i, l !! i) (seq 0 (length l)) = l.
Proof. exact (omap_lookup_seq_from [] l). Qed.

(** Any column of the right length is permuted by the reordering. *)
Lemma reorder_perm {A} (keys : list Z) (l : list A) :
  length l = length keys → reorder (order_by keys) l ≡ₚ l.
Proof.
  intros Hlen. unfold reorder. rewrite order_by_perm, <- Hlen.
  by rewrite omap_lookup_seq.
Qed.

Lemma omap_lookup_pairs (keys : list Z) (pairs : list (Z * nat)) :
  Forall (λ ki, keys !! ki.2 = Some ki.1) pairs →
  omap (λ i, keys !! i) pairs.*2 = pairs.*1.
Proof.
  induction 1 as [|[k i] l Hki _ IH]; [done|].
  rewrite !fmap_cons. simpl in *. rewrite Hki. f_equal. exact IH.
Qed.

(** The key column itself comes out in ascending order. *)
Lemma reorder_keys keys : reorder (order_by keys) keys = (sorted_pairs keys).*1.
Proof.
  unfold reorder, order_by. fold (sorted_pairs keys).
  apply omap_lookup_pairs.
  rewrite sorted_pairs_perm. apply Forall_forall. intros [k i] Hin.
  apply list_elem_of_lookup_1 in Hin as [j Hj].
  apply lookup_zip_with_Some in Hj as (k' & i' & Heq & Hk & Hi).
  injection Heq as <- <-. apply lookup_seq in Hi as [-> _]. done.
Qed.

Lemma reorder_keys_sorted keys :
  StronglySorted Z.le (reorder (order_by keys) keys).
Proof.
  rewrite reorder_keys. pose proof (sorted_pairs_sorted keys) as H.
  induction H as [|x l _ IH Hx]; simpl; constructor; [done|].
  rewrite Forall_fmap. exact Hx.
Qed.

(** ** Reading columns *)

Lemma read_gettime c l df :
  cols df !! c = Some (TimeCol l) → read (gettime c) df = Some l.
Proof. intros H. unfold read, gettime, getcol, mbind, stage_bind, bind. by rewrite H. Qed.

Lemma read_getstr c l df :
  cols df !! c = Some (StrCol l) → read (getstr c) df = Some l.
Proof. intros H. unfold read, getstr, getcol, mbind, stage_bind, bind. by rewrite H. Qed.

Lemma read_getnum_int c l df :
  cols df !! c = Some (IntCol l) → read (getnum c) df = Some (of_int <$> l).
Proof. intros H. unfold read, getnum, getcol, mbind, stage_bind, bind. by rewrite H. Qed.

Lemma read_getnum_float c l df :
  cols df !! c = Some (FloatCol l) → read (getnum c) df = Some l.
Proof. intros H. unfold read, getnum, getcol, mbind, stage_bind, bind. by rewrite H. Qed.

(** ** Sums and extremes of columns *)

Lemma Zsum_perm l1 l2 : l1 ≡ₚ l2 → Zsum l1 = Zsum l2.
Proof. induction 1; simpl; unfold Zsum in *; simpl; lia. Qed.

Lemma Rsum_perm l1 l2 : l1 ≡ₚ l2 → Rsum l1 = Rsum l2.
Proof. induction 1; simpl; unfold Rsum in *; simpl; lra. Qed.

Lemma Zsum_nonneg l : Forall (λ z, 0 <= z)%Z l → (0 <= Zsum l)%Z.
Proof. induction 1; unfold Zsum in *; simpl; lia. Qed.

Lemma Rsum_nonneg l : Forall (λ x, 0 <= x) l → 0 <= Rsum l.
Proof. induction 1; unfold Rsum in *; simpl; lra. Qed.

Lemma series_sum_ints l : series_sum (of_int <$> l) = Fin (IZR (Zsum l)).
Proof.
  unfold series_sum. rewrite dropna_id.
  2:{ rewrite Forall_fmap. by apply Forall_true. }
  induction l as [|z l IH]; [done|].
  change (np_sum (of_int <$> z :: l))
    with (fadd (of_int z) (np_sum (of_int <$> l))).
  rewrite IH. unfold of_int, Zsum. simpl. by rewrite plus_IZR.
Qed.

Lemma series_mean_fin (l : list R) :
  l ≠ [] → series_mean (Fin <$> l) = Fin (Rsum l / INR (length l)).
Proof.
  intros Hne. pose proof (series_sum_fin l) as Hs.
  unfold series_mean, series_sum in *. rewrite dropna_fin in *.
  destruct l as [|x l]; [done|].
  unfold np_mean. rewrite fmap_cons, <- fmap_cons, Hs.
  rewrite length_fmap. unfold of_int. rewrite <- INR_IZR_INZ.
  apply fdiv_fin. apply not_0_INR. simpl. lia.
Qed.

Lemma earliest_spec ts :
  ts ≠ [] → earliest ts ∈ ts ∧ Forall (λ t, earliest ts <= t)%Z ts.
Proof.
  intros Hne. unfold earliest.
  assert (H : ∀ d l, let m := foldr Z.min d l in
            (m = d ∨ m ∈ l) ∧ (m <= d)%Z ∧ Forall (λ t, m <= t)%Z l).
  { intros d l. induction l as [|x l (Hin & Hd & Hall)]; simpl.
    - split; [by left|]. split; [lia|constructor].
    - split; [|split; [lia|]].
      + destruct (Z.min_spec x (foldr Z.min d l)) as [[_ ->]|[_ ->]].
        * right. apply elem_of_cons. by left.
        * destruct Hin as [?|?]; [by left|right; apply elem_of_cons; by right].
      + constructor; [lia|]. eapply Forall_impl; [exact Hall|]. simpl. lia. }
  destruct ts as [|t ts]; [done|]. simpl default.
  destruct (H t (t :: ts)) as ([Hm|Hm] & _ & Hall); (split; [|done]).
  - rewrite Hm. apply elem_of_cons. by left.
  - done.
Qed.

Lemma latest_spec ts :
  ts ≠ [] → latest ts ∈ ts ∧ Forall (λ t, t <= latest ts)%Z ts.
Proof.
  intros Hne. unfold latest.
  assert (H : ∀ d l, let m := foldr Z.max d l in
            (m = d ∨ m ∈ l) ∧ (d <= m)%Z ∧ Forall (λ t, t <= m)%Z l).
  { intros d l. induction l as [|x l (Hin & Hd & Hall)]; simpl.
    - split; [by left|]. split; [lia|constructor].
    - split; [|split; [lia|]].
      + destruct (Z.max_spec x (foldr Z.max d l)) as [[_ ->]|[_ ->]].
        * destruct Hin as [?|?]; [by left|right; apply elem_of_cons; by right].
        * right. apply elem_of_cons. by left.
      + constructor; [lia|]. eapply Forall_impl; [exact Hall|]. simpl. lia. }
  destruct ts as [|t ts]; [done|]. simpl default.
  destruct (H t (t :: ts)) as ([Hm|Hm] & _ & Hall); (split; [|done]).
  - rewrite Hm. apply elem_of_cons. by left.
  - done.
Qed.

(** First and last entry of an ascending list with the elements of [ts]. *)
Lemma sorted_head_set l ts :
  StronglySorted Z.le l → (∀ x, x ∈ l ↔ x ∈ ts) → ts ≠ [] →
  head l = Some (earliest ts).
Proof.
  intros Hs Hp Hne. destruct (earliest_spec ts Hne) as [Hin Hall].
  remember (earliest ts) as m eqn:Hm. clear Hm.
  apply Hp in Hin.
  destruct l as [|x l]; [by apply not_elem_of_nil in Hin|].
  simpl. f_equal. apply StronglySorted_inv in Hs as [_ Hx].
  apply Z.le_antisymm.
  - apply elem_of_cons in Hin as [<-|Hin]; [lia|].
    by apply (proj1 (Forall_forall _ _) Hx).
  - apply (proj1 (Forall_forall _ _) Hall). apply Hp, elem_of_cons. by left.
Qed.

Lemma sorted_last_set l ts :
  StronglySorted Z.le l → (∀ x, x ∈ l ↔ x ∈ ts) → ts ≠ [] →
  last l = Some (latest ts).
Proof.
  intros Hs Hp Hne. destruct (latest_spec ts Hne) as [Hin Hall].
  remember (latest ts) as m eqn:Hm. clear Hm.
  apply Hp in Hin.
  assert (Hall' : Forall (λ t, t <= m)%Z l).
  { apply Forall_forall. intros x Hx.
    by apply (proj1 (Forall_forall _ _) Hall), Hp. }
  clear Hp Hne Hall.
  induction Hs as [|x l Hs IH Hx]; [by apply not_elem_of_nil in Hin|].
  destruct l as [|y l].
  - simpl. f_equal. apply elem_of_cons in Hin as [->|Hin]; [done|].
    by apply not_elem_of_nil in Hin.
  - change (last (x :: y :: l)) with (last (y :: l)).
    apply IH.
    + apply elem_of_cons in Hin as [Hin|Hin]; [|done].
      assert (y = m) as <-; [|apply elem_of_cons; by left].
      apply Z.le_antisymm.
      * apply Forall_cons in Hall' as [_ Hall']. by apply Forall_cons in Hall' as [? _].
      * subst x. by apply Forall_cons in Hx as [? _].
    + by apply Forall_cons in Hall' as [_ ?].
Qed.

Lemma sorted_head l ts :
  StronglySorted Z.le l → l ≡ₚ ts → ts ≠ [] → head l = Some (earliest ts).
Proof. intros Hs Hp. apply sorted_head_set; [done|]. intros x. by rewrite Hp. Qed.

Lemma sorted_last l ts :
  StronglySorted Z.le l → l ≡ₚ ts → ts ≠ [] → last l = Some (latest ts).
Proof. intros Hs Hp. apply sorted_last_set; [done|]. intros x. by rewrite Hp. Qed.

(** ** Trending score *)

Lemma reorder_fmap {A B} (f : A → B) order (l : list A) :
  reorder order (f <$> l) = f <$> reorder order l.
Proof.
  unfold reorder. rewrite list_fmap_omap. apply list_omap_ext.
  apply Forall2_same_length_lookup_2; [done|].
  intros i a b Ha Hb. assert (a = b) as <- by congruence.
  by rewrite list_lookup_fmap.
Qed.

Lemma pymin_fin x : pymin (Fin x) (Fin 1) = Fin (Rmin x 1).
Proof.
  unfold pymin, Rmin. cbn [fltb].
  destruct (Rlt_dec 1 x), (Rle_dec x 1); try done; try lra.
Qed.

(** C6. [_calculate_trending_score] is 0 for a cluster of fewer than two
    posts or of time span at most 0 hours; otherwise it is
    [min((sum of total_interactions / time span in hours)
         * mean(freshness_score) / 100, 1.0)];
    for non-negative interaction counts and freshness scores the score
    lies in [0,1]. *)
Theorem trending_score_formula ts ti fs df :
  cluster_columns ts ti fs df →
  _calculate_trending_score df = Fin (trending_spec ts ti fs)
  ∧ (Forall (λ z, 0 <= z)%Z ti → Forall (λ f, 0 <= f) fs →
     0 <= trending_spec ts ti fs <= 1).
Proof.
  intros [Hn Hti Hfs Ht Hi Hf]. split.
  - unfold _calculate_trending_score, trending_spec, sort_values.
    rewrite Ht. cbn [mbind option_bind nrows]. rewrite Hn.
    destruct (length ts <? 2)%nat eqn:Hlen; [done|].
    apply Nat.ltb_ge in Hlen.
    assert (Hne : ts ≠ []) by (destruct ts; simpl in *; [lia|done]).
    set (order := order_by ts).
    rewrite (read_gettime "timestamp" (reorder order ts)).
    2:{ cbn [cols]. by rewrite lookup_fmap, Ht. }
    cbn [mbind option_bind].
    rewrite (sorted_last _ ts), (sorted_head _ ts);
      try apply reorder_keys_sorted; try (by apply reorder_perm); try done.
    cbn [mbind option_bind].
    change (fdiv (total_seconds (latest ts - earliest ts)) (Fin 3600))
      with (hours_since (latest ts) (earliest ts)).
    rewrite hours_since_fin. fold (time_span_hours ts).
    cbn [fleb]. destruct (Rle_dec (time_span_hours ts) 0) as [Hle|Hgt]; [done|].
    rewrite (read_getnum_int "total_interactions" (reorder order ti)).
    2:{ cbn [cols]. by rewrite lookup_fmap, Hi. }
    cbn [mbind option_bind].
    rewrite (read_getnum_float "freshness_score" (Fin <$> reorder order fs)).
    2:{ cbn [cols]. by rewrite lookup_fmap, Hf, <- reorder_fmap. }
    cbn [mbind option_bind default].
    rewrite series_sum_ints, (Zsum_perm _ ti) by (by apply reorder_perm).
    assert (Hp : reorder order fs ≡ₚ fs) by (by apply reorder_perm).
    rewrite series_mean_fin.
    2:{ intros Hnil. rewrite Hnil in Hp. apply Permutation_nil_l in Hp.
        subst fs. simpl in Hfs. lia. }
    rewrite (Rsum_perm _ fs Hp), (Permutation_length Hp).
    rewrite fdiv_fin by lra. cbn [fmul]. rewrite fdiv_fin by lra.
    by rewrite pymin_fin.
  - intros Hti0 Hfs0. unfold trending_spec.
    destruct (length ts <? 2)%nat eqn:Hlen; [lra|].
    destruct (Rle_dec (time_span_hours ts) 0) as [Hle|Hgt]; [lra|].
    apply Nat.ltb_ge in Hlen.
    assert (0 <= IZR (Zsum ti)) by (apply IZR_le; by apply Zsum_nonneg).
    pose proof (Rsum_nonneg fs Hfs0).
    assert (0 < INR (length fs)) by (apply lt_0_INR; lia).
    assert (0 <= IZR (Zsum ti) / time_span_hours ts
                 * (Rsum fs / INR (length fs)) / 100).
    { apply Rmult_le_pos; [|lra]. apply Rmult_le_pos.
      - apply Rmult_le_pos; [done|]. left. apply Rinv_0_lt_compat. lra.
      - apply Rmult_le_pos; [done|]. left. by apply Rinv_0_lt_compat. }
    unfold Rmin. destruct (Rle_dec _ 1); lra.
Qed.

Lemma trending_score_formula_witness :
  _calculate_trending_score example_cluster
    = Fin (trending_spec [0; 10800000000000; 18000000000000]%Z [100; 150; 200]%Z
             [8 / 10; 9 / 10; 95 / 100])
  ∧ (Forall (λ z, 0 <= z)%Z [100; 150; 200]%Z →
     Forall (λ f, 0 <= f) [8 / 10; 9 / 10; 95 / 100] →
     0 <= trending_spec [0; 10800000000000; 18000000000000]%Z [100; 150; 200]%Z
            [8 / 10; 9 / 10; 95 / 100] <= 1).
Proof.
  apply trending_score_formula.
  split; try reflexivity; unfold example_cluster; cbn [cols];
    repeat (rewrite lookup_insert_ne by done); by rewrite lookup_insert_eq.
Defined.

(** ** Topic clustering *)

Section Clustering.
Context `{Environment}.

Lemma threshold_mask_count (ti : list Z) :
  length (filter (λ b, b = true)
            ((λ x, fleb (of_int min_interactions_threshold) x) <$> (of_int <$> ti)))
  = length (passing ti).
Proof.
  unfold passing. induction ti as [|z ti IH]; [done|].
  rewrite !fmap_cons, !filter_cons.
  destruct (decide (min_interactions_threshold <= z)%Z) as [Hle|Hgt].
  - assert (E : fleb (of_int min_interactions_threshold) (of_int z) = true)
      by (by apply fleb_fin, IZR_le).
    rewrite decide_True by done. cbn [length]. by rewrite IH.
  - assert (E : fleb (of_int min_interactions_threshold) (of_int z) ≠ true)
      by (intros E; apply fleb_fin, le_IZR in E; done).
    by rewrite decide_False by done.
Qed.

(** C5. [perform_topic_clustering] returns the empty topic list, without
    an exception, for a batch of fewer than 5 posts and for a batch of
    which fewer than 3 posts have
    [total_interactions >= min_interactions_threshold]. *)
Theorem clustering_rejects_small_batches df g :
  (nrows df < 5)%nat
  ∨ (∃ ti, cols df !! "total_interactions" = Some (IntCol ti)
           ∧ length ti = nrows df ∧ (length (passing ti) < 3)%nat) →
  perform_topic_clustering df g = ([], g).
Proof.
  intros Hsmall. unfold perform_topic_clustering.
  destruct (empty df); [done|].
  destruct (Nat.ltb_spec (nrows df) 5) as [Hlt|Hge]; [done|].
  destruct Hsmall as [Hlt|(ti & Hti & Hlen & Hfew)]; [lia|].
  cbn [orb]. unfold clustering_body.
  rewrite (read_getnum_int _ ti) by done.
  cbn [select_rows nrows]. rewrite <- Hlen.
  rewrite firstn_all2 by (by rewrite !length_fmap).
  rewrite threshold_mask_count.
  destruct (Nat.ltb_spec (length (passing ti)) 3) as [_|Hge3]; [done|lia].
Qed.

(** The clusterer passes [random_state=42]: in this model it neither reads
    nor advances the global random generator.  That two runs of the
    libraries themselves agree is not a statement about this embedding,
    where every library call is a function. *)
Lemma clustering_leaves_generator df g1 g2 :
  (perform_topic_clustering df g1).1 = (perform_topic_clustering df g2).1
  ∧ (perform_topic_clustering df g1).2 = g1
  ∧ ∀ n_clusters n_init X,
      (KMeans_fit_predict (Some 42%Z) n_clusters n_init X g1).1
      = (KMeans_fit_predict (Some 42%Z) n_clusters n_init X g2).1.
Proof.
  assert (Hbody : ∀ g, clustering_body df g
                       = ((clustering_body df g1).1, g)).
  { intros g. unfold clustering_body.
    destruct (read (getnum "total_interactions") df) as [t|]; [|done].
    cbv zeta.
    destruct (nrows (select_rows _ df) <? 3)%nat; [done|].
    destruct (read (getstr "content") _) as [texts|]; [|done].
    destruct (TfidfVectorizer _ _ _ _ _) as [[names X]|]; [|done].
    unfold KMeans_fit_predict.
    destruct (kmeans_run _ _ _ _).1 as [[labels centers]|]; [|done].
    by destruct (bool_decide _). }
  unfold perform_topic_clustering.
  destruct (empty df || (nrows df <? 5)%nat); [done|].
  rewrite (Hbody g1), (Hbody g2).
  by destruct (clustering_body df g1).1.
Qed.

End Clustering.

(** ** Keyword extraction *)

Lemma insert_desc_perm x l : insert_desc x l ≡ₚ x :: l.
Proof.
  induction l as [|y l IH]; [done|]. simpl.
  destruct (Rlt_dec x.2 y.2); [|done].
  rewrite IH. apply Permutation_swap.
Qed.

Lemma insert_desc_sorted x l :
  StronglySorted weight_ge l → StronglySorted weight_ge (insert_desc x l).
Proof.
  induction 1 as [|y l Hs IH Hy]; simpl.
  - repeat constructor.
  - destruct (Rlt_dec x.2 y.2) as [Hlt|Hge].
    + constructor; [done|]. rewrite insert_desc_perm.
      constructor; [unfold weight_ge; lra|done].
    + constructor; [by constructor|].
      constructor; [unfold weight_ge; lra|].
      eapply Forall_impl; [exact Hy|]. unfold weight_ge. intros; lra.
Qed.

Lemma sort_desc_sorted l : StronglySorted weight_ge (sort_desc l).
Proof.
  induction l as [|x l IH]; simpl; [constructor|by apply insert_desc_sorted].
Qed.

(** Sorting keeps the entries of one weight in their order. *)
Lemma insert_desc_stable (w : R) x l :
  filter (λ p : str * R, p.2 = w) (insert_desc x l)
  = filter (λ p : str * R, p.2 = w) (x :: l).
Proof.
  induction l as [|y l IH]; [done|]. simpl.
  destruct (Rlt_dec x.2 y.2) as [Hlt|Hge]; [|done].
  rewrite filter_cons, IH, !filter_cons.
  destruct (decide (y.2 = w)), (decide (x.2 = w)); try done. lra.
Qed.

Lemma sort_desc_stable (w : R) l :
  filter (λ p : str * R, p.2 = w) (sort_desc l)
  = filter (λ p : str * R, p.2 = w) l.
Proof.
  induction l as [|x l IH]; [done|]. simpl.
  by rewrite insert_desc_stable, !filter_cons, IH.
Qed.

Lemma filter_take_prefix {A} (P : A → Prop) `{∀ x, Decision (P x)} n (l : list A) :
  ∃ k, filter P (take n l) = take k (filter P l).
Proof.
  revert n. induction l as [|x l IH]; intros n.
  - exists 0%nat. by destruct n.
  - destruct n as [|n]; [by exists 0%nat|].
    destruct (IH n) as [k Hk]. simpl. rewrite !filter_cons.
    destruct (decide (P x)).
    + exists (S k). simpl. by rewrite Hk.
    + by exists k.
Qed.

Lemma StronglySorted_take {A} (R : A → A → Prop) n (l : list A) :
  StronglySorted R l → StronglySorted R (take n l).
Proof.
  intros Hs. revert n. induction Hs as [|x l Hs IH Hx]; intros [|n]; simpl;
    try constructor; [apply IH|].
  apply Forall_forall. intros y Hy. apply (proj1 (Forall_forall _ _) Hx).
  by eapply subseteq_take.
Qed.

Section Keywords.
Context `{Environment}.

(** C8, as the code has it. [extract_keywords] returns term-weight pairs in
    descending order of weight; pairs of equal weight are in the order of
    the vectoriser's feature names; there are at most 50 of them; for an
    empty input, and when every document is filtered to nothing, the
    result is the empty list. *)
Theorem extract_keywords_sorted texts max_features :
  StronglySorted weight_ge (extract_keywords texts max_features)
  ∧ (length (extract_keywords texts max_features) <= 50)%nat
  ∧ (∀ feature_names tfidf_matrix w,
       TfidfVectorizer max_features keyword_min_freq (8 / 10) (1, 2)%nat
         (keyword_documents texts) = Some (feature_names, tfidf_matrix) →
       ∃ k, filter (λ p, p.2 = w) (extract_keywords texts max_features)
            = take k (filter (λ p, p.2 = w)
                        (zip feature_names
                           (mean_axis0 (length feature_names) tfidf_matrix))))
  ∧ (texts = [] ∨ keyword_documents texts = [] →
     extract_keywords texts max_features = []).
Proof.
  unfold extract_keywords. split; [|split; [|split]].
  - destruct texts; [constructor|].
    destruct (keyword_documents _); [constructor|].
    destruct (TfidfVectorizer _ _ _ _ _) as [[names matrix]|]; [|constructor].
    apply StronglySorted_take, sort_desc_sorted.
  - destruct texts; [simpl; lia|].
    destruct (keyword_documents _); [simpl; lia|].
    destruct (TfidfVectorizer _ _ _ _ _) as [[names matrix]|]; [|simpl; lia].
    rewrite length_take. lia.
  - intros names matrix w Hv.
    destruct texts as [|t texts]; [exists 0%nat; by rewrite take_0|].
    destruct (keyword_documents (t :: texts)) as [|d docs];
      [exists 0%nat; by rewrite take_0|].
    rewrite Hv.
    destruct (filter_take_prefix (λ p : str * R, p.2 = w) 50
                (sort_desc (zip names (mean_axis0 (length names) matrix))))
      as [k Hk].
    exists k. by rewrite Hk, sort_desc_stable.
  - intros [->|Hd]; [done|]. destruct texts; [done|]. by rewrite Hd.
Qed.

End Keywords.

(** ** Ties between keywords *)

Lemma tie_keywords :
  ∃ w, extract_keywords (Some <$> tie_texts) 100 = [(u "aa", w); (u "bb", w)].
Proof.
  unfold extract_keywords.
  assert (Hd : keyword_documents (Some <$> tie_texts) = tie_texts)
    by (vm_compute; reflexivity).
  rewrite Hd. cbn [fmap list_fmap tie_texts].
  unfold TfidfVectorizer, example_env, tie_vectorizer.
  rewrite bool_decide_eq_true_2 by done.
  unfold mean_axis0.
  cbn [length replicate foldr zip_with fmap list_fmap].
  unfold sort_desc. cbn [foldr insert_desc snd].
  destruct (Rlt_dec _ _) as [Hlt|_]; [lra|].
  eexists. reflexivity.
Qed.

(** C8, as stated, fails: [bb] is seen before [aa], both have the same
    weight, and [aa] comes first in the result. *)
Lemma extract_keywords_ties_not_first_seen :
  let stream := tie_texts ≫= tokens keyword_word in
  let out := extract_keywords (Some <$> tie_texts) 100 in
  (∃ w, out = [(u "aa", w); (u "bb", w)])
  ∧ first_seen stream (u "bb") = Some 0%nat
  ∧ first_seen stream (u "aa") = Some 1%nat
  ∧ ¬ ties_by_first_seen stream out.
Proof.
  cbv zeta. destruct tie_keywords as [w Hw].
  assert (Hbb : first_seen (tie_texts ≫= tokens keyword_word) (u "bb") = Some 0%nat)
    by (vm_compute; reflexivity).
  assert (Haa : first_seen (tie_texts ≫= tokens keyword_word) (u "aa") = Some 1%nat)
    by (vm_compute; reflexivity).
  split; [by exists w|]. split; [done|]. split; [done|].
  rewrite Hw. intros Hties.
  specialize (Hties 0%nat 1%nat (u "aa", w) (u "bb", w) 1%nat 0%nat).
  assert (1 <= 0)%nat; [|lia].
  apply Hties; try done; lia.
Qed.

(** ** Daily counts *)

Lemma bump_Forall (Q : Z → Prop) d l :
  Q d → Forall (λ p : Z * nat, Q p.1) l → Forall (λ p : Z * nat, Q p.1) (bump d l).
Proof.
  intros Hd. induction 1 as [|[d' n] l Hx Hl IH]; simpl.
  - by repeat constructor.
  - destruct (d <? d')%Z; [by repeat constructor|].
    destruct (d =? d')%Z; by constructor.
Qed.

Lemma bump_keys d l k : k ∈ (bump d l).*1 ↔ k = d ∨ k ∈ l.*1.
Proof.
  induction l as [|[d' n] l IH]; simpl.
  - rewrite elem_of_cons. by rewrite elem_of_nil.
  - destruct (Z.ltb_spec d d'); [simpl; by rewrite !elem_of_cons|].
    destruct (Z.eqb_spec d d') as [->|Hne]; simpl; rewrite !elem_of_cons.
    + tauto.
    + rewrite IH. tauto.
Qed.

Lemma bump_sorted d l :
  StronglySorted key_lt l → StronglySorted key_lt (bump d l).
Proof.
  induction 1 as [|[d' n] l Hs IH Hx]; simpl.
  - repeat constructor.
  - destruct (Z.ltb_spec d d') as [Hlt|Hge].
    + constructor; [by constructor|]. constructor; [done|].
      eapply Forall_impl; [exact Hx|]. unfold key_lt. simpl. intros; lia.
    + destruct (Z.eqb_spec d d') as [->|Hne].
      * by constructor.
      * constructor; [done|].
        apply (bump_Forall (λ k, d' < k)%Z); [lia|done].
Qed.

Lemma assoc_absent k l : Forall (λ p : Z * nat, (k < p.1)%Z) l → assoc k l = 0%nat.
Proof.
  induction 1 as [|[k' n] l Hx _ IH]; [done|]. simpl in *.
  destruct (Z.eqb_spec k k'); [lia|done].
Qed.

Lemma assoc_bump d l k :
  StronglySorted key_lt l →
  assoc k (bump d l) = (assoc k l + if decide (k = d) then 1 else 0)%nat.
Proof.
  induction 1 as [|[d' n] l Hs IH Hx]; simpl.
  - destruct (Z.eqb_spec k d), (decide (k = d)); done.
  - destruct (Z.ltb_spec d d') as [Hlt|Hge].
    + simpl. destruct (Z.eqb_spec k d) as [->|Hne].
      * destruct (Z.eqb_spec d d'); [lia|].
        rewrite decide_True by done.
        rewrite assoc_absent; [done|].
        eapply Forall_impl; [exact Hx|]. unfold key_lt. simpl. intros; lia.
      * rewrite decide_False by done. lia.
    + destruct (Z.eqb_spec d d') as [->|Hne]; simpl.
      * destruct (Z.eqb_spec k d') as [->|Hk].
        -- rewrite decide_True by done. lia.
        -- rewrite decide_False by done. lia.
      * destruct (Z.eqb_spec k d') as [->|Hk].
        -- rewrite decide_False by done. lia.
        -- apply IH.
Qed.

Lemma groupby_size_sorted dates : StronglySorted key_lt (groupby_size dates).
Proof.
  induction dates as [|d dates IH]; simpl; [constructor|by apply bump_sorted].
Qed.

Lemma groupby_size_keys dates k : k ∈ (groupby_size dates).*1 ↔ k ∈ dates.
Proof.
  induction dates as [|d dates IH]; simpl.
  - done.
  - rewrite bump_keys, IH, elem_of_cons. tauto.
Qed.

Lemma groupby_size_assoc dates k : assoc k (groupby_size dates) = count_on k dates.
Proof.
  unfold count_on. induction dates as [|d dates IH]; [done|]. simpl.
  rewrite assoc_bump by apply groupby_size_sorted. rewrite IH, filter_cons.
  destruct (decide (k = d)) as [->|Hne].
  - rewrite decide_True by done. simpl. lia.
  - rewrite decide_False by done. lia.
Qed.

Lemma sorted_keys l : StronglySorted key_lt l → StronglySorted Z.lt l.*1.
Proof.
  induction 1 as [|x l _ IH Hx]; simpl; constructor; [done|].
  by rewrite Forall_fmap.
Qed.

Lemma sorted_lt_NoDup (l : list Z) : StronglySorted Z.lt l → NoDup l.
Proof.
  induction 1 as [|x l _ IH Hx]; constructor; [|done].
  intros Hin. apply (proj1 (Forall_forall _ _) Hx) in Hin. lia.
Qed.

Lemma sorted_lt_le (l : list Z) : StronglySorted Z.lt l → StronglySorted Z.le l.
Proof.
  induction 1 as [|x l _ IH Hx]; constructor; [done|].
  eapply Forall_impl; [exact Hx|]. simpl. intros; lia.
Qed.

Lemma groupby_size_length dates : length (groupby_size dates) = n_days dates.
Proof.
  unfold n_days. rewrite <- (length_fmap fst).
  rewrite <- (size_list_to_set (C := gset Z)).
  - f_equal. apply set_eq. intros k.
    rewrite !elem_of_list_to_set. apply groupby_size_keys.
  - apply sorted_lt_NoDup, sorted_keys, groupby_size_sorted.
Qed.

Lemma assoc_last l k n :
  StronglySorted key_lt l → last l = Some (k, n) → assoc k l = n.
Proof.
  induction 1 as [|[k' n'] l Hs IH Hx]; [done|].
  destruct l as [|y l].
  - simpl. intros [= -> ->]. by rewrite Z.eqb_refl.
  - change (last ((k', n') :: y :: l)) with (last (y :: l)). intros Hl.
    cbn [assoc]. destruct (Z.eqb_spec k k') as [->|Hne]; [|by apply IH].
    assert (Hin : (k', n) ∈ y :: l) by (by apply last_Some_elem_of).
    apply (proj1 (Forall_forall _ _) Hx) in Hin. unfold key_lt in Hin.
    simpl in Hin. lia.
Qed.

(** ** Keyword momentum *)

Lemma select_zip_with {A B} (f : A → B → bool) (a : list A) (b : list B) :
  select (zip_with f a b) a = (filter (λ ab, f ab.1 ab.2 = true) (zip a b)).*1.
Proof.
  revert b. induction a as [|x a IH]; intros [|y b]; try done.
  cbn [zip_with select]. rewrite filter_cons. cbn [fst snd].
  destruct (f x y).
  - rewrite decide_True by done. rewrite fmap_cons. cbn [fst]. by rewrite IH.
  - rewrite decide_False by done. apply IH.
Qed.

Lemma head_fmap {A B} (f : A → B) (l : list A) : head (f <$> l) = f <$> head l.
Proof. by destruct l. Qed.

Lemma bump_length d l : (length (bump d l) <= S (length l))%nat.
Proof.
  induction l as [|[d' n] l IH]; simpl; [lia|].
  destruct (d <? d')%Z; [simpl; lia|]. destruct (d =? d')%Z; simpl; lia.
Qed.

Lemma groupby_size_le dates : (length (groupby_size dates) <= length dates)%nat.
Proof.
  induction dates as [|d dates IH]; simpl; [lia|].
  pose proof (bump_length d (groupby_size dates)). lia.
Qed.

(** The first and the last of the daily counts are those of the earliest
    and of the latest day. *)
Lemma groupby_size_ends dates :
  dates ≠ [] →
  head (groupby_size dates).*2 = Some (count_on (earliest dates) dates)
  ∧ last (groupby_size dates).*2 = Some (count_on (latest dates) dates).
Proof.
  intros Hne.
  pose proof (groupby_size_sorted dates) as Hs.
  assert (Hkeys : ∀ x, x ∈ (groupby_size dates).*1 ↔ x ∈ dates)
    by apply groupby_size_keys.
  pose proof (sorted_head_set _ dates
                (sorted_lt_le _ (sorted_keys _ Hs)) Hkeys Hne) as Hhead.
  pose proof (sorted_last_set _ dates
                (sorted_lt_le _ (sorted_keys _ Hs)) Hkeys Hne) as Hlast.
  rewrite head_fmap in Hhead. rewrite fmap_last in Hlast.
  rewrite head_fmap, fmap_last.
  destruct (head (groupby_size dates)) as [[d0 n0]|] eqn:Eh; [|done].
  destruct (last (groupby_size dates)) as [[d1 n1]|] eqn:El; [|done].
  simpl in *. injection Hhead as ->. injection Hlast as ->. split; f_equal.
  - rewrite <- groupby_size_assoc. destruct (groupby_size dates) as [|[k n] l];
      [done|]. injection Eh as -> ->. simpl. by rewrite Z.eqb_refl.
  - rewrite <- groupby_size_assoc. symmetry. by apply assoc_last.
Qed.

Section Momentum.
Context `{Environment}.

Lemma momentum_invalid_pattern keyword current_date df days :
  str_contains keyword false = None →
  _calculate_keyword_momentum keyword current_date df days = 0%Q.
Proof.
  intros Hnone. unfold _calculate_keyword_momentum. rewrite Hnone.
  destruct (read _ df); [|done]. by destruct (read _ df).
Qed.

(** The value computed from the columns of the frame. *)
Lemma momentum_counts keyword current_date df days ts content matches :
  cols df !! "timestamp" = Some (TimeCol ts) →
  cols df !! "content" = Some (StrCol content) →
  str_contains keyword false = Some matches →
  let dates := matching_dates matches (window_posts current_date days ts content) in
  _calculate_keyword_momentum keyword current_date df days
  = if (n_days dates <? 2)%nat then 0%Q
    else growth (count_on (earliest dates) dates) (count_on (latest dates) dates)
                (n_days dates).
Proof.
  intros Ht Hc Hm dates. unfold _calculate_keyword_momentum.
  rewrite (read_gettime _ ts), (read_getstr _ content), Hm by done.
  cbv zeta.
  assert (Hd : date_of <$> select
             (zip_with (λ t c,
                (current_date - days <=? date_of t)%Z
                && (date_of t <=? current_date)%Z && matches c) ts content) ts
           = dates).
  { rewrite select_zip_with. subst dates.
    unfold matching_dates, window_posts. rewrite list_filter_filter.
    rewrite <- list_fmap_compose. f_equal.
    apply list_filter_iff. intros [t c]. unfold in_window. simpl.
    rewrite !andb_true_iff, !Z.leb_le. tauto. }
  rewrite <- (length_fmap date_of), Hd, length_fmap, groupby_size_length.
  pose proof (groupby_size_le dates) as Hle. rewrite groupby_size_length in Hle.
  destruct (Nat.ltb_spec (length dates) 2) as [Hshort|Hlong].
  { destruct (Nat.ltb_spec (n_days dates) 2); [done|lia]. }
  destruct (Nat.ltb_spec (n_days dates) 2) as [|Hn2]; [done|].
  destruct (Nat.ltb_spec 1 (n_days dates)) as [_|]; [|lia].
  assert (Hne : dates ≠ []) by (intros E; rewrite E in Hlong; simpl in Hlong; lia).
  destruct (groupby_size_ends dates Hne) as [Hhead Hlast].
  assert (E : (λ dn : Z * nat, Z.of_nat dn.2) <$> groupby_size dates
              = Z.of_nat <$> (groupby_size dates).*2)
    by (by rewrite <- list_fmap_compose).
  rewrite E, head_fmap, fmap_last, Hhead, Hlast. reflexivity.
Qed.

End Momentum.

Section MomentumClaims.
Context `{Environment}.

(** C2, as the code has it. [_calculate_keyword_momentum] is never
    negative.  With fewer than two distinct days of matching posts in the
    window it is 0; otherwise it is the count of the last day that has
    matching posts minus the count of the first such day, divided by the
    number of days with matching posts minus one, and 0 when that is
    negative.  Daily counts 2, 2, 2 give 0, and daily counts 2, 4, 6
    give 2. *)
Theorem keyword_momentum_growth keyword current_date df days :
  (0 <= _calculate_keyword_momentum keyword current_date df days)%Q
  ∧ ∀ ts content matches,
      cols df !! "timestamp" = Some (TimeCol ts) →
      cols df !! "content" = Some (StrCol content) →
      str_contains keyword false = Some matches →
      let dates :=
        matching_dates matches (window_posts current_date days ts content) in
      ((n_days dates < 2)%nat →
         _calculate_keyword_momentum keyword current_date df days = 0%Q)
      ∧ ((2 <= n_days dates)%nat →
         _calculate_keyword_momentum keyword current_date df days
         = growth (count_on (earliest dates) dates)
                  (count_on (latest dates) dates) (n_days dates))
      ∧ ((groupby_size dates).*2 = [2; 2; 2]%nat →
         (_calculate_keyword_momentum keyword current_date df days == 0)%Q)
      ∧ ((groupby_size dates).*2 = [2; 4; 6]%nat →
         (_calculate_keyword_momentum keyword current_date df days == 2)%Q).
Proof.
  split.
  - unfold _calculate_keyword_momentum.
    destruct (read _ df); [|apply Qle_refl].
    destruct (read _ df); [|apply Qle_refl].
    destruct (str_contains _ _); [|apply Qle_refl].
    cbv zeta. destruct (_ <? 2)%nat; [apply Qle_refl|].
    destruct (_ <? 2)%nat; [apply Qle_refl|].
    unfold pymax_Q. destruct (Qlt_le_dec 0 _) as [Hlt|_].
    + by apply Qlt_le_weak.
    + apply Qle_refl.
  - intros ts content matches Ht Hc Hm dates.
    rewrite (momentum_counts keyword current_date df days ts content matches)
      by done.
    fold dates.
    assert (Hex : ∀ a b c : nat, (groupby_size dates).*2 = [a; b; c] →
              n_days dates = 3%nat
              ∧ count_on (earliest dates) dates = a
              ∧ count_on (latest dates) dates = c).
    { intros a b c Hv.
      assert (Hne : dates ≠ []) by (intros E; by rewrite E in Hv).
      destruct (groupby_size_ends dates Hne) as [Hh Hl].
      rewrite Hv in Hh, Hl. simpl in Hh, Hl.
      rewrite <- groupby_size_length, <- (length_fmap snd), Hv.
      split; [done|]. split; congruence. }
    split; [|split; [|split]].
    + intros Hlt. by destruct (Nat.ltb_spec (n_days dates) 2); [|lia].
    + intros Hge. by destruct (Nat.ltb_spec (n_days dates) 2); [lia|].
    + intros Hv. destruct (Hex _ _ _ Hv) as (-> & -> & ->). reflexivity.
    + intros Hv. destruct (Hex _ _ _ Hv) as (-> & -> & ->). reflexivity.
Qed.

(** C3, as the code has it. [_calculate_keyword_momentum] looks only at the
    posts whose date lies in the window that reaches back [days] days from
    the end date, both ends included ([days] + 1 calendar dates): two
    batches with the same posts in that window have the same momentum. *)
Theorem keyword_momentum_window keyword current_date days
    df1 ts1 content1 df2 ts2 content2 :
  cols df1 !! "timestamp" = Some (TimeCol ts1) →
  cols df1 !! "content" = Some (StrCol content1) →
  cols df2 !! "timestamp" = Some (TimeCol ts2) →
  cols df2 !! "content" = Some (StrCol content2) →
  window_posts current_date days ts1 content1
  = window_posts current_date days ts2 content2 →
  _calculate_keyword_momentum keyword current_date df1 days
  = _calculate_keyword_momentum keyword current_date df2 days.
Proof.
  intros Ht1 Hc1 Ht2 Hc2 Hw.
  destruct (str_contains keyword false) as [matches|] eqn:Hm.
  - rewrite (momentum_counts keyword current_date df1 days ts1 content1 matches),
      (momentum_counts keyword current_date df2 days ts2 content2 matches) by done.
    by rewrite Hw.
  - by rewrite !momentum_invalid_pattern.
Qed.

End MomentumClaims.

(** ** Examples in the example environment *)

Lemma keyword_momentum_growth_witness :
  (_calculate_keyword_momentum (u "ai") 2 momentum_frame 3 == 2)%Q.
Proof.
  destruct (keyword_momentum_growth (u "ai") 2 momentum_frame 3) as [_ Hm].
  apply (Hm momentum_timestamps (replicate 12 (u "news about ai"))
            (contains (u "ai"))).
  - unfold momentum_frame. cbn [cols]. rewrite lookup_insert_ne by done.
    by rewrite lookup_insert_eq.
  - unfold momentum_frame. cbn [cols]. by rewrite lookup_insert_eq.
  - reflexivity.
  - vm_compute. reflexivity.
Defined.

Lemma keyword_momentum_window_witness :
  _calculate_keyword_momentum (u "ai") 2 momentum_frame 3
  = _calculate_keyword_momentum (u "ai") 2 momentum_frame_with_old_post 3.
Proof.
  apply (keyword_momentum_window (u "ai") 2 3
           momentum_frame momentum_timestamps (replicate 12 (u "news about ai"))
           momentum_frame_with_old_post (day (-3) :: momentum_timestamps)
           (replicate 13 (u "news about ai"))).
  - unfold momentum_frame. cbn [cols]. rewrite lookup_insert_ne by done.
    by rewrite lookup_insert_eq.
  - unfold momentum_frame. cbn [cols]. by rewrite lookup_insert_eq.
  - unfold momentum_frame_with_old_post. cbn [cols].
    rewrite lookup_insert_ne by done. by rewrite lookup_insert_eq.
  - unfold momentum_frame_with_old_post. cbn [cols]. by rewrite lookup_insert_eq.
  - vm_compute. reflexivity.
Defined.

(** The window of the default three days before day 2 holds the four
    dates from day -1 to day 2. *)
Example window_of_three_days :
  in_window 2 3 (-1) ∧ in_window 2 3 2 ∧ ¬ in_window 2 3 (-2) ∧ ¬ in_window 2 3 3.
Proof. unfold in_window. lia. Qed.

Lemma clustering_rejects_small_batches_witness :
  perform_topic_clustering (frame_of_posts example_posts) tt = ([], tt).
Proof.
  refine (@clustering_rejects_small_batches example_env
            (frame_of_posts example_posts) tt _).
  left. cbn. lia.
Defined.

(** Decoding of a literal. *)
Example u_decodes_utf8 : u "科技 ai" = [31185; 25216; 32; 97; 105]%N.
Proof. reflexivity. Qed.

(** ** More on the engagement rate *)

Lemma series_mean_ints (zs : list Z) :
  zs ≠ [] → series_mean (of_int <$> zs) = Fin (IZR (Zsum zs) / INR (length zs)).
Proof.
  intros Hne. pose proof (series_sum_ints zs) as Hs.
  unfold series_mean, series_sum in *. rewrite dropna_id in *;
    try (rewrite Forall_fmap; by apply Forall_true).
  destruct zs as [|z zs]; [done|].
  unfold np_mean. rewrite fmap_cons, <- fmap_cons, Hs, length_fmap.
  unfold of_int. rewrite <- INR_IZR_INZ.
  apply fdiv_fin, not_0_INR. simpl. lia.
Qed.

Lemma group_of_ints (us : list str) (ti : list Z) (name : str) :
  (filter (λ kv : str * float64, kv.1 = name) (zip us (of_int <$> ti))).*2
  = of_int <$> user_posts us ti name.
Proof.
  unfold user_posts. revert ti. induction us as [|k us IH]; intros [|z ti]; try done.
  rewrite fmap_cons. cbn [zip_with]. rewrite !filter_cons. cbn [fst].
  destruct (decide (k = name)); [rewrite !fmap_cons; cbn [snd]|]; by rewrite IH.
Qed.

Lemma user_posts_elem (us : list str) (ti : list Z) (name : str) i z :
  us !! i = Some name → ti !! i = Some z → z ∈ user_posts us ti name.
Proof.
  intros Hu Ht. unfold user_posts. apply list_elem_of_fmap. exists (name, z).
  split; [done|]. apply list_elem_of_filter. split; [done|].
  apply (list_elem_of_lookup_2 _ i), lookup_zip_with_Some. by exists name, z.
Qed.

(** The entry of one post, as the stage computes it. *)
Lemma engagement_rate_entry (us : list str) (ti : list Z) df name z i :
  nrows df ≠ 0%nat →
  cols df !! "username" = Some (StrCol us) →
  cols df !! "total_interactions" = Some (IntCol ti) →
  us !! i = Some name → ti !! i = Some z →
  ∃ e, cols (calculate_engagement_rate df) !! "engagement_rate" = Some (FloatCol e)
       ∧ e !! i = Some (flog1p (fillna (Fin 1) (replace_inf (Fin 1)
                   (fdiv (of_int z) (Fin (user_mean us ti name)))))).
Proof.
  intros Hn Hu Ht Hi Hz. unfold calculate_engagement_rate.
  rewrite (empty_false df "username" _) by done.
  unfold try_return. repeat step. unfold assign. cbn [snd].
  eexists. split; [look|].
  rewrite !list_lookup_fmap. unfold map2. rewrite lookup_zip_with.
  rewrite !list_lookup_fmap. unfold series_map. rewrite list_lookup_fmap.
  rewrite Hi, Hz. cbn [fmap option_fmap option_map mbind option_bind].
  unfold groupby_mean. rewrite group_of_ints.
  pose proof (user_posts_elem us ti name i z Hi Hz) as Hin.
  assert (Hne : user_posts us ti name ≠ [])
    by (intros E; rewrite E in Hin; by apply not_elem_of_nil in Hin).
  destruct (user_posts us ti name) as [|z0 zs] eqn:E; [done|].
  rewrite fmap_cons, <- fmap_cons, <- E, series_mean_ints by (by rewrite E).
  reflexivity.
Qed.

Lemma user_posts_Forall (P : Z → Prop) us ti name :
  Forall P ti → Forall P (user_posts us ti name).
Proof.
  intros HP. unfold user_posts. rewrite Forall_fmap. apply Forall_forall.
  intros [k v] Hin. apply list_elem_of_filter in Hin as [_ Hin].
  apply list_elem_of_lookup_1 in Hin as [j Hj].
  apply lookup_zip_with_Some in Hj as (k' & v' & Heq & _ & Hv).
  injection Heq as <- <-. simpl.
  apply (proj1 (Forall_forall _ _) HP). by eapply list_elem_of_lookup_2.
Qed.

Lemma Zsum_zero_all (l : list Z) z :
  Forall (λ x, 0 <= x)%Z l → Zsum l = 0%Z → z ∈ l → z = 0%Z.
Proof.
  induction 1 as [|x l Hx Hl IH]; intros Hs Hin; [by apply not_elem_of_nil in Hin|].
  pose proof (Zsum_nonneg l Hl). unfold Zsum in *. simpl in Hs.
  apply elem_of_cons in Hin as [->|Hin]; [lia|]. apply IH; [lia|done].
Qed.

(** X1. For non-negative interaction counts every [engagement_rate] is a
    finite number that is not negative: it is [log(1 + count / mean)] with
    the mean count of the author's posts when that mean is positive, and
    [log 2] when it is 0. *)
Theorem engagement_rate_nonneg (us : list str) (ti : list Z) df name z i :
  nrows df ≠ 0%nat →
  cols df !! "username" = Some (StrCol us) →
  cols df !! "total_interactions" = Some (IntCol ti) →
  us !! i = Some name → ti !! i = Some z →
  Forall (λ x, 0 <= x)%Z ti →
  ∃ e r, cols (calculate_engagement_rate df) !! "engagement_rate" = Some (FloatCol e)
         ∧ e !! i = Some (Fin r) ∧ 0 <= r
         ∧ (0 < user_mean us ti name → r = ln (1 + IZR z / user_mean us ti name))
         ∧ (user_mean us ti name = 0 → r = ln 2).
Proof.
  intros Hn Hu Ht Hi Hz Hpos.
  destruct (engagement_rate_entry us ti df name z i Hn Hu Ht Hi Hz) as (e & He & Hei).
  pose proof (user_posts_elem us ti name i z Hi Hz) as Hin.
  pose proof (user_posts_Forall _ us ti name Hpos) as Hzs.
  assert (Hlen : 0 < INR (length (user_posts us ti name))).
  { apply lt_0_INR. destruct (user_posts us ti name); [by apply not_elem_of_nil in Hin|].
    simpl. lia. }
  assert (Hsum : 0 <= IZR (Zsum (user_posts us ti name)))
    by (apply IZR_le; by apply Zsum_nonneg).
  assert (Hz0 : 0 <= IZR z).
  { apply IZR_le. apply (proj1 (Forall_forall _ _) Hpos). by eapply list_elem_of_lookup_2. }
  exists e. rewrite Hei. unfold of_int, fdiv.
  destruct (Req_dec_T (user_mean us ti name) 0) as [Hm0|Hm0].
  - assert (z = 0%Z) as ->.
    { apply (Zsum_zero_all (user_posts us ti name)); [done| |done].
      apply eq_IZR. unfold user_mean in Hm0.
      apply (Rmult_eq_compat_r (INR (length (user_posts us ti name)))) in Hm0.
      unfold Rdiv in Hm0. rewrite Rmult_assoc, Rinv_l, Rmult_1_r, Rmult_0_l in Hm0;
        [done|lra]. }
    unfold Rsign. destruct (Rlt_dec 0 0); [lra|].
    cbn [signed_inf replace_inf is_inf fillna is_nan].
    rewrite flog1p_fin by lra. exists (ln (1 + 1)).
    split; [done|]. split; [done|]. rewrite <- ln_1 at 1.
    split; [left; apply ln_increasing; lra|]. split; [lra|].
    intros _. by replace (1 + 1) with 2 by lra.
  - assert (Hm : 0 < user_mean us ti name).
    { assert (0 <= user_mean us ti name).
      { unfold user_mean. apply Rmult_le_pos; [done|]. left. by apply Rinv_0_lt_compat. }
      lra. }
    assert (Hq : 0 <= IZR z / user_mean us ti name).
    { apply Rmult_le_pos; [done|]. left. by apply Rinv_0_lt_compat. }
    cbn [replace_inf is_inf fillna is_nan]. rewrite flog1p_fin by lra.
    eexists. split; [done|]. split; [done|].
    split; [|split; [done|lra]].
    rewrite <- ln_1. destruct Hq as [Hq| <-].
    + left. apply ln_increasing; lra.
    + rewrite Rplus_0_r. lra.
Qed.

Lemma engagement_rate_nonneg_witness :
  ∃ e r, cols (calculate_engagement_rate (frame_of_posts example_posts))
           !! "engagement_rate" = Some (FloatCol e)
         ∧ e !! 0%nat = Some (Fin r) ∧ 0 <= r
         ∧ (0 < user_mean (username <$> example_posts)
                  (interactions_of <$> example_posts) (u "ann") →
            r = ln (1 + IZR 10 / user_mean (username <$> example_posts)
                           (interactions_of <$> example_posts) (u "ann")))
         ∧ (user_mean (username <$> example_posts)
              (interactions_of <$> example_posts) (u "ann") = 0 → r = ln 2).
Proof.
  pose proof (frame_of_posts_columns example_posts ltac:(discriminate)) as H.
  apply (engagement_rate_nonneg
           (username <$> example_posts) (interactions_of <$> example_posts)
           _ (u "ann") 10%Z 0%nat).
  - discriminate.
  - apply (rc_username _ _ H).
  - apply (rc_total _ _ H).
  - reflexivity.
  - reflexivity.
  - rewrite Forall_fmap. repeat constructor; by vm_compute.
Defined.

(** X2. The only post of an author always gets [engagement_rate = log 2],
    whatever its interaction count: the count divided by the author's mean
    is 1, or 0/0, which is replaced by 1. *)
Theorem engagement_rate_single_post (us : list str) (ti : list Z) df name z i :
  nrows df ≠ 0%nat →
  cols df !! "username" = Some (StrCol us) →
  cols df !! "total_interactions" = Some (IntCol ti) →
  us !! i = Some name → ti !! i = Some z →
  user_posts us ti name = [z] →
  ∃ e, cols (calculate_engagement_rate df) !! "engagement_rate" = Some (FloatCol e)
       ∧ e !! i = Some (Fin (ln 2)).
Proof.
  intros Hn Hu Ht Hi Hz Hone.
  destruct (engagement_rate_entry us ti df name z i Hn Hu Ht Hi Hz) as (e & He & Hei).
  exists e. split; [done|]. rewrite Hei. f_equal.
  unfold user_mean. rewrite Hone. unfold Zsum. simpl foldr. simpl length.
  rewrite Z.add_0_r. unfold of_int, fdiv.
  change (INR 1) with 1.
  destruct (Req_dec_T (IZR z / 1) 0) as [Hm0|Hm0].
  - assert (IZR z = 0) as -> by lra. unfold Rsign.
    destruct (Rlt_dec 0 0); [lra|].
    cbn [signed_inf replace_inf is_inf fillna is_nan].
    rewrite flog1p_fin by lra. by replace (1 + 1) with 2 by lra.
  - cbn [replace_inf is_inf fillna is_nan].
    assert (IZR z / (IZR z / 1) = 1) as -> by (field; lra).
    rewrite flog1p_fin by lra. by replace (1 + 1) with 2 by lra.
Qed.

Lemma engagement_rate_single_post_witness :
  ∃ e, cols (calculate_engagement_rate (frame_of_posts example_posts))
         !! "engagement_rate" = Some (FloatCol e)
       ∧ e !! 2%nat = Some (Fin (ln 2)).
Proof.
  pose proof (frame_of_posts_columns example_posts ltac:(discriminate)) as H.
  apply (engagement_rate_single_post
           (username <$> example_posts) (interactions_of <$> example_posts)
           _ (u "bob") 0%Z).
  - discriminate.
  - apply (rc_username _ _ H).
  - apply (rc_total _ _ H).
  - reflexivity.
  - reflexivity.
  - vm_compute. reflexivity.
Defined.

(** ** Viral potential *)

Lemma hours_of_nonneg now t : (t <= now)%Z → 0 <= hours_of now t.
Proof.
  intros H. unfold hours_of.
  assert (0 <= IZR (now - t)) by (apply IZR_le; lia).
  apply Rmult_le_pos; [apply Rmult_le_pos; [done|]|];
    left; apply Rinv_0_lt_compat; lra.
Qed.

Lemma freshness_of_pos h : 0 < freshness_of h.
Proof.
  unfold freshness_of, clip01. pose proof (exp_pos (- h / 24)).
  destruct (Rlt_dec _ 0); [lra|]. destruct (Rlt_dec 1 _); lra.
Qed.

Lemma content_signals_nonneg s : (0 <= content_signals s)%Z.
Proof.
  unfold content_signals, bool_int.
  destruct (contains _ s), (contains _ s), (contains _ s); lia.
Qed.

Lemma interactions_nonneg p : non_negative_counters p → (0 <= interactions_of p)%Z.
Proof. intros (? & ? & ?). unfold interactions_of. lia. Qed.

Lemma ln1p_pos x : 0 <= x → 0 <= ln (1 + x).
Proof.
  intros Hx. apply Rle_trans with (ln 1); [rewrite ln_1; lra|].
  destruct Hx as [Hx|Hx].
  - left. apply ln_increasing; lra.
  - replace (1 + x) with 1 by lra. lra.
Qed.

Lemma viral_raw_pos now p : past_post now p → 0 < viral_raw now p.
Proof.
  intros [Hc Ht]. pose proof (interactions_nonneg p Hc) as Hi.
  destruct Hc as (_ & _ & Hp). apply IZR_le in Hi, Hp.
  pose proof (hours_of_nonneg now (timestamp p) Ht) as Hh.
  pose proof (freshness_of_pos (hours_of now (timestamp p))) as Hf.
  pose proof (content_signals_nonneg (content_of p)) as Hs. apply IZR_le in Hs.
  unfold viral_raw.
  assert (0 <= IZR (reposts_of p) / (IZR (interactions_of p) + 1)).
  { apply Rmult_le_pos; [done|]. left. apply Rinv_0_lt_compat. lra. }
  assert (0 <= IZR (interactions_of p) / (hours_of now (timestamp p) + 1)).
  { apply Rmult_le_pos; [done|]. left. apply Rinv_0_lt_compat. lra. }
  pose proof (ln1p_pos _ H0). lra.
Qed.

(** The column the stage leaves, in closed form. *)
Lemma viral_potential_column now posts df :
  fresh_columns now posts df → posts ≠ [] → Forall (past_post now) posts →
  cols (calculate_viral_potential df) !! "viral_potential" =
    Some (FloatCol
      (let raw := Fin <$> (viral_raw now <$> posts) in
       if fgtb (series_max raw) (Fin 0)
       then (λ x, fdiv x (series_max raw)) <$> raw
       else raw)).
Proof.
  intros [[Hn Hu Ht Hl Hr Hp Hc Hi] Hh Hf] Hne Hpast.
  unfold calculate_viral_potential.
  rewrite (empty_false df "timestamp" _) by (try done; rewrite Hn; by destruct posts).
  unfold try_return. repeat step. cbv zeta.
  match goal with |- context [series_max ?X] =>
    assert (Heq : X = Fin <$> (viral_raw now <$> posts)) end.
  { clear -Hpast. unfold map3, map2.
    induction Hpast as [|p posts [Hc Htp] _ IH]; [done|].
    rewrite !fmap_cons. cbn [zip_with fst snd]. rewrite IH. f_equal.
    pose proof (interactions_nonneg p Hc) as Hi. apply IZR_le in Hi.
    pose proof (hours_of_nonneg now (timestamp p) Htp) as Hh.
    unfold of_int, viral_raw, content_signals. cbn [fadd].
    rewrite (fdiv_fin _ (IZR (interactions_of p) + 1)) by lra.
    rewrite (fdiv_fin _ (hours_of now (timestamp p) + 1)) by lra.
    rewrite flog1p_fin.
    2:{ assert (0 <= IZR (interactions_of p) / (hours_of now (timestamp p) + 1));
          [|lra].
        apply Rmult_le_pos; [done|]. left. apply Rinv_0_lt_compat. lra. }
    cbn [fmul fadd]. f_equal. rewrite !plus_IZR. lra. }
  rewrite !Heq.
  destruct (fgtb (series_max (Fin <$> (viral_raw now <$> posts))) (Fin 0)).
  - unfold assign. cbn [snd]. look.
  - unfold ret. cbn [snd]. look.
Qed.

Lemma freshness_score_rows now df : nrows (calculate_freshness_score now df) = nrows df.
Proof. apply (frames_try_rows freshness_fields). frame_body. Qed.

Lemma engagement_rate_rows df : nrows (calculate_engagement_rate df) = nrows df.
Proof. apply (frames_try_rows engagement_fields). frame_body. Qed.

Lemma viral_potential_rows df : nrows (calculate_viral_potential df) = nrows df.
Proof. apply (frames_try_rows viral_fields). frame_body. Qed.

(** A stage that writes none of the columns of the fetched posts keeps
    them. *)
Lemma raw_columns_kept posts df df' :
  raw_columns posts df → nrows df' = nrows df →
  (∀ c, c ∈ ["username"; "timestamp"; "likes"; "replies"; "reposts";
             "content"; "total_interactions"]%string →
        cols df' !! c = cols df !! c) →
  raw_columns posts df'.
Proof.
  intros [Hn Hu Ht Hl Hr Hp Hc Hi] Hn' Hk.
  split; [congruence|..]; (rewrite Hk; [done|in_list]).
Qed.

Lemma freshness_score_fresh_columns now posts df :
  raw_columns posts df → posts ≠ [] →
  fresh_columns now posts (calculate_freshness_score now df).
Proof.
  intros Hraw Hne.
  destruct (freshness_columns now (timestamp <$> posts) df) as [Hh Hf].
  { rewrite (rc_rows _ _ Hraw). by destruct posts. }
  { apply (rc_timestamp _ _ Hraw). }
  split; [|done|done].
  apply (raw_columns_kept posts df); [done|apply freshness_score_rows|].
  intros c Hc. apply freshness_score_frame. apply list_elem_of_In in Hc.
  rewrite list_elem_of_In. simpl in *. intuition (subst; discriminate).
Qed.

Lemma hours_of_recent now t : recent now t → hours_of now t / 24 <= 365.
Proof.
  unfold recent, day, hours_of. intros Hr. apply IZR_le in Hr.
  rewrite mult_IZR in Hr. lra.
Qed.

Lemma freshness_of_recent now t :
  (t <= now)%Z → recent now t → exp (- 365) <= freshness_of (hours_of now t).
Proof.
  intros Ht Hr. pose proof (hours_of_nonneg now t Ht) as H0.
  pose proof (hours_of_recent now t Hr) as H1.
  assert (Hlo : exp (- 365) <= exp (- hours_of now t / 24)) by (apply exp_le; lra).
  assert (Hhi : exp (- hours_of now t / 24) <= 1)
    by (rewrite <- exp_0; apply exp_le; lra).
  pose proof (exp_pos (- 365)) as Hpos.
  unfold freshness_of, clip01.
  destruct (Rlt_dec _ 0); [lra|]. destruct (Rlt_dec 1 _); lra.
Qed.

Lemma viral_raw_recent now p :
  past_post now p → recent now (timestamp p) →
  exp (- 365) * (2 / 10) <= viral_raw now p.
Proof.
  intros [Hc Ht] Hr. pose proof (interactions_nonneg p Hc) as Hi.
  destruct Hc as (_ & _ & Hp). apply IZR_le in Hi, Hp.
  pose proof (hours_of_nonneg now (timestamp p) Ht) as Hh.
  pose proof (freshness_of_recent now (timestamp p) Ht Hr) as Hf.
  pose proof (content_signals_nonneg (content_of p)) as Hs. apply IZR_le in Hs.
  unfold viral_raw.
  assert (0 <= IZR (reposts_of p) / (IZR (interactions_of p) + 1)).
  { apply Rmult_le_pos; [done|]. left. apply Rinv_0_lt_compat. lra. }
  assert (0 <= IZR (interactions_of p) / (hours_of now (timestamp p) + 1)).
  { apply Rmult_le_pos; [done|]. left. apply Rinv_0_lt_compat. lra. }
  pose proof (ln1p_pos _ H0). lra.
Qed.

(** X3. After [calculate_freshness_score], for posts that have non-negative
    counters, are not from the future and are at most 365 days old,
    [calculate_viral_potential] gives every post a value in (0,1]: the raw
    score, which is at least [0.2 * exp(-365)], divided by the batch
    maximum; a post of maximal score gets exactly 1. *)
Theorem viral_potential_normalised now posts df :
  fresh_columns now posts df → posts ≠ [] → Forall (past_post now) posts →
  Forall (λ p, recent now (timestamp p)) posts →
  ∃ vp m, cols (calculate_viral_potential df) !! "viral_potential"
            = Some (FloatCol (Fin <$> vp))
          ∧ 0 < m
          ∧ Forall (λ p, exp (- 365) * (2 / 10) <= viral_raw now p <= m) posts
          ∧ vp = (λ p, viral_raw now p / m) <$> posts
          ∧ Forall (λ x, 0 < x <= 1) vp
          ∧ Exists (λ x, x = 1) vp.
Proof.
  intros Hcols Hne Hpast Hrecent.
  rewrite (viral_potential_column now posts df Hcols Hne Hpast). cbn zeta.
  destruct (series_max_fin (viral_raw now <$> posts)) as (m & Hm & Hin & Hle).
  { by destruct posts. }
  rewrite Hm. unfold fgtb. cbn [fltb].
  apply list_elem_of_fmap in Hin as (pm & Hpm & Hpmin).
  rewrite Forall_fmap in Hle.
  assert (Hmpos : 0 < m).
  { rewrite Hpm. apply viral_raw_pos. by apply (proj1 (Forall_forall _ _) Hpast). }
  destruct (Rlt_dec 0 m) as [_|]; [|done].
  exists ((λ p, viral_raw now p / m) <$> posts), m.
  split.
  { do 2 f_equal. rewrite <- !list_fmap_compose. apply list_fmap_ext.
    intros i p _. simpl. destruct (Req_dec_T m 0); [lra|done]. }
  split; [done|]. split.
  { apply Forall_forall. intros p Hp. split.
    - apply viral_raw_recent;
        [exact (proj1 (Forall_forall _ _) Hpast p Hp)
        |exact (proj1 (Forall_forall _ _) Hrecent p Hp)].
    - exact (proj1 (Forall_forall _ _) Hle p Hp). }
  split; [done|]. split.
  - rewrite Forall_fmap. apply Forall_forall. intros p Hp. simpl.
    pose proof (viral_raw_pos now p (proj1 (Forall_forall _ _) Hpast p Hp)) as H0.
    pose proof (proj1 (Forall_forall _ _) Hle p Hp) as H1. simpl in H1.
    assert (Hq : viral_raw now p / m * m = viral_raw now p) by (field; lra).
    assert (0 < viral_raw now p / m).
    { apply Rmult_lt_0_compat; [done|]. by apply Rinv_0_lt_compat. }
    nra.
  - apply Exists_exists. exists 1. split; [|done].
    apply list_elem_of_fmap. exists pm. split; [|done]. rewrite <- Hpm. field. lra.
Qed.

Lemma viral_potential_normalised_witness :
  ∃ vp m, cols (calculate_viral_potential
                  (calculate_freshness_score 3600000000000
                     (frame_of_posts example_posts))) !! "viral_potential"
            = Some (FloatCol (Fin <$> vp))
          ∧ 0 < m
          ∧ Forall (λ p, exp (- 365) * (2 / 10) <= viral_raw 3600000000000 p <= m)
              example_posts
          ∧ vp = (λ p, viral_raw 3600000000000 p / m) <$> example_posts
          ∧ Forall (λ x, 0 < x <= 1) vp
          ∧ Exists (λ x, x = 1) vp.
Proof.
  apply viral_potential_normalised.
  - apply freshness_score_fresh_columns; [|discriminate].
    by apply frame_of_posts_columns.
  - discriminate.
  - repeat constructor; by vm_compute.
  - repeat constructor; by vm_compute.
Defined.

Lemma run_getnum_none {B} c (k : list float64 → stage B) df :
  cols df !! c = None → (getnum c ≫= k) df = (None, df).
Proof. intros H. unfold getnum, getcol, mbind, stage_bind, bind. by rewrite H. Qed.

(** X4. [calculate_viral_potential] needs the columns of
    [calculate_freshness_score]: on a batch without [hours_since_post], or
    with it but without [freshness_score], it ends by the exception it
    catches, [viral_potential] is not assigned, and [repost_ratio] has
    been assigned all the same. *)
Theorem viral_potential_needs_freshness posts df :
  raw_columns posts df → posts ≠ [] →
  cols df !! "hours_since_post" = None
  ∨ ((∃ h, cols df !! "hours_since_post" = Some (FloatCol h))
     ∧ cols df !! "freshness_score" = None) →
  cols (calculate_viral_potential df) !! "viral_potential"
    = cols df !! "viral_potential"
  ∧ is_Some (cols (calculate_viral_potential df) !! "repost_ratio").
Proof.
  intros [Hn Hu Ht Hl Hr Hp Hc Hi] Hne Hmiss.
  unfold calculate_viral_potential.
  rewrite (empty_false df "timestamp" _) by (try done; rewrite Hn; by destruct posts).
  unfold try_return.
  destruct Hmiss as [Hh|[[h Hh] Hf]].
  - do 4 step. rewrite run_getnum_none.
    2:{ cbn [cols set_col]. by rewrite lookup_insert_ne. }
    cbn [snd cols set_col]. rewrite lookup_insert_ne by done.
    split; [done|]. by rewrite lookup_insert_eq.
  - repeat step. rewrite run_getnum_none.
    2:{ cbn [cols set_col]. by repeat (rewrite lookup_insert_ne by done). }
    cbn [snd cols set_col]. repeat (rewrite lookup_insert_ne by done).
    split; [done|]. by rewrite lookup_insert_eq.
Qed.

Lemma viral_potential_needs_freshness_witness :
  cols (calculate_viral_potential (frame_of_posts example_posts)) !! "viral_potential"
    = cols (frame_of_posts example_posts) !! "viral_potential"
  ∧ is_Some (cols (calculate_viral_potential (frame_of_posts example_posts))
               !! "repost_ratio").
Proof.
  apply (viral_potential_needs_freshness example_posts).
  - by apply frame_of_posts_columns.
  - discriminate.
  - left. reflexivity.
Defined.

(** ** More on freshness and heat *)

(** X5. For a post at most 365 days old [calculate_freshness_score] gives
    at least [exp(-365)], so never 0: a post written at or after the clock
    reading gets exactly 1 (the upper clip), a post written before it gets
    [exp(-h/24)], below 1 (no clip). *)
Theorem freshness_score_clip_cases now ts df i t :
  nrows df ≠ 0%nat → cols df !! "timestamp" = Some (TimeCol ts) →
  ts !! i = Some t → recent now t →
  ∃ fs r, cols (calculate_freshness_score now df) !! "freshness_score"
            = Some (FloatCol fs)
          ∧ fs !! i = Some (Fin r) ∧ exp (- 365) <= r
          ∧ ((now <= t)%Z → r = 1)
          ∧ ((t < now)%Z → r = exp (- hours_of now t / 24) ∧ r < 1).
Proof.
  intros Hn Ht Hi Hrecent.
  destruct (freshness_columns now ts df Hn Ht) as [_ Hf].
  eexists _, (freshness_of (hours_of now t)). split; [exact Hf|].
  split; [by rewrite !list_lookup_fmap, Hi|].
  split.
  { destruct (Z_le_gt_dec t now) as [Hle|Hgt];
      [by apply freshness_of_recent|].
    assert (Hh : hours_of now t <= 0).
    { unfold hours_of. assert (IZR (now - t) <= 0) by (apply IZR_le; lia).
      assert (0 <= - IZR (now - t) / 1000000000 / 3600); [|lra].
      apply Rmult_le_pos; [apply Rmult_le_pos; [lra|]|];
        left; apply Rinv_0_lt_compat; lra. }
    assert (1 <= exp (- hours_of now t / 24))
      by (rewrite <- exp_0; apply exp_le; lra).
    assert (exp (- 365) <= 1) by (rewrite <- exp_0; apply exp_le; lra).
    unfold freshness_of, clip01.
    destruct (Rlt_dec _ 0); [lra|]. destruct (Rlt_dec 1 _); lra. }
  unfold freshness_of, clip01. pose proof (exp_pos (- hours_of now t / 24)) as Hpos.
  split.
  - intros Hle. assert (Hh : hours_of now t <= 0).
    { unfold hours_of. assert (IZR (now - t) <= 0) by (apply IZR_le; lia).
      assert (0 <= - IZR (now - t) / 1000000000 / 3600); [|lra].
      apply Rmult_le_pos; [apply Rmult_le_pos; [lra|]|];
        left; apply Rinv_0_lt_compat; lra. }
    assert (1 <= exp (- hours_of now t / 24)).
    { rewrite <- exp_0. apply exp_le. lra. }
    destruct (Rlt_dec _ 0); [lra|]. destruct (Rlt_dec 1 _); lra.
  - intros Hlt. assert (Hh : 0 < hours_of now t).
    { unfold hours_of. assert (0 < IZR (now - t)) by (apply IZR_lt; lia).
      apply Rmult_lt_0_compat; [apply Rmult_lt_0_compat; [done|]|];
        apply Rinv_0_lt_compat; lra. }
    assert (exp (- hours_of now t / 24) < 1).
    { rewrite <- exp_0. apply exp_increasing. lra. }
    destruct (Rlt_dec _ 0); [lra|]. destruct (Rlt_dec 1 _); lra.
Qed.

Lemma freshness_score_clip_cases_witness :
  ∃ fs r, cols (calculate_freshness_score 3600000000000
                  (frame_of_posts example_posts)) !! "freshness_score"
            = Some (FloatCol fs)
          ∧ fs !! 0%nat = Some (Fin r) ∧ exp (- 365) <= r
          ∧ ((3600000000000 <= 0)%Z → r = 1)
          ∧ ((0 < 3600000000000)%Z →
             r = exp (- hours_of 3600000000000 0 / 24) ∧ r < 1).
Proof.
  apply (freshness_score_clip_cases 3600000000000 (timestamp <$> example_posts)).
  - discriminate.
  - apply (rc_timestamp _ _ (frame_of_posts_columns example_posts ltac:(discriminate))).
  - reflexivity.
  - by vm_compute.
Defined.

Lemma heat_raw_newer now p q :
  non_negative_counters p →
  likes_of p = likes_of q → replies_of p = replies_of q →
  reposts_of p = reposts_of q →
  length (content_of p) = length (content_of q) →
  (timestamp p <= timestamp q)%Z →
  heat_raw now p <= heat_raw now q.
Proof.
  intros (Hl & Hr & Hp) El Er Ep Ec Ht. unfold heat_raw.
  rewrite <- El, <- Er, <- Ep, <- Ec. apply IZR_le in Hl, Hr, Hp.
  pose proof (ln1p_nonneg (length (content_of p))).
  assert (exp (- (1 / 10) * (IZR (now - timestamp p) / 1000000000 / 3600) / 24)
          <= exp (- (1 / 10) * (IZR (now - timestamp q) / 1000000000 / 3600) / 24)).
  { apply exp_le.
    assert (IZR (now - timestamp q) <= IZR (now - timestamp p))
      by (apply IZR_le; lia). lra. }
  apply Rmult_le_compat_r; [lra|]. apply Rmult_le_compat_l; [lra|done].
Qed.

(** X6. The batch normalisation of [calculate_heat_density] keeps the
    order of the posts: a post with at most the raw heat of another gets at
    most its [heat_density]; in particular, of two posts with the same
    counters and the same text length the older one never ranks higher. *)
Theorem heat_density_keeps_order now posts df i j p q :
  raw_columns posts df → Forall non_negative_counters posts →
  posts !! i = Some p → posts !! j = Some q →
  ∃ hd x y, cols (calculate_heat_density now df) !! "heat_density"
              = Some (FloatCol (Fin <$> hd))
            ∧ hd !! i = Some x ∧ hd !! j = Some y
            ∧ (heat_raw now p <= heat_raw now q → x <= y)
            ∧ (likes_of p = likes_of q → replies_of p = replies_of q →
               reposts_of p = reposts_of q →
               length (content_of p) = length (content_of q) →
               (timestamp p <= timestamp q)%Z → x <= y).
Proof.
  intros Hcols Hpos Hi Hj.
  assert (Hne : posts ≠ []) by (intros E; by rewrite E in Hi).
  rewrite (heat_density_column now posts df Hcols Hne). cbn zeta.
  destruct (series_max_fin (heat_raw now <$> posts)) as (m & Hm & _ & _).
  { by destruct posts. }
  rewrite Hm. unfold fgtb. cbn [fltb].
  set (f := λ r : R, if Rlt_dec 0 m then r / m * 100 else r).
  assert (Hmono : ∀ a b, a <= b → f a <= f b).
  { intros a b Hab. unfold f. destruct (Rlt_dec 0 m) as [Hlt|]; [|done].
    apply Rmult_le_compat_r; [lra|]. apply Rmult_le_compat_r; [|done].
    left. by apply Rinv_0_lt_compat. }
  exists (f <$> (heat_raw now <$> posts)), (f (heat_raw now p)), (f (heat_raw now q)).
  split.
  { do 2 f_equal. unfold f. destruct (Rlt_dec 0 m) as [Hlt|]; [|
      rewrite <- !list_fmap_compose; by apply list_fmap_ext].
    rewrite <- !list_fmap_compose. apply list_fmap_ext. intros k r _. simpl.
    destruct (Req_dec_T m 0); [lra|done]. }
  split; [by rewrite !list_lookup_fmap, Hi|].
  split; [by rewrite !list_lookup_fmap, Hj|].
  split; [apply Hmono|].
  intros El Er Ep Ec Ht. apply Hmono, heat_raw_newer; try done.
  apply (proj1 (Forall_forall _ _) Hpos). by eapply list_elem_of_lookup_2.
Qed.

Lemma heat_density_keeps_order_witness :
  let p := mkRawPost (u "p2") (u "ann") (Some (u "second post")) 0 0
             (Some 0%Z) None (Some 0%Z) in
  let q := mkRawPost (u "p1") (u "ann") (Some (u "first post")) 0 0
             (Some 10%Z) (Some 0%Z) (Some 0%Z) in
  ∃ hd x y, cols (calculate_heat_density 3600000000000
                    (frame_of_posts example_posts)) !! "heat_density"
              = Some (FloatCol (Fin <$> hd))
            ∧ hd !! 1%nat = Some x ∧ hd !! 0%nat = Some y
            ∧ (heat_raw 3600000000000 p <= heat_raw 3600000000000 q → x <= y)
            ∧ (likes_of p = likes_of q → replies_of p = replies_of q →
               reposts_of p = reposts_of q →
               length (content_of p) = length (content_of q) →
               (timestamp p <= timestamp q)%Z → x <= y).
Proof.
  cbv zeta.
  apply (heat_density_keeps_order 3600000000000 example_posts _ 1%nat 0%nat).
  - by apply frame_of_posts_columns.
  - repeat constructor; by vm_compute.
  - reflexivity.
  - reflexivity.
Defined.

(** ** The metrics of a batch *)

Lemma run_getint_int {B} c l (k : list Z → stage B) df :
  cols df !! c = Some (IntCol l) → (getint c ≫= k) df = k l df.
Proof. intros H. unfold getint, getcol, mbind, stage_bind, bind. by rewrite H. Qed.

Lemma engagement_rate_exists (us : list str) (ti : list Z) df :
  nrows df ≠ 0%nat →
  cols df !! "username" = Some (StrCol us) →
  cols df !! "total_interactions" = Some (IntCol ti) →
  length us = length ti →
  ∃ e, cols (calculate_engagement_rate df) !! "engagement_rate" = Some (FloatCol e)
       ∧ length e = length ti.
Proof.
  intros Hn Hu Ht Hlen. unfold calculate_engagement_rate.
  rewrite (empty_false df "username" _) by done.
  unfold try_return. repeat step. unfold assign. cbn [snd].
  eexists. split; [look|].
  unfold map2, series_map.
  rewrite !length_fmap, length_zip_with, !length_fmap. lia.
Qed.

Lemma viral_potential_exists (rp ti : list Z) (h f : list float64) (ct : list str) df :
  nrows df ≠ 0%nat →
  cols df !! "reposts" = Some (IntCol rp) →
  cols df !! "total_interactions" = Some (IntCol ti) →
  cols df !! "hours_since_post" = Some (FloatCol h) →
  cols df !! "content" = Some (StrCol ct) →
  cols df !! "freshness_score" = Some (FloatCol f) →
  length rp = length ti → length h = length ti →
  length ct = length ti → length f = length ti →
  ∃ v, cols (calculate_viral_potential df) !! "viral_potential" = Some (FloatCol v)
       ∧ length v = length ti.
Proof.
  intros Hn Hr Ht Hh Hc Hf L1 L2 L3 L4. unfold calculate_viral_potential.
  rewrite (empty_false df "reposts" _) by done.
  unfold try_return. repeat step. cbv zeta.
  match goal with |- context [series_max ?X] =>
    assert (Hlen : length X = length ti) end.
  { unfold map2, map3.
    rewrite ?length_zip_with, ?length_fmap, ?length_zip_with, ?length_fmap. lia. }
  match goal with |- context [if ?b then _ else _] => destruct b end.
  - unfold assign. cbn [snd]. eexists. split; [look|]. by rewrite length_fmap.
  - unfold ret. cbn [snd]. eexists. split; [look|]. done.
Qed.

Lemma metrics_rows (ids : list str) (ti : list Z) (hd fs er vp : list float64) :
  length ti = length ids → length hd = length ids → length fs = length ids →
  length er = length ids → length vp = length ids →
  let rows :=
    zip_with (λ m x, m x)
      (zip_with (λ m x, m x)
        (zip_with (λ m x, m x)
          (zip_with (λ m x, m x)
            (zip_with PostMetrics.mk ids ti) hd) fs) er) vp in
  PostMetrics.post_id <$> rows = ids
  ∧ PostMetrics.total_interactions <$> rows = ti
  ∧ PostMetrics.heat_density <$> rows = hd
  ∧ PostMetrics.freshness_score <$> rows = fs
  ∧ PostMetrics.engagement_rate <$> rows = er
  ∧ PostMetrics.viral_potential <$> rows = vp.
Proof.
  revert ti hd fs er vp.
  induction ids as [|i ids IH]; intros [|t ti] [|a hd] [|b fs] [|c er] [|d vp];
    try done.
  intros L1 L2 L3 L4 L5. simpl in *.
  destruct (IH ti hd fs er vp) as (H1 & H2 & H3 & H4 & H5 & H6); try lia.
  cbv zeta in *. repeat split; f_equal; done.
Qed.

(** The calculators leave the columns that the loop over the rows reads. *)
Lemma post_metrics_of_batch t_heat t_fresh posts df :
  raw_columns posts df →
  cols df !! "post_id" = Some (StrCol (post_id <$> posts)) →
  posts ≠ [] →
  ∃ ms, post_metrics_of (calculate_metrics t_heat t_fresh df) = Some ms
        ∧ PostMetrics.post_id <$> ms = post_id <$> posts
        ∧ PostMetrics.total_interactions <$> ms = interactions_of <$> posts.
Proof.
  intros Hraw Hid Hne. unfold calculate_metrics.
  assert (Hn0 : length posts ≠ 0%nat) by (by destruct posts).
  (* heat *)
  set (df1 := calculate_heat_density t_heat df).
  assert (Hraw1 : raw_columns posts df1).
  { apply (raw_columns_kept posts df); [done|apply heat_density_rows|].
    intros c Hc. apply heat_density_frame. apply list_elem_of_In in Hc.
    rewrite list_elem_of_In. simpl in *. intuition (subst; discriminate). }
  assert (Hid1 : cols df1 !! "post_id" = Some (StrCol (post_id <$> posts)))
    by (unfold df1; by rewrite heat_density_frame by not_in_list).
  assert (Hhd1 : ∃ hd, cols df1 !! "heat_density" = Some (FloatCol hd)
                       ∧ length hd = length posts).
  { unfold df1. rewrite (heat_density_column t_heat posts df Hraw Hne). cbn zeta.
    destruct (fgtb _ _); eexists; (split; [done|]); by rewrite !length_fmap. }
  destruct Hhd1 as (hd & Hhd1 & Lhd). clearbody df1. clear Hraw Hid df.
  (* freshness *)
  set (df2 := calculate_freshness_score t_fresh df1).
  pose proof (freshness_score_fresh_columns t_fresh posts df1 Hraw1 Hne)
    as [Hraw2 Hh2 Hf2]. fold df2 in Hraw2, Hh2, Hf2.
  assert (Hid2 : cols df2 !! "post_id" = Some (StrCol (post_id <$> posts)))
    by (unfold df2; by rewrite freshness_score_frame by not_in_list).
  assert (Hhd2 : cols df2 !! "heat_density" = Some (FloatCol hd))
    by (unfold df2; by rewrite freshness_score_frame by not_in_list).
  clearbody df2. clear Hraw1 Hid1 Hhd1 df1.
  (* engagement *)
  set (df3 := calculate_engagement_rate df2).
  destruct (engagement_rate_exists (username <$> posts) (interactions_of <$> posts) df2)
    as (er & Her3 & Ler);
    [rewrite (rc_rows _ _ Hraw2); done|apply (rc_username _ _ Hraw2)
    |apply (rc_total _ _ Hraw2)|by rewrite !length_fmap|].
  fold df3 in Her3. rewrite length_fmap in Ler.
  assert (Hkeep3 : ∀ c, c ∉ engagement_fields → cols df3 !! c = cols df2 !! c)
    by (intros c Hc; by apply engagement_rate_frame).
  assert (Hn3 : nrows df3 = length posts)
    by (unfold df3; rewrite engagement_rate_rows; apply (rc_rows _ _ Hraw2)).
  pose proof (rc_reposts _ _ Hraw2) as Hrp. pose proof (rc_total _ _ Hraw2) as Hti.
  pose proof (rc_content _ _ Hraw2) as Hct.
  rewrite <- Hkeep3 in Hrp, Hti, Hct, Hh2, Hf2, Hid2, Hhd2 by not_in_list.
  clearbody df3. clear Hkeep3 Hraw2 df2.
  (* viral potential *)
  set (df4 := calculate_viral_potential df3).
  destruct (viral_potential_exists _ _ _ _ _ df3 ltac:(by rewrite Hn3)
              Hrp Hti Hh2 Hct Hf2) as (vp & Hvp4 & Lvp);
    try (by rewrite !length_fmap).
  fold df4 in Hvp4. rewrite length_fmap in Lvp.
  assert (Hkeep4 : ∀ c, c ∉ viral_fields → cols df4 !! c = cols df3 !! c)
    by (intros c Hc; by apply viral_potential_frame).
  assert (Hn4 : nrows df4 = length posts)
    by (unfold df4; by rewrite viral_potential_rows).
  rewrite <- Hkeep4 in Hti, Hf2, Hid2, Hhd2, Her3 by not_in_list.
  clearbody df4. clear Hkeep4 Hrp Hct Hh2 Hn3 df3.
  (* the loop over the rows *)
  unfold post_metrics_of. rewrite bool_decide_eq_false_2 by (by rewrite Hn4).
  unfold read.
  erewrite run_getstr by look. erewrite run_getint_int by look.
  repeat step. cbn [ret fst].
  eexists. split; [reflexivity|].
  destruct (metrics_rows (post_id <$> posts) (interactions_of <$> posts) hd
              (Fin <$> (freshness_of <$> (hours_of t_fresh <$> (timestamp <$> posts))))
              er vp) as (H1 & H2 & _);
    rewrite ?length_fmap; done.
Qed.

(** X7. For every non-empty batch of fetched posts, whatever its values and
    the two clock readings, the four calculators leave all the columns the
    loop over the rows reads: one [PostMetrics] is built per post, in the
    order of the posts, with the post's id and its interaction count. *)
Theorem metrics_cover_every_post t_heat t_fresh posts df :
  raw_columns posts df →
  cols df !! "post_id" = Some (StrCol (post_id <$> posts)) →
  posts ≠ [] →
  ∃ ms, post_metrics_of (calculate_metrics t_heat t_fresh df) = Some ms
        ∧ PostMetrics.post_id <$> ms = post_id <$> posts
        ∧ PostMetrics.total_interactions <$> ms = interactions_of <$> posts.
Proof.
  intros Hraw Hid Hne.
  destruct (post_metrics_of_batch t_heat t_fresh posts df Hraw Hid Hne)
    as (ms & Hms & Hids & Hti).
  exists ms. by rewrite Hms, Hids, Hti.
Qed.

Lemma metrics_cover_every_post_witness :
  ∃ ms, post_metrics_of
          (calculate_metrics 3600000000000 3600000001000 (frame_of_posts example_posts))
        = Some ms
        ∧ PostMetrics.post_id <$> ms = post_id <$> example_posts
        ∧ PostMetrics.total_interactions <$> ms = interactions_of <$> example_posts.
Proof.
  apply metrics_cover_every_post.
  - by apply frame_of_posts_columns.
  - reflexivity.
  - discriminate.
Defined.

(** ** The topics of a batch *)

Section Topics.
Context `{Environment}.

Lemma generate_topic_name_first k kws contents :
  ∃ label, _generate_topic_name (k :: kws) contents = label ++ k.
Proof.
  unfold _generate_topic_name.
  repeat match goal with
         | |- context [if any_in ?ks k then _ else _] => destruct (any_in ks k)
         end; eexists; reflexivity.
Qed.

Lemma topic_of_cluster_inv fdf fn labels centers id t :
  topic_of_cluster fdf fn labels centers id = Some (Some t) →
  topic_id t = (Z.of_nat id + 1)%Z
  ∧ post_count t
    = nrows (select_rows ((λ l, bool_decide (l = id)) <$> labels) fdf)
  ∧ (2 ≤ post_count t)%nat
  ∧ (1 ≤ length (topic_keywords t) ≤ 5)%nat
  ∧ ∃ k label, head (topic_keywords t) = Some k ∧ topic_name t = label ++ k.
Proof.
  unfold topic_of_cluster. cbn zeta.
  destruct (Nat.ltb_spec
    (nrows (select_rows ((λ l, bool_decide (l = id)) <$> labels) fdf)) 2)
    as [|Hge]; [done|].
  destruct (centers !! id) as [center|]; [|done]. cbn [mbind option_bind].
  destruct (mapM _ _) as [[|k kws]|]; [done| |done]. cbn [mbind option_bind].
  destruct (read (getstr "content") _) as [contents|]; [|done].
  cbn [mbind option_bind].
  destruct (read (getnum "total_interactions") _) as [ti|]; [|done].
  cbn [mbind option_bind].
  destruct (read (getnum "heat_density") _) as [hd|]; [|done].
  cbn [mbind option_bind]. intros [= <-].
  cbn [topic_id post_count topic_keywords topic_name].
  split; [reflexivity|]. split; [reflexivity|]. split; [exact Hge|].
  split; [cbn [take length]; rewrite length_take; lia|].
  destruct (generate_topic_name_first k kws contents) as [label Hlabel].
  exists k, label. split; [reflexivity|exact Hlabel].
Qed.

Lemma topics_of_clusters fdf fn labels centers ids rs :
  Forall2 (λ id r, topic_of_cluster fdf fn labels centers id = Some r) ids rs →
  ∃ ids', sublist ids' ids
    ∧ Forall2 (λ id t, topic_of_cluster fdf fn labels centers id = Some (Some t))
        ids' (omap (λ topic, topic) rs).
Proof.
  induction 1 as [|id [t|] ids rs Hid _ (ids' & Hsub & IH)].
  - exists []. by split; constructor.
  - exists (id :: ids'). split; [by constructor|]. by constructor.
  - exists ids'. split; [by constructor|done].
Qed.

(** The topics returned are those of some cluster numbers below
    [max_topics], taken in increasing order over a selection of the rows. *)
Lemma perform_topic_clustering_topics df g :
  ∃ fdf fn labels centers ids,
    sublist ids (seq 0 (Z.to_nat max_topics))
    ∧ (nrows fdf ≤ nrows df)%nat
    ∧ Forall2 (λ id t, topic_of_cluster fdf fn labels centers id = Some (Some t))
        ids (perform_topic_clustering df g).1.
Proof.
  assert (Hnone : ∃ fdf fn labels centers ids,
    sublist ids (seq 0 (Z.to_nat max_topics))
    ∧ (nrows fdf ≤ nrows df)%nat
    ∧ Forall2 (λ id t, topic_of_cluster fdf fn labels centers id = Some (Some t))
        ids []).
  { exists df, [], [], [], []. split; [apply sublist_nil_l|]. by split; [|constructor]. }
  unfold perform_topic_clustering.
  destruct (empty df || (nrows df <? 5)%nat); [done|].
  unfold clustering_body.
  destruct (read (getnum "total_interactions") df) as [ti|]; [|done].
  cbn zeta.
  set (fdf := select_rows _ df).
  assert (Hrows : (nrows fdf ≤ nrows df)%nat).
  { unfold fdf. cbn [select_rows nrows].
    etrans; [apply length_filter|]. rewrite length_take. lia. }
  destruct (nrows fdf <? 3)%nat; [done|].
  destruct (read (getstr "content") fdf) as [texts|]; [|done].
  destruct (TfidfVectorizer _ _ _ _ _) as [[fn matrix]|]; [|done].
  destruct (KMeans_fit_predict _ _ _ _ _) as [[[labels centers]|] g']; [|done].
  case_bool_decide; [|done].
  set (n_clusters := (max_topics `min` _)%Z).
  destruct (mapM _ _) as [rs|] eqn:Hrs; [|done].
  apply mapM_Some, topics_of_clusters in Hrs as (ids & Hsub & Htopics).
  exists fdf, fn, labels, centers, ids. split; [|done].
  etrans; [done|].
  replace (seq 0 (Z.to_nat n_clusters))
    with (take (Z.to_nat n_clusters) (seq 0 (Z.to_nat max_topics)));
    [apply sublist_take|].
  rewrite take_seq. f_equal. unfold n_clusters. lia.
Qed.

Lemma StronglySorted_sublist {A} (R : relation A) (l k : list A) :
  sublist l k → StronglySorted R k → StronglySorted R l.
Proof.
  induction 1 as [|x l k Hsub IH|x l k Hsub IH]; [done| |].
  - intros [Hk Hx]%StronglySorted_inv. constructor; [by apply IH|].
    apply Forall_forall. intros y Hy.
    by apply (proj1 (Forall_forall _ _) Hx), (elem_of_sublist l k).
  - intros [Hk _]%StronglySorted_inv. by apply IH.
Qed.

Lemma StronglySorted_seq j n : StronglySorted lt (seq j n).
Proof.
  revert j. induction n as [|n IH]; intros j; [constructor|].
  cbn [seq]. constructor; [apply IH|].
  apply Forall_forall. intros k Hk%elem_of_seq. lia.
Qed.

(** X8. Every topic that [perform_topic_clustering] returns, whatever the
    batch and whatever the libraries compute, has at least two posts,
    between one and five keywords, a name that ends with its first keyword
    and a [topic_id] between 1 and [max_topics]; and the topics come in
    strictly increasing order of [topic_id], so no two share a number. *)
Theorem topics_well_formed df g :
  Forall well_formed_topic (perform_topic_clustering df g).1
  ∧ StronglySorted Z.lt (topic_id <$> (perform_topic_clustering df g).1).
Proof.
  destruct (perform_topic_clustering_topics df g)
    as (fdf & fn & labels & centers & ids & Hsub & _ & Htopics).
  assert (Hids : StronglySorted lt ids)
    by (eapply StronglySorted_sublist, StronglySorted_seq; done).
  assert (Hbound : Forall (λ id, (id < Z.to_nat max_topics)%nat) ids).
  { apply Forall_forall. intros id Hid.
    apply (elem_of_sublist _ _ _ Hid), elem_of_seq in Hsub. lia. }
  clear Hsub.
  induction Htopics as [|id t ids topics Ht Htopics IH]; [by split; constructor|].
  apply StronglySorted_inv in Hids as [Hids Hid].
  apply Forall_cons in Hbound as [Hlt Hbound].
  destruct (IH Hids Hbound) as [IH1 IH2].
  apply topic_of_cluster_inv in Ht as (Htid & _ & Hpc & Hkw & Hname).
  split.
  - constructor; [|done]. unfold well_formed_topic. repeat split; try done; lia.
  - rewrite fmap_cons. constructor; [done|].
    rewrite Forall_fmap. clear -Hid Htid Htopics.
    induction Htopics as [|id' t' ids topics Ht' _ IH]; [constructor|].
    apply Forall_cons in Hid as [Hlt Hid]. constructor; [|by apply IH].
    apply topic_of_cluster_inv in Ht' as (Htid' & _). cbn. lia.
Qed.

Lemma label_counts_sum (labels : list nat) (ids : list nat) :
  NoDup ids →
  (sum_list ((λ id, length (filter (λ b, b = true)
                      ((λ l, bool_decide (l = id)) <$> labels))) <$> ids)
   ≤ length labels)%nat.
Proof.
  intros Hids. induction labels as [|l labels IH].
  - cbn. induction ids as [|id ids IHids]; [done|].
    cbn. apply NoDup_cons in Hids as [_ Hids]. by apply IHids.
  - etrans; [|apply (le_n_S _ _ IH)]. clear IH.
    induction Hids as [|id ids Hid Hids IH]; [cbn; lia|].
    rewrite !fmap_cons. cbn [sum_list sum_list_with].
    rewrite filter_cons. destruct (decide (l = id)) as [->|Hne].
    + rewrite bool_decide_eq_true_2 by done. rewrite decide_True by done.
      cbn [length].
      assert (Hsame : ∀ ids, id ∉ ids →
        sum_list ((λ id0, length (filter (λ b, b = true)
            ((λ l, bool_decide (l = id0)) <$> id :: labels))) <$> ids)
        = sum_list ((λ id0, length (filter (λ b, b = true)
            ((λ l, bool_decide (l = id0)) <$> labels))) <$> ids)).
      { clear. induction ids as [|i ids IH]; [done|].
        intros [Hi Hids]%not_elem_of_cons. rewrite !fmap_cons.
        cbn [sum_list sum_list_with]. rewrite IH by done.
        rewrite filter_cons, bool_decide_eq_false_2 by done.
        by rewrite decide_False by done. }
      rewrite Hsame by done. unfold Datatypes.id. lia.
    + rewrite bool_decide_eq_false_2 by done. rewrite decide_False by done.
      unfold Datatypes.id in *. lia.
Qed.

(** X9. The clusters share no post: the [post_count]s of the topics returned
    add up to at most the number of posts of the batch. *)
Theorem topics_share_no_post df g :
  (sum_list (post_count <$> (perform_topic_clustering df g).1) ≤ nrows df)%nat.
Proof.
  destruct (perform_topic_clustering_topics df g)
    as (fdf & fn & labels & centers & ids & Hsub & Hrows & Htopics).
  assert (Hids : NoDup ids) by apply (sublist_NoDup _ _ (NoDup_seq _ _) Hsub).
  etrans; [|done].
  transitivity (sum_list ((λ id, length (filter (λ b, b = true)
      ((λ l, bool_decide (l = id)) <$> take (nrows fdf) labels))) <$> ids)).
  - clear Hsub Hids. apply Nat.eq_le_incl.
    induction Htopics as [|id t ids topics Ht _ IH]; [done|].
    rewrite !fmap_cons. cbn [sum_list sum_list_with]. rewrite IH.
    apply topic_of_cluster_inv in Ht as (_ & -> & _).
    cbn [select_rows nrows]. by rewrite fmap_take.
  - etrans; [by apply label_counts_sum|]. rewrite length_take. lia.
Qed.

End Topics.

Lemma fleb_of_int (a b : Z) : fleb (of_int a) (of_int b) = bool_decide (a ≤ b)%Z.
Proof.
  case_bool_decide as Hab.
  - by apply fleb_fin, IZR_le.
  - destruct (fleb (of_int a) (of_int b)) eqn:E; [|done].
    by apply fleb_fin, le_IZR in E.
Qed.

Lemma select_rows_col mask df c v :
  cols df !! c = Some v →
  cols (select_rows mask df) !! c = Some (select_col mask v).
Proof. intros Hc. cbn [select_rows cols]. by rewrite lookup_fmap, Hc. Qed.

Lemma sqrt3_pos : 0 < / sqrt 3.
Proof. apply Rinv_0_lt_compat, sqrt_lt_R0. lra. Qed.

Lemma cluster_example :
  ∃ t, (@perform_topic_clustering cluster_env cluster_frame tt).1 = [t]
       ∧ topic_id t = 1%Z ∧ post_count t = 3%nat
       ∧ topic_keywords t = u <$> ["bb"; "aa bb"; "aa"]%string.
Proof.
  unfold perform_topic_clustering.
  rewrite (empty_false cluster_frame "content" (StrCol cluster_texts))
    by (done || by unfold cluster_frame; look).
  change (nrows cluster_frame <? 5)%nat with false. cbn [orb].
  unfold clustering_body.
  rewrite (read_getnum_int "total_interactions" [10; 20; 1; 30; 40]%Z)
    by (unfold cluster_frame; look).
  cbn zeta.
  assert (Hmask :
    (λ x, fleb (of_int (@min_interactions_threshold cluster_env)) x)
      <$> (of_int <$> [10; 20; 1; 30; 40]%Z)
    = [true; true; false; true; true])
    by (cbn [fmap list_fmap]; by rewrite !fleb_of_int).
  rewrite Hmask. clear Hmask.
  set (fdf := select_rows _ cluster_frame).
  change (nrows fdf) with 4%nat. cbn [Nat.ltb Nat.leb].
  rewrite (read_getstr "content" (u <$> ["aa bb"; "aa bb"; "aa bb"; "cc dd"]%string))
    by (unfold fdf; erewrite select_rows_col by (unfold cluster_frame; look);
        reflexivity).
  assert (Hdocs :
    (λ text, join (u " ") (@tokens cluster_env (@cluster_word cluster_env) text))
      <$> (u <$> ["aa bb"; "aa bb"; "aa bb"; "cc dd"]%string)
    = u <$> ["aa bb"; "aa bb"; "aa bb"; "cc dd"]%string) by (by vm_compute).
  rewrite Hdocs. clear Hdocs.
  change (@TfidfVectorizer cluster_env 200 2 (8 / 10) (1, 2)%nat
            (u <$> ["aa bb"; "aa bb"; "aa bb"; "cc dd"]%string))
    with (cluster_vectorizer 200 2 (8 / 10) (1, 2)%nat
            (u <$> ["aa bb"; "aa bb"; "aa bb"; "cc dd"]%string)).
  unfold cluster_vectorizer. rewrite bool_decide_eq_true_2 by done.
  change (@max_topics cluster_env `min` (2 `max` (Z.of_nat 4 `div` 10)))%Z
    with 2%Z.
  set (center := [/ sqrt 3; / sqrt 3; / sqrt 3]).
  change (@KMeans_fit_predict cluster_env (Some 42%Z) 2 10
            [center; center; center; [0; 0; 0]] ())
    with (Some ([0; 0; 0; 1]%nat, [center; [0; 0; 0]]), ()).
  cbn [length]. rewrite bool_decide_eq_true_2 by done.
  change (seq 0 (Z.to_nat 2)) with [0; 1]%nat.
  assert (H1 : @topic_of_cluster cluster_env fdf (u <$> ["aa"; "aa bb"; "bb"]%string)
                 [0; 0; 0; 1]%nat [center; [0; 0; 0]] 1 = Some None)
    by reflexivity.
  assert (H0 : ∃ t, @topic_of_cluster cluster_env fdf (u <$> ["aa"; "aa bb"; "bb"]%string)
                 [0; 0; 0; 1]%nat [center; [0; 0; 0]] 0 = Some (Some t)
               ∧ topic_id t = 1%Z ∧ post_count t = 3%nat
               ∧ topic_keywords t = u <$> ["bb"; "aa bb"; "aa"]%string).
  { unfold topic_of_cluster. cbn zeta.
    change ((λ l, bool_decide (l = 0%nat)) <$> [0; 0; 0; 1]%nat)
      with [true; true; true; false].
    set (cluster_posts := select_rows _ fdf).
    change (nrows cluster_posts) with 3%nat. cbn [Nat.ltb Nat.leb].
    change ([center; [0; 0; 0]] !! 0%nat) with (Some center).
    cbn [mbind option_bind].
    change (@argsort cluster_env center) with [0; 1; 2]%nat.
    change (reverse (drop (length [0; 1; 2]%nat - 10) [0; 1; 2]%nat))
      with [2; 1; 0]%nat.
    assert (Hkeep : List.filter
        (λ i, if Rlt_dec 0 (default 0 (center !! i)) then true else false)
        [2; 1; 0]%nat = [2; 1; 0]%nat).
    { cbn [List.filter]. change (default 0 (center !! 2%nat)) with (/ sqrt 3).
      change (default 0 (center !! 1%nat)) with (/ sqrt 3).
      change (default 0 (center !! 0%nat)) with (/ sqrt 3).
      destruct (Rlt_dec 0 (/ sqrt 3)) as [_|Hn]; [reflexivity|].
      destruct (Hn sqrt3_pos). }
    rewrite Hkeep. clear Hkeep.
    change (mapM (λ i, (u <$> ["aa"; "aa bb"; "bb"]%string) !! i) [2; 1; 0]%nat)
      with (Some (u <$> ["bb"; "aa bb"; "aa"]%string)).
    cbn [mbind option_bind fmap list_fmap].
    rewrite (read_getstr "content" (u <$> ["aa bb"; "aa bb"; "aa bb"]%string))
      by (unfold cluster_posts, fdf;
          erewrite select_rows_col
            by (erewrite select_rows_col by (unfold cluster_frame; look);
                reflexivity);
          reflexivity).
    cbn [mbind option_bind].
    rewrite (read_getnum_int "total_interactions" [10; 20; 30]%Z)
      by (unfold cluster_posts, fdf;
          erewrite select_rows_col
            by (erewrite select_rows_col by (unfold cluster_frame; look);
                reflexivity);
          reflexivity).
    cbn [mbind option_bind].
    rewrite (read_getnum_float "heat_density" (Fin <$> [1; 1 / 2; 1 / 4]))
      by (unfold cluster_posts, fdf;
          erewrite select_rows_col
            by (erewrite select_rows_col by (unfold cluster_frame; look);
                reflexivity);
          reflexivity).
    cbn [mbind option_bind].
    eexists. split; [reflexivity|]. by cbn [topic_id post_count topic_keywords]. }
  destruct H0 as (t & H0 & Ht).
  assert (Htopics : mapM (@topic_of_cluster cluster_env fdf
      (u <$> ["aa"; "aa bb"; "bb"]%string) [0; 0; 0; 1]%nat [center; [0; 0; 0]])
      [0; 1]%nat = Some [Some t; None])
    by (apply mapM_Some; repeat constructor; done).
  rewrite Htopics. by exists t.
Qed.

(** The example batch gives one topic: the theorem speaks of it. *)
Lemma topics_well_formed_witness :
  let topics := (@perform_topic_clustering cluster_env cluster_frame tt).1 in
  (∃ t, topics = [t])
  ∧ Forall (@well_formed_topic cluster_env) topics
  ∧ StronglySorted Z.lt (topic_id <$> topics).
Proof.
  split.
  - destruct cluster_example as (t & Ht & _). by exists t.
  - apply (@topics_well_formed cluster_env).
Defined.

Lemma topics_share_no_post_witness :
  let topics := (@perform_topic_clustering cluster_env cluster_frame tt).1 in
  (sum_list (post_count <$> topics) = 3)%nat
  ∧ (sum_list (post_count <$> topics) ≤ nrows cluster_frame)%nat.
Proof.
  split.
  - destruct cluster_example as (t & Ht & _ & Hpc & _).
    rewrite Ht. cbn [fmap list_fmap sum_list sum_list_with]. rewrite Hpc. reflexivity.
  - apply (@topics_share_no_post cluster_env).
Defined.

(** ** More on keyword extraction *)

Section MoreKeywords.
Context `{Environment}.

Lemma sort_desc_perm l : sort_desc l ≡ₚ l.
Proof.
  induction l as [|x l IH]; [done|].
  cbn [sort_desc foldr]. fold (sort_desc l). by rewrite insert_desc_perm, IH.
Qed.

Lemma sorted_app_elem {A} (R : relation A) (l1 l2 : list A) x1 x2 :
  StronglySorted R (l1 ++ l2) → x1 ∈ l1 → x2 ∈ l2 → R x1 x2.
Proof.
  induction l1 as [|a l1 IH]; intros Hs H1 H2; [by apply elem_of_nil in H1|].
  apply StronglySorted_inv in Hs as [Hs Ha].
  apply elem_of_cons in H1 as [->|H1]; [|by apply IH].
  apply (proj1 (Forall_forall _ _) Ha), elem_of_app. by right.
Qed.

(** X10. When the vectoriser succeeds, the keywords returned are the
    heaviest ones: together with the pairs left out they are exactly the
    feature names paired with their mean TF-IDF scores, no pair left out is
    heavier than a pair returned, and a pair is left out only when 50 are
    returned. *)
Theorem extract_keywords_keeps_heaviest texts max_features feature_names tfidf_matrix :
  TfidfVectorizer max_features keyword_min_freq (8 / 10) (1, 2)%nat
    (keyword_documents texts) = Some (feature_names, tfidf_matrix) →
  keyword_documents texts ≠ [] →
  ∃ dropped,
    extract_keywords texts max_features ++ dropped
      ≡ₚ zip feature_names (mean_axis0 (length feature_names) tfidf_matrix)
    ∧ (∀ p q, p ∈ extract_keywords texts max_features → q ∈ dropped → q.2 <= p.2)
    ∧ (dropped = [] ∨ length (extract_keywords texts max_features) = 50%nat).
Proof.
  intros Hv Hdocs. unfold extract_keywords.
  destruct texts as [|t texts]; [done|].
  destruct (keyword_documents (t :: texts)) as [|d docs] eqn:Hd; [done|].
  rewrite Hv. cbn zeta.
  set (scores := zip feature_names _).
  exists (drop 50 (sort_desc scores)). split; [|split].
  - by rewrite take_drop, sort_desc_perm.
  - intros p q Hp Hq.
    apply (sorted_app_elem weight_ge
             (take 50 (sort_desc scores)) (drop 50 (sort_desc scores))); [|done..].
    rewrite take_drop. apply sort_desc_sorted.
  - destruct (decide (length (sort_desc scores) ≤ 50)%nat) as [Hle|Hgt].
    + left. by apply drop_ge.
    + right. rewrite length_take. lia.
Qed.

Lemma keyword_documents_app l1 l2 :
  keyword_documents (l1 ++ l2) = keyword_documents l1 ++ keyword_documents l2.
Proof. unfold keyword_documents. apply omap_app. Qed.

(** X11. A post without text, with a blank text, or with a text of which
    no word passes the word filter has no influence on the keywords:
    removing it from the batch, wherever it stands, gives the same
    result. *)
Theorem extract_keywords_skips_empty_texts before text after max_features :
  no_keywords text →
  extract_keywords (before ++ text :: after) max_features
  = extract_keywords (before ++ after) max_features.
Proof.
  intros Hno.
  assert (Hd : keyword_documents (before ++ text :: after)
               = keyword_documents (before ++ after)).
  { rewrite !keyword_documents_app. f_equal.
    unfold keyword_documents. cbn [omap list_omap].
    destruct text as [s|]; [|done]. destruct Hno as [-> | Hno]; [done|].
    destruct (str_strip s); [done|]. by rewrite Hno. }
  unfold extract_keywords. rewrite Hd.
  destruct (before ++ text :: after) eqn:E1; [by destruct before|].
  by destruct (before ++ after).
Qed.

End MoreKeywords.

Lemma extract_keywords_keeps_heaviest_witness :
  ∃ dropped,
    extract_keywords (Some <$> tie_texts) 100 ++ dropped
      ≡ₚ zip [u "aa"; u "bb"]
           (mean_axis0 2 [ [/ sqrt 2; / sqrt 2]; [/ sqrt 2; / sqrt 2];
                           [/ sqrt 2; / sqrt 2]; [0; 0] ])
    ∧ (∀ p q, p ∈ extract_keywords (Some <$> tie_texts) 100 → q ∈ dropped →
              q.2 <= p.2)
    ∧ (dropped = [] ∨ length (extract_keywords (Some <$> tie_texts) 100) = 50%nat).
Proof.
  assert (Hd : keyword_documents (Some <$> tie_texts) = tie_texts)
    by (vm_compute; reflexivity).
  apply (extract_keywords_keeps_heaviest (Some <$> tie_texts) 100 [u "aa"; u "bb"]).
  - rewrite Hd. unfold TfidfVectorizer, example_env, tie_vectorizer.
    by rewrite bool_decide_eq_true_2.
  - by rewrite Hd.
Defined.

Lemma extract_keywords_skips_empty_texts_witness :
  no_keywords (Some (u "  "))
  ∧ extract_keywords ((Some <$> tie_texts) ++ Some (u "  ") :: [None]) 100
    = extract_keywords ((Some <$> tie_texts) ++ [None]) 100.
Proof.
  assert (Hno : no_keywords (Some (u "  "))) by (left; by vm_compute).
  split; [done|]. by apply extract_keywords_skips_empty_texts.
Defined.

(** ** Keyword trends *)

Section TrendFrames.
Context `{Environment}.

Lemma frames_keyword_trends_body : frames ["date"] keyword_trends_body.
Proof.
  unfold keyword_trends_body.
  apply frames_bind; [apply frames_gettime|]. intros ts.
  apply frames_bind; [apply frames_assign; in_list|]. intros _.
  apply frames_bind; [apply frames_getstr|]. intros content.
  by intros df.
Qed.

(** X12. [analyze_keyword_trends] changes the frame it is given in one
    place only: the column [date].  The number of rows and every other
    column stay as they are, whatever the frame holds and whether or not
    the analysis fails; an empty frame is not touched at all; and when the
    frame is not empty and [timestamp] is a column of times, [date] holds
    their days afterwards. *)
Theorem keyword_trends_writes_date_only df days :
  nrows (analyze_keyword_trends df days).2 = nrows df
  ∧ (∀ c, c ≠ "date" →
       cols (analyze_keyword_trends df days).2 !! c = cols df !! c)
  ∧ (empty df = true → (analyze_keyword_trends df days).2 = df)
  ∧ (∀ ts, empty df = false → cols df !! "timestamp" = Some (TimeCol ts) →
       cols (analyze_keyword_trends df days).2 !! "date"
       = Some (IntCol (date_of <$> ts))).
Proof.
  unfold analyze_keyword_trends.
  destruct (frames_keyword_trends_body df) as [Hrows Hcols].
  split; [|split; [|split]].
  - destruct (empty df); [done|].
    by destruct (keyword_trends_body df) as [[r|] df'].
  - intros c Hc. destruct (empty df); [done|].
    assert (c ∉ ["date"]) by (by intros ->%list_elem_of_singleton).
    destruct (keyword_trends_body df) as [[r|] df']; by apply Hcols.
  - by intros ->.
  - intros ts -> Hts. unfold keyword_trends_body.
    erewrite run_gettime by done. rewrite run_assign.
    set (df1 := set_col "date" _ df).
    assert (Hdate : cols df1 !! "date" = Some (IntCol (date_of <$> ts)))
      by (unfold df1; look).
    clearbody df1.
    unfold getstr, getcol, mbind, stage_bind, bind.
    destruct (cols df1 !! "content") as [[l|l|l|l]|]; try done.
    cbn [ret raise trends_of_keywords].
    by destruct (mapM _ _).
Qed.

End TrendFrames.

Lemma select_fmap_filter {A B} (P : A → bool) (g : A → B) (l : list A) :
  select (P <$> l) (g <$> l) = g <$> filter (λ x, P x = true) l.
Proof.
  induction l as [|x l IH]; [done|].
  rewrite !fmap_cons, filter_cons. cbn [select].
  destruct (P x); [rewrite decide_True by done|rewrite decide_False by done].
  - by rewrite fmap_cons, IH.
  - done.
Qed.

Lemma count_true_fmap {A} (P : A → bool) (l : list A) :
  length (filter (λ b, b = true) (P <$> l))
  = length (filter (λ x, P x = true) l).
Proof.
  induction l as [|x l IH]; [done|].
  rewrite fmap_cons, !filter_cons.
  destruct (P x); [rewrite !decide_True by done|rewrite !decide_False by done].
  - cbn [length]. by rewrite IH.
  - done.
Qed.

Lemma count_all_true {A} (g : A → bool) (l : list A) :
  (∀ x, g x = true) → length (filter (λ b, b = true) (g <$> l)) = length l.
Proof.
  intros Hg. induction l as [|x l IH]; [done|].
  rewrite fmap_cons, filter_cons, decide_True by apply Hg.
  cbn [length]. by rewrite IH.
Qed.

Lemma py_int_of_int z : py_int (Fin (IZR z)) = Some z.
Proof.
  unfold py_int. f_equal. destruct (Rle_dec 0 (IZR z)) as [Hle|Hlt].
  - symmetry. apply Int_part_spec. lra.
  - rewrite <- opp_IZR.
    assert (E : Int_part (IZR (- z)) = (- z)%Z)
      by (symmetry; apply Int_part_spec; lra).
    rewrite E. lia.
Qed.

Lemma read_getdays c l df :
  cols df !! c = Some (IntCol l) → read (getdays c) df = Some l.
Proof. intros Hc. unfold read, getdays, getcol, mbind, stage_bind, bind. by rewrite Hc. Qed.

Lemma read_getcol c v df : cols df !! c = Some v → read (getcol c) df = Some v.
Proof. done. Qed.

Lemma mapM_fmap_Some {A B} (f : A → option B) (g : A → B) (l : list A) :
  (∀ x, x ∈ l → f x = Some (g x)) → mapM f l = Some (g <$> l).
Proof.
  intros Hf. apply mapM_Some, Forall2_fmap_r, Forall_Forall2_diag, Forall_forall.
  exact Hf.
Qed.

Section TrendRecords.
Context `{Environment}.

Lemma select_on_day {B} (g : RawPost → B) (kp : list RawPost) d :
  select ((λ d', bool_decide (d' = d)) <$> ((λ p, date_of (timestamp p)) <$> kp))
         (g <$> kp)
  = g <$> posts_of_day d kp.
Proof.
  unfold posts_of_day. induction kp as [|p kp IH]; [done|].
  rewrite !fmap_cons, filter_cons. cbn [select].
  destruct (decide (date_of (timestamp p) = d)) as [Hd|Hd].
  - rewrite bool_decide_eq_true_2 by done. by rewrite fmap_cons, IH.
  - by rewrite bool_decide_eq_false_2 by done.
Qed.

Lemma trend_of_day_spec kw df kp d :
  trend_of_day kw df ((λ p, date_of (timestamp p)) <$> kp)
    (notna (StrCol (post_id <$> kp)))
    (of_int <$> (interactions_of <$> kp)) (content_of <$> kp) d
  = Some (trend_record df kw kp d).
Proof.
  unfold trend_of_day, trend_record. cbn zeta.
  rewrite <- (list_fmap_compose interactions_of of_int).
  unfold notna. rewrite <- (list_fmap_compose post_id).
  rewrite !select_on_day.
  rewrite (list_fmap_compose interactions_of of_int), series_sum_ints, py_int_of_int.
  cbn [mbind option_bind]. do 2 f_equal.
  by apply count_all_true.
Qed.

Lemma trends_of_keyword_spec posts df kw matches :
  dated_columns posts df →
  str_contains kw false = Some matches →
  trends_of_keyword df kw
  = Some (if (length (keyword_posts_of matches posts) <? keyword_min_freq)%nat
          then []
          else trend_record df kw (keyword_posts_of matches posts)
                 <$> (groupby_size ((λ p, date_of (timestamp p))
                                      <$> keyword_posts_of matches posts)).*1).
Proof.
  intros [Hraw Hid Hdate] Hm. unfold trends_of_keyword.
  rewrite (read_getstr "content" (content_of <$> posts))
    by apply (rc_content _ _ Hraw).
  cbn [mbind option_bind]. rewrite Hm. cbn [mbind option_bind].
  rewrite <- list_fmap_compose.
  set (mask := (matches ∘ content_of) <$> posts).
  assert (Hrows : nrows (select_rows mask df)
                  = length (keyword_posts_of matches posts)).
  { cbn [select_rows nrows]. rewrite take_ge
      by (unfold mask; rewrite length_fmap, (rc_rows _ _ Hraw); lia).
    unfold mask. apply count_true_fmap. }
  rewrite Hrows. destruct (_ <? _)%nat; [done|].
  rewrite (read_getdays "date"
             ((λ p, date_of (timestamp p)) <$> keyword_posts_of matches posts))
    by (erewrite select_rows_col by done; cbn [select_col];
        unfold mask; by rewrite select_fmap_filter).
  cbn [mbind option_bind].
  rewrite (read_getcol "post_id"
             (StrCol (post_id <$> keyword_posts_of matches posts)))
    by (erewrite select_rows_col by done; cbn [select_col];
        unfold mask; by rewrite select_fmap_filter).
  cbn [mbind option_bind].
  rewrite (read_getnum_int "total_interactions"
             (interactions_of <$> keyword_posts_of matches posts))
    by (erewrite select_rows_col by apply (rc_total _ _ Hraw); cbn [select_col];
        unfold mask; by rewrite select_fmap_filter).
  cbn [mbind option_bind].
  rewrite (read_getcol "timestamp"
             (TimeCol (timestamp <$> keyword_posts_of matches posts)))
    by (erewrite select_rows_col by apply (rc_timestamp _ _ Hraw);
        cbn [select_col]; unfold mask; by rewrite select_fmap_filter).
  cbn [mbind option_bind].
  rewrite (read_getstr "content" (content_of <$> keyword_posts_of matches posts))
    by (erewrite select_rows_col by apply (rc_content _ _ Hraw);
        cbn [select_col]; unfold mask; by rewrite select_fmap_filter).
  cbn [mbind option_bind].
  apply mapM_fmap_Some. intros d _. apply trend_of_day_spec.
Qed.

End TrendRecords.

Section TrendTheorems.
Context `{Environment}.

Lemma momentum_nonneg keyword current_date df days :
  (0 <= _calculate_keyword_momentum keyword current_date df days)%Q.
Proof.
  unfold _calculate_keyword_momentum.
  destruct (read _ df); [|apply Qle_refl].
  destruct (read _ df); [|apply Qle_refl].
  destruct (str_contains _ _); [|apply Qle_refl].
  cbv zeta. destruct (_ <? 2)%nat; [apply Qle_refl|].
  destruct (_ <? 2)%nat; [apply Qle_refl|].
  unfold pymax_Q. destruct (Qlt_le_dec 0 _) as [Hlt|_].
  - by apply Qlt_le_weak.
  - apply Qle_refl.
Qed.

Lemma trends_of_keyword_invalid posts df kw :
  dated_columns posts df → str_contains kw false = None →
  trends_of_keyword df kw = None.
Proof.
  intros [Hraw _ _] Hm. unfold trends_of_keyword.
  rewrite (read_getstr "content" (content_of <$> posts))
    by apply (rc_content _ _ Hraw).
  cbn [mbind option_bind]. by rewrite Hm.
Qed.

(** On a batch of fetched posts the analysis runs the loop over the
    keywords on the frame with the days. *)
Lemma analyze_keyword_trends_run posts df days :
  raw_columns posts df →
  cols df !! "post_id" = Some (StrCol (post_id <$> posts)) →
  posts ≠ [] →
  ∃ df1, dated_columns posts df1
    ∧ (analyze_keyword_trends df days).1
      = default [] (@List.concat _ <$>
                      mapM (trends_of_keyword df1) (top_keywords_of posts)).
Proof.
  intros Hraw Hid Hne.
  exists (set_col "date" (IntCol (date_of <$> (timestamp <$> posts))) df). split.
  - split.
    + apply (raw_columns_kept posts df); [done|done|].
      intros c Hc. cbn [set_col cols]. apply lookup_insert_ne.
      intros <-. revert Hc. not_in_list.
    + by look.
    + rewrite (list_fmap_compose timestamp date_of). by look.
  - unfold analyze_keyword_trends.
    rewrite (empty_false df "post_id" (StrCol (post_id <$> posts)));
      [|rewrite (rc_rows _ _ Hraw); by destruct posts|done].
    unfold keyword_trends_body.
    erewrite run_gettime by apply (rc_timestamp _ _ Hraw). rewrite run_assign.
    erewrite run_getstr
      by (cbn [set_col cols]; rewrite lookup_insert_ne by done;
          apply (rc_content _ _ Hraw)).
    cbn zeta. unfold trends_of_keywords, top_keywords_of.
    by destruct (mapM _ _).
Qed.

Lemma no_posts_no_trends df days :
  raw_columns [] df → (analyze_keyword_trends df days).1 = [].
Proof.
  intros Hraw. unfold analyze_keyword_trends, empty.
  by rewrite (rc_rows _ _ Hraw).
Qed.

(** X13. On a batch of fetched posts every record of
    [analyze_keyword_trends] is about one of the 20 heaviest keywords, a
    keyword that at least [keyword_min_freq] posts contain; its
    [post_count] is the number of posts of its day that contain the
    keyword, at least one; its [total_interactions] is the sum of their
    interactions and its sentiment is that of their texts; its momentum is
    not negative. *)
Theorem keyword_trends_count_posts posts df days :
  raw_columns posts df →
  cols df !! "post_id" = Some (StrCol (post_id <$> posts)) →
  Forall (λ r, KeywordTrend.keyword r ∈ top_keywords_of posts
               ∧ counts_posts posts r
               ∧ (0 <= KeywordTrend.momentum_score r)%Q)
    (analyze_keyword_trends df days).1.
Proof.
  intros Hraw Hid.
  destruct posts as [|p0 posts'] eqn:Eposts;
    [by rewrite no_posts_no_trends|]. rewrite <- Eposts in *.
  destruct (analyze_keyword_trends_run posts df days Hraw Hid)
    as (df1 & Hdated & ->); [by rewrite Eposts|]. clear Eposts.
  destruct (mapM _ _) as [blocks|] eqn:Hblocks; [|constructor].
  apply mapM_Some in Hblocks. cbn [fmap option_fmap option_map default].
  induction Hblocks as [|kw block kws blocks Hkw _ IH]; [constructor|].
  cbn [List.concat]. apply Forall_app. split.
  2:{ eapply Forall_impl; [exact IH|]. intros r (Hin & Hr). split; [|done].
      by apply elem_of_cons; right. }
  clear IH. destruct (str_contains kw false) as [matches|] eqn:Hm.
  2:{ by rewrite (trends_of_keyword_invalid posts) in Hkw. }
  rewrite (trends_of_keyword_spec posts df1 kw matches) in Hkw by done.
  injection Hkw as <-.
  destruct (Nat.ltb_spec (length (keyword_posts_of matches posts)) keyword_min_freq)
    as [|Hfreq]; [constructor|].
  apply Forall_fmap, Forall_forall. intros d Hd.
  rewrite groupby_size_keys in Hd.
  apply list_elem_of_fmap in Hd as (p & -> & Hp).
  split; [by apply elem_of_cons; left|]. split; [|apply momentum_nonneg].
  exists matches. split; [done|]. cbn zeta.
  cbn [trend_record KeywordTrend.date KeywordTrend.post_count
       KeywordTrend.total_interactions KeywordTrend.average_sentiment].
  repeat split; try done.
  assert (Hin : p ∈ posts_of_day (date_of (timestamp p))
                      (keyword_posts_of matches posts))
    by (by apply list_elem_of_filter).
  destruct (posts_of_day _ _); [by apply elem_of_nil in Hin|cbn; lia].
Qed.

(** X14. When every keyword is a pattern that compiles, the result holds,
    keyword after keyword in the order of their weights, exactly one
    record for each day on which a post contains the keyword, in ascending
    order of the days; a keyword that fewer than [keyword_min_freq] posts
    contain has no record. *)
Theorem keyword_trends_cover_days posts df days :
  raw_columns posts df →
  cols df !! "post_id" = Some (StrCol (post_id <$> posts)) →
  Forall (λ kw, is_Some (str_contains kw false)) (top_keywords_of posts) →
  ∃ blocks,
    (analyze_keyword_trends df days).1 = List.concat blocks
    ∧ Forall2 (keyword_block posts) (top_keywords_of posts) blocks.
Proof.
  intros Hraw Hid Hvalid.
  destruct posts as [|p0 posts'] eqn:Eposts.
  { exists []. rewrite no_posts_no_trends by done. split; [done|]. constructor. }
  rewrite <- Eposts in *.
  destruct (analyze_keyword_trends_run posts df days Hraw Hid)
    as (df1 & Hdated & ->); [by rewrite Eposts|]. clear Eposts.
  assert (Hblocks : ∃ blocks,
    mapM (trends_of_keyword df1) (top_keywords_of posts) = Some blocks
    ∧ Forall2 (keyword_block posts) (top_keywords_of posts) blocks).
  { induction Hvalid as [|kw kws [matches Hm] _ (blocks & Hblocks & IH)].
    { exists []. split; [done|constructor]. }
    eexists (_ :: blocks). split.
    - apply mapM_Some. constructor; [|by apply mapM_Some].
      by apply (trends_of_keyword_spec posts).
    - constructor; [|done]. exists matches. split; [done|].
      destruct (Nat.ltb_spec (length (keyword_posts_of matches posts))
                  keyword_min_freq) as [Hlt|Hfreq].
      + split; [constructor|]. split; [constructor|].
        intros d. cbn. split; [by intros ?%elem_of_nil|]. lia.
      + split; [by apply Forall_fmap, Forall_true|].
        rewrite <- list_fmap_compose.
        assert (Hdates : (KeywordTrend.date
                  ∘ trend_record df1 kw (keyword_posts_of matches posts))
                  <$> (groupby_size ((λ p, date_of (timestamp p))
                         <$> keyword_posts_of matches posts)).*1
                = (groupby_size ((λ p, date_of (timestamp p))
                         <$> keyword_posts_of matches posts)).*1)
          by (by rewrite <- (list_fmap_id (groupby_size _).*1) at 2).
        rewrite Hdates. split; [apply sorted_keys, groupby_size_sorted|].
        intros d. rewrite groupby_size_keys, list_elem_of_fmap.
        split; [intros (p & -> & Hp); eauto|intros (_ & p & Hp & <-); eauto]. }
  destruct Hblocks as (blocks & -> & Hblocks). by exists blocks.
Qed.

End TrendTheorems.

(** The example batch: [aa] and [bb] are the keywords, each in three posts,
    two of the first day and one of the second. *)
Lemma trend_keywords : top_keywords_of trend_posts = [u "aa"; u "bb"].
Proof.
  unfold top_keywords_of.
  change (content_of <$> trend_posts) with tie_texts.
  unfold extract_keywords.
  assert (Hd : keyword_documents (Some <$> tie_texts) = tie_texts)
    by (vm_compute; reflexivity).
  rewrite Hd. cbn [fmap list_fmap tie_texts].
  unfold TfidfVectorizer, example_env, tie_vectorizer.
  rewrite bool_decide_eq_true_2 by done.
  unfold mean_axis0.
  cbn [length replicate foldr zip_with fmap list_fmap].
  unfold sort_desc. cbn [foldr insert_desc snd].
  destruct (Rlt_dec _ _) as [Hlt|_]; [lra|].
  reflexivity.
Qed.

Lemma trend_example :
  (λ r, (KeywordTrend.keyword r, KeywordTrend.date r,
         KeywordTrend.post_count r, KeywordTrend.total_interactions r))
    <$> (analyze_keyword_trends (frame_of_posts trend_posts) 7).1
  = [ (u "aa", 0%Z, 2%nat, 11%Z); (u "aa", 1%Z, 1%nat, 7%Z);
      (u "bb", 0%Z, 2%nat, 11%Z); (u "bb", 1%Z, 1%nat, 7%Z) ].
Proof.
  destruct (analyze_keyword_trends_run trend_posts (frame_of_posts trend_posts) 7)
    as (df1 & Hdated & ->); [by apply frame_of_posts_columns|done..|].
  rewrite trend_keywords.
  assert (Hblocks : mapM (trends_of_keyword df1) [u "aa"; u "bb"]
    = Some [ trend_record df1 (u "aa") (keyword_posts_of (contains (u "aa")) trend_posts)
               <$> [0; 1]%Z;
             trend_record df1 (u "bb") (keyword_posts_of (contains (u "bb")) trend_posts)
               <$> [0; 1]%Z ]).
  { apply mapM_Some.
    constructor; [|constructor; [|constructor]].
    - by rewrite (trends_of_keyword_spec trend_posts df1 _ (contains (u "aa"))).
    - by rewrite (trends_of_keyword_spec trend_posts df1 _ (contains (u "bb"))). }
  rewrite Hblocks. by vm_compute.
Qed.

Lemma keyword_trends_count_posts_witness :
  length (analyze_keyword_trends (frame_of_posts trend_posts) 7).1 = 4%nat
  ∧ Forall (λ r, KeywordTrend.keyword r ∈ top_keywords_of trend_posts
                 ∧ counts_posts trend_posts r
                 ∧ (0 <= KeywordTrend.momentum_score r)%Q)
      (analyze_keyword_trends (frame_of_posts trend_posts) 7).1.
Proof.
  split.
  - rewrite <- (length_fmap (λ r, (KeywordTrend.keyword r, KeywordTrend.date r,
      KeywordTrend.post_count r, KeywordTrend.total_interactions r))).
    by rewrite trend_example.
  - apply keyword_trends_count_posts; [by apply frame_of_posts_columns|done].
Defined.

Lemma keyword_trends_cover_days_witness :
  ∃ blocks,
    (analyze_keyword_trends (frame_of_posts trend_posts) 7).1 = List.concat blocks
    ∧ Forall2 (keyword_block trend_posts) (top_keywords_of trend_posts) blocks.
Proof.
  apply keyword_trends_cover_days; [by apply frame_of_posts_columns|done|].
  apply Forall_forall. intros kw _. by eexists.
Defined.

(** ** Sentiment *)

Lemma sentiment_label_zero : sentiment_label (Fin 0) = neutral.
Proof.
  unfold sentiment_label, fgtb, fltb.
  destruct (Rlt_dec (1 / 10) 0); [lra|].
  destruct (Rlt_dec 0 (- (1 / 10))); [lra|done].
Qed.

Lemma np_mean_bounded (rs : list R) (lo hi : R) :
  rs ≠ [] → Forall (λ r, lo <= r <= hi) rs →
  ∃ m, np_mean (Fin <$> rs) = Fin m ∧ lo <= m <= hi.
Proof.
  intros Hne Hrs. pose proof (series_mean_fin rs Hne) as Hm.
  unfold series_mean in Hm. rewrite dropna_fin in Hm.
  exists (Rsum rs / INR (length rs)). split; [done|].
  assert (Hsum : lo * INR (length rs) <= Rsum rs <= hi * INR (length rs)).
  { clear Hne Hm. induction Hrs as [|r rs Hr _ IH].
    - unfold Rsum. simpl. lra.
    - change (Rsum (r :: rs)) with (r + Rsum rs).
      change (length (r :: rs)) with (S (length rs)). rewrite S_INR. lra. }
  assert (Hn : 0 < INR (length rs))
    by (apply lt_0_INR; destruct rs; [done|simpl; lia]).
  split; apply (Rmult_le_reg_r (INR (length rs))); try done;
    unfold Rdiv; rewrite Rmult_assoc, Rinv_l by lra; lra.
Qed.

Section SentimentTheorems.
Context `{Environment}.

(** X15. The two sentiment functions agree: the label that
    [_analyze_cluster_sentiment] gives to a list of texts is the label of
    the average that [_analyze_sentiment_for_posts] computes for it:
    positive above 0.1, negative below -0.1, neutral otherwise. *)
Theorem cluster_sentiment_is_label_of_average contents :
  _analyze_cluster_sentiment contents
  = sentiment_label (_analyze_sentiment_for_posts contents).
Proof.
  unfold _analyze_cluster_sentiment, _analyze_sentiment_for_posts.
  destruct sentiment_analyzer as [polarity|];
    [|by rewrite sentiment_label_zero].
  destruct contents as [|c contents]; [by rewrite sentiment_label_zero|].
  cbn zeta. destruct (polarity <$> _) as [|s scores];
    [by rewrite sentiment_label_zero|done].
Qed.

(** X16. When the analyser gives compound scores between -1 and 1, the
    average sentiment of any list of texts is a number between -1 and 1;
    it is 0 when no text is left after the blank ones are skipped. *)
Theorem average_sentiment_bounded contents :
  compound_scores →
  ∃ r, _analyze_sentiment_for_posts contents = Fin r ∧ -1 <= r <= 1.
Proof.
  intros Hscores. unfold _analyze_sentiment_for_posts.
  assert (Hzero : ∃ r, Fin 0 = Fin r ∧ -1 <= r <= 1) by (exists 0; split; [done|lra]).
  destruct sentiment_analyzer as [polarity|] eqn:Ha; [|done].
  destruct contents as [|c contents]; [done|]. cbn zeta.
  match goal with
  | |- context [polarity <$> ?l] => generalize l
  end.
  intros texts.
  assert (Hrs : ∃ rs, polarity <$> texts = Fin <$> rs
                      ∧ Forall (λ r, -1 <= r <= 1) rs).
  { induction texts as [|t texts (rs & Hrs & Hb)]; [by exists []|].
    destruct (Hscores polarity t) as (r & Hr & Hbound); [done|].
    exists (r :: rs). rewrite !fmap_cons, Hr, Hrs. split; [done|by constructor]. }
  destruct Hrs as (rs & -> & Hb).
  destruct rs as [|r rs]; [done|].
  rewrite fmap_cons, <- fmap_cons. by apply np_mean_bounded.
Qed.

End SentimentTheorems.

Lemma average_sentiment_bounded_witness :
  @_analyze_sentiment_for_posts sentiment_env [u "good day"; u "  "; u "bad luck"]
  = Fin ((1 / 2 + (- (3 / 4) + 0)) / 2)
  ∧ ∃ r, @_analyze_sentiment_for_posts sentiment_env
           [u "good day"; u "  "; u "bad luck"] = Fin r
         ∧ -1 <= r <= 1.
Proof.
  split.
  - unfold _analyze_sentiment_for_posts.
    change (@sentiment_analyzer sentiment_env) with (Some two_word_polarity).
    cbv beta iota zeta.
    assert (Hs : two_word_polarity <$> List.filter
        (λ c, negb (bool_decide (c = []))
              && negb (bool_decide (@str_strip sentiment_env c = [])))
        [u "good day"; u "  "; u "bad luck"]
      = Fin <$> [1 / 2; - (3 / 4)]) by (by vm_compute).
    rewrite Hs. rewrite fmap_cons, <- fmap_cons.
    pose proof (series_mean_fin [1 / 2; - (3 / 4)]) as Hm.
    unfold series_mean in Hm. rewrite dropna_fin in Hm. rewrite Hm by done.
    unfold Rsum. cbn [foldr length INR]. f_equal; lra.
  - apply (@average_sentiment_bounded sentiment_env).
    intros polarity text [= <-]. unfold two_word_polarity.
    destruct (contains _ _); [exists (1 / 2); split; [done|lra]|].
    destruct (contains _ _); [exists (- (3 / 4)); split; [done|lra]|].
    exists 0. split; [done|lra].
Defined.

(** ** Saving the results *)

Section SavingTheorems.
Context `{Service}.

Lemma save_one_counts req s e w :
  ∃ s' e' w', save_one req (s, e) w = ((s', e'), w')
    ∧ (s ≤ s')%nat ∧ (e ≤ e')%nat ∧ (s' + e' ≤ s + e + 1)%nat.
Proof.
  unfold save_one. destruct (utcnow w) as [t w1].
  destruct (execute (req t) w1) as [[[|]|] w2]; cbn [fst snd];
    eexists _, _, _; (split; [reflexivity|lia]).
Qed.

Lemma save_all_counts {A} (req : A → Z → request) items s e w :
  ∃ s' e' w', save_all req items (s, e) w = ((s', e'), w')
    ∧ (s ≤ s')%nat ∧ (e ≤ e')%nat ∧ (s' + e' ≤ s + e + length items)%nat.
Proof.
  revert s e w. induction items as [|x items IH]; intros s e w.
  - exists s, e, w. cbn. split; [done|lia].
  - cbn [save_all length].
    destruct (save_one_counts (req x) s e w) as (s1 & e1 & w1 & -> & ? & ? & ?).
    destruct (IH s1 e1 w1) as (s2 & e2 & w2 & -> & ? & ? & ?).
    exists s2, e2, w2. split; [done|lia].
Qed.

(** X17. Whatever the database answers, the counters that
    [save_processed_data] returns add up: each table has at most as many
    rows counted as saved as there were records for it, and the rows saved
    and the errors together are at most the number of records. *)
Theorem save_results_bounded post_metrics topic_summaries keyword_trends w :
  let results :=
    (save_processed_data post_metrics topic_summaries keyword_trends w).1 in
  (post_metrics_saved results ≤ length post_metrics)%nat
  ∧ (topics_saved results ≤ length topic_summaries)%nat
  ∧ (trends_saved results ≤ length keyword_trends)%nat
  ∧ (post_metrics_saved results + topics_saved results + trends_saved results
     + errors results
     ≤ length post_metrics + length topic_summaries + length keyword_trends)%nat.
Proof.
  unfold save_processed_data.
  destruct (save_all_counts metric_request post_metrics 0 0 w)
    as (m & e1 & w1 & -> & ? & ? & ?).
  destruct (save_all_counts topic_request topic_summaries 0 e1 w1)
    as (t & e2 & w2 & -> & ? & ? & ?).
  destruct (save_all_counts trend_request keyword_trends 0 e2 w2)
    as (k & e3 & w3 & -> & ? & ? & ?).
  cbn. lia.
Qed.

Lemma save_all_stored {A} (req : A → Z → request) items s e w :
  (∀ r w', (execute r w').1 = Some true) →
  ∃ w', save_all req items (s, e) w = ((s + length items, e)%nat, w').
Proof.
  intros Hok. revert s w. induction items as [|x items IH]; intros s w.
  - exists w. cbn. by rewrite Nat.add_0_r.
  - cbn [save_all length]. unfold save_one.
    destruct (utcnow w) as [t w1]. pose proof (Hok (req x t) w1) as Hx.
    destruct (execute (req x t) w1) as [r w2]. cbn in Hx. subst r. cbn [fst snd].
    destruct (IH (S s) w2) as [w' ->]. exists w'. do 2 f_equal. lia.
Qed.

(** X19. When the database answers every request with data, every record
    is counted as saved and there is no error. *)
Theorem save_counts_every_record post_metrics topic_summaries keyword_trends w :
  (∀ r w', (execute r w').1 = Some true) →
  (save_processed_data post_metrics topic_summaries keyword_trends w).1
  = mkSaveResults (length post_metrics) (length topic_summaries)
      (length keyword_trends) 0.
Proof.
  intros Hok. unfold save_processed_data.
  destruct (save_all_stored metric_request post_metrics 0 0 w Hok) as [w1 ->].
  destruct (save_all_stored topic_request topic_summaries 0 0 w1 Hok) as [w2 ->].
  by destruct (save_all_stored trend_request keyword_trends 0 0 w2 Hok) as [w3 ->].
Qed.

End SavingTheorems.

Lemma save_all_logged (S : Service) {A} (req : A → Z → request) items c log w :
  (∀ x t, sent (req x t) = sent (req x 0%Z)) →
  ∃ log',
    @save_all (logged S) A req items c (log, w)
    = ((@save_all S A req items c w).1, (log', (@save_all S A req items c w).2))
    ∧ sent <$> log' = (sent <$> log) ++ ((λ x, sent (req x 0%Z)) <$> items).
Proof.
  intros Hreq. revert c log w. induction items as [|x items IH]; intros c log w.
  - exists log. cbn. by rewrite app_nil_r.
  - cbn [save_all]. unfold save_one.
    cbn [utcnow execute logged fst snd].
    destruct (@utcnow S w) as [t w1]. cbn [fst snd].
    destruct (@execute S (req x t) w1) as [[[|]|] w2]; cbn [fst snd];
      match goal with
      | |- context [@save_all (logged S) A req items ?c' (?l, w2)] =>
        destruct (IH c' l w2) as (log' & -> & Hlog)
      end;
      exists log'; (split; [done|]);
      by rewrite Hlog, fmap_app, fmap_cons, <- app_assoc, Hreq.
Qed.

(** X18. One request is sent for every record, whatever the answers to the
    earlier ones: the metrics first, then the topics, then the trends, each
    in the order of its list, as an upsert on [post_id], an insert (without
    the [topic_id]) and an upsert on [keyword,date].  Keeping the list of
    requests changes neither the counters nor the database. *)
Theorem save_sends_every_row (S : Service)
    post_metrics topic_summaries keyword_trends log w :
  let run := @save_processed_data (logged S)
               post_metrics topic_summaries keyword_trends (log, w) in
  sent <$> run.2.1
  = (sent <$> log) ++ rows_of post_metrics topic_summaries keyword_trends
  ∧ run.1 = (@save_processed_data S post_metrics topic_summaries keyword_trends w).1
  ∧ run.2.2
    = (@save_processed_data S post_metrics topic_summaries keyword_trends w).2.
Proof.
  cbv zeta. unfold save_processed_data, rows_of.
  destruct (save_all_logged S metric_request post_metrics (0, 0)%nat log w)
    as (log1 & -> & Hlog1); [done|].
  destruct (@save_all S _ metric_request post_metrics (0, 0)%nat w)
    as [[m e1] w1]. cbn [fst snd].
  destruct (save_all_logged S topic_request topic_summaries (0%nat, e1) log1 w1)
    as (log2 & -> & Hlog2); [done|].
  destruct (@save_all S _ topic_request topic_summaries (0%nat, e1) w1)
    as [[t e2] w2]. cbn [fst snd].
  destruct (save_all_logged S trend_request keyword_trends (0%nat, e2) log2 w2)
    as (log3 & -> & Hlog3); [done|].
  destruct (@save_all S _ trend_request keyword_trends (0%nat, e2) w2)
    as [[k e3] w3]. cbn [fst snd].
  split; [|done]. by rewrite Hlog3, Hlog2, Hlog1, <- !app_assoc.
Qed.

Lemma save_counts_every_record_witness :
  (@save_processed_data storing_service
     [example_metric; example_metric] [example_topic] [example_trend] 0%Z).1
  = mkSaveResults 2 1 1 0.
Proof.
  apply (@save_counts_every_record storing_service
           [example_metric; example_metric] [example_topic] [example_trend] 0%Z).
  done.
Defined.

(** With every second request failing, the others are still sent and
    saved. *)
Lemma save_sends_every_row_witness :
  let run := @save_processed_data (logged flaky_service)
               [example_metric; example_metric] [example_topic] [example_trend]
               ([], 0%Z) in
  run.1 = mkSaveResults 1 1 0 2
  ∧ sent <$> run.2.1
    = rows_of [example_metric; example_metric] [example_topic] [example_trend].
Proof.
  cbv zeta. split; [by vm_compute|].
  apply (save_sends_every_row flaky_service
           [example_metric; example_metric] [example_topic] [example_trend] [] 0%Z).
Defined.

(** ** The whole run *)

Lemma size_list_to_set_le (l k : list str) :
  (∀ x, x ∈ l → x ∈ k) → (size (list_to_set l : gset str) ≤ length k)%nat.
Proof.
  intros Hsub.
  transitivity (size (list_to_set k : gset str)).
  - apply subseteq_size. intros x. rewrite !elem_of_list_to_set. apply Hsub.
  - clear. induction k as [|x k IH]; [done|].
    cbn [list_to_set foldr length].
    rewrite size_union_alt, size_singleton.
    assert (size (list_to_set k ∖ {[x]} : gset str)
            ≤ size (list_to_set k : gset str))%nat
      by (apply subseteq_size; intros y [Hy _]%elem_of_difference; exact Hy).
    lia.
Qed.

Section AnalysisTheorems.
Context `{Environment} `{Service}.

Lemma trend_of_day_keyword kw df dates ids ti contents d r :
  trend_of_day kw df dates ids ti contents d = Some r →
  KeywordTrend.keyword r = kw.
Proof.
  unfold trend_of_day. cbn zeta. destruct (py_int _); [|done].
  by intros [= <-].
Qed.

Lemma trends_of_keyword_keyword df kw block :
  trends_of_keyword df kw = Some block →
  Forall (λ r, KeywordTrend.keyword r = kw) block.
Proof.
  unfold trends_of_keyword.
  destruct (read (getstr "content") df) as [content|]; [|done].
  cbn [mbind option_bind].
  destruct (str_contains kw false) as [matches|]; [|done].
  cbn [mbind option_bind].
  destruct (_ <? _)%nat; [by intros [= <-]|].
  destruct (read (getdays "date") _) as [dates|]; [|done].
  cbn [mbind option_bind].
  destruct (read (getcol "post_id") _) as [ids|]; [|done].
  cbn [mbind option_bind].
  destruct (read (getnum "total_interactions") _) as [ti|]; [|done].
  cbn [mbind option_bind].
  destruct (read (getcol "timestamp") _) as [ts|]; [|done].
  cbn [mbind option_bind].
  destruct (read (getstr "content") _) as [contents|]; [|done].
  cbn [mbind option_bind].
  intros Hblock%mapM_Some.
  induction Hblock as [|d r ds block Hr _ IH]; constructor; [|done].
  by apply trend_of_day_keyword in Hr.
Qed.

(** The keywords of the records are among at most 20 keywords, whatever
    the frame. *)
Lemma keyword_trends_keywords df days :
  ∃ kws, (length kws ≤ 20)%nat
    ∧ ∀ kw, kw ∈ KeywordTrend.keyword <$> (analyze_keyword_trends df days).1 →
            kw ∈ kws.
Proof.
  assert (Hnone : ∃ kws : list str, (length kws ≤ 20)%nat
            ∧ ∀ kw, kw ∈ KeywordTrend.keyword <$> [] → kw ∈ kws)
    by (exists []; split; [cbn; lia|by intros kw ?%elem_of_nil]).
  unfold analyze_keyword_trends. destruct (empty df); [done|].
  unfold keyword_trends_body, gettime, getstr, getcol, assign,
    mbind, stage_bind, bind.
  destruct (cols df !! "timestamp") as [[l|l|l|ts]|]; try done.
  cbn [ret].
  destruct (cols (set_col "date" _ df) !! "content") as [[l|l|content|l]|];
    try done.
  cbn [ret trends_of_keywords]. cbv zeta.
  set (top := (take 20 _).*1).
  destruct (mapM _ top) as [blocks|] eqn:Hblocks; [|done].
  cbn [fmap option_fmap option_map fst].
  exists top. split; [unfold top; rewrite length_fmap, length_take; lia|].
  apply mapM_Some in Hblocks. clearbody top.
  induction Hblocks as [|kw block kws blocks Hkw _ IH];
    [by intros kw ?%elem_of_nil|].
  intros k. cbn [List.concat]. rewrite fmap_app, elem_of_app.
  intros [Hk|Hk]; [|by apply elem_of_cons; right; apply IH].
  apply list_elem_of_fmap in Hk as (r & -> & Hr).
  apply trends_of_keyword_keyword in Hkw.
  rewrite (proj1 (Forall_forall _ _) Hkw r Hr). by apply elem_of_cons; left.
Qed.

Lemma topics_at_most_max_topics df g :
  (length (perform_topic_clustering df g).1 ≤ Z.to_nat max_topics)%nat.
Proof.
  destruct (perform_topic_clustering_topics df g)
    as (fdf & fn & labels & centers & ids & Hsub & _ & Htopics).
  rewrite <- (Forall2_length _ _ _ Htopics).
  apply sublist_length in Hsub. by rewrite length_seq in Hsub.
Qed.

(** X20. The summary of a run on the frame that [fetch_raw_posts]
    returns.  For an empty frame (no rows found, or a failed fetch) all
    counts are 0, nothing is saved and the database is not called.  For
    every frame at most [max_topics] topics and at most 20 keywords are
    reported.  For a frame that holds a non-empty batch of fetched posts
    every post is processed and gets its metrics, no error is recorded and
    the results are saved. *)
Theorem full_analysis_summary df t_heat t_fresh days_back g w :
  let run := run_full_analysis df t_heat t_fresh days_back g w in
  (empty df = true → run = (mkSummary 0 0 0 0 None 0, w))
  ∧ (topics_identified run.1 ≤ Z.to_nat max_topics)%nat
  ∧ (keywords_analyzed run.1 ≤ 20)%nat
  ∧ ∀ posts,
      raw_columns posts df →
      cols df !! "post_id" = Some (StrCol (post_id <$> posts)) →
      posts ≠ [] →
      posts_processed run.1 = length posts
      ∧ metrics_calculated run.1 = length posts
      ∧ analysis_errors run.1 = 0%nat
      ∧ is_Some (save_results run.1).
Proof.
  cbv zeta. unfold run_full_analysis.
  split; [by intros ->|].
  pose proof (topics_at_most_max_topics (calculate_metrics t_heat t_fresh df) g)
    as Htopics.
  destruct (keyword_trends_keywords (calculate_metrics t_heat t_fresh df)
              days_back) as (kws & Hkws & Hin).
  pose proof (size_list_to_set_le _ kws Hin) as Hsize.
  split; [|split].
  - destruct (empty df); [apply Nat.le_0_l|].
    destruct (post_metrics_of _) as [ms|]; [|apply Nat.le_0_l].
    destruct (perform_topic_clustering _ g) as [topics g'].
    destruct (analyze_keyword_trends _ days_back) as [trends df'].
    by destruct (save_processed_data ms topics trends w) as [results w'].
  - destruct (empty df); [apply Nat.le_0_l|].
    destruct (post_metrics_of _) as [ms|]; [|apply Nat.le_0_l].
    destruct (perform_topic_clustering _ g) as [topics g'].
    destruct (analyze_keyword_trends _ days_back) as [trends df'].
    destruct (save_processed_data ms topics trends w) as [results w'].
    cbn [fst snd keywords_analyzed] in *. lia.
  - intros posts Hraw Hid Hne.
    rewrite (empty_false df "post_id" (StrCol (post_id <$> posts)));
      [|rewrite (rc_rows _ _ Hraw); by destruct posts|done].
    destruct (post_metrics_of_batch t_heat t_fresh posts df Hraw Hid Hne)
      as (ms & -> & Hids & _).
    assert (Hlen : length ms = length posts)
      by (by rewrite <- (length_fmap PostMetrics.post_id), Hids, length_fmap).
    destruct (perform_topic_clustering _ g) as [topics g'].
    destruct (analyze_keyword_trends _ days_back) as [trends df'].
    destruct (save_processed_data ms topics trends w) as [results w'].
    cbn [fst snd posts_processed metrics_calculated analysis_errors
         save_results].
    split; [apply (rc_rows _ _ Hraw)|]. split; [done|]. split; [done|].
    by eexists.
Qed.

End AnalysisTheorems.

Lemma full_analysis_summary_witness :
  let run := @run_full_analysis example_env storing_service
               (frame_of_posts example_posts)
               3600000000000 3600000001000 7 tt 0%Z in
  (topics_identified run.1 ≤ Z.to_nat (@max_topics example_env))%nat
  ∧ (keywords_analyzed run.1 ≤ 20)%nat
  ∧ posts_processed run.1 = 3%nat
  ∧ metrics_calculated run.1 = 3%nat
  ∧ analysis_errors run.1 = 0%nat
  ∧ is_Some (save_results run.1).
Proof.
  destruct (@full_analysis_summary example_env storing_service
              (frame_of_posts example_posts) 3600000000000 3600000001000 7 tt 0%Z)
    as (_ & Htopics & Hkeywords & Hposts).
  split; [exact Htopics|]. split; [exact Hkeywords|].
  apply (Hposts example_posts).
  - by apply frame_of_posts_columns.
  - reflexivity.
  - discriminate.
Defined.

(** ** The columns that the topic clusterer reads *)

Section SameOn.
Context (F : list string).

Lemma same_on_select mask df1 df2 :
  same_on F df1 df2 → same_on F (select_rows mask df1) (select_rows mask df2).
Proof.
  intros [Hn Hc]. split.
  - cbn [select_rows nrows]. by rewrite Hn.
  - intros c Hin. cbn [select_rows cols]. by rewrite !lookup_fmap, Hc.
Qed.

Lemma same_on_getnum c df1 df2 :
  same_on F df1 df2 → c ∈ F → read (getnum c) df1 = read (getnum c) df2.
Proof.
  intros [_ Hc] Hin.
  unfold read, getnum, getcol, mbind, stage_bind, bind. cbn. rewrite (Hc c Hin).
  by destruct (cols df2 !! c) as [[l|l|l|l]|].
Qed.

Lemma same_on_getstr c df1 df2 :
  same_on F df1 df2 → c ∈ F → read (getstr c) df1 = read (getstr c) df2.
Proof.
  intros [_ Hc] Hin.
  unfold read, getstr, getcol, mbind, stage_bind, bind. cbn. rewrite (Hc c Hin).
  by destruct (cols df2 !! c) as [[l|l|l|l]|].
Qed.

Lemma same_on_gettime c df1 df2 :
  same_on F df1 df2 → c ∈ F → read (gettime c) df1 = read (gettime c) df2.
Proof.
  intros [_ Hc] Hin.
  unfold read, gettime, getcol, mbind, stage_bind, bind. cbn. rewrite (Hc c Hin).
  by destruct (cols df2 !! c) as [[l|l|l|l]|].
Qed.

Lemma same_on_sort_values c df1 df2 :
  same_on F df1 df2 → c ∈ F →
  match sort_values c df1, sort_values c df2 with
  | Some s1, Some s2 => same_on F s1 s2
  | None, None => True
  | _, _ => False
  end.
Proof.
  intros [Hn Hc] Hin. unfold sort_values. rewrite (Hc c Hin).
  destruct (cols df2 !! c) as [[keys|l|l|keys]|]; try done;
    (split; [done|]); intros c' Hin'; cbn [cols];
    by rewrite !lookup_fmap, (Hc c' Hin').
Qed.

End SameOn.

Lemma trending_score_same_on df1 df2 :
  same_on cluster_fields df1 df2 →
  _calculate_trending_score df1 = _calculate_trending_score df2.
Proof.
  intros Hsame. unfold _calculate_trending_score.
  pose proof (same_on_sort_values cluster_fields "timestamp" df1 df2 Hsame
                ltac:(in_list)) as Hsort.
  destruct (sort_values "timestamp" df1) as [s1|],
           (sort_values "timestamp" df2) as [s2|]; try done.
  cbn [mbind option_bind]. rewrite (proj1 Hsort).
  rewrite (same_on_gettime cluster_fields "timestamp" s1 s2) by (done || in_list).
  rewrite (same_on_getnum cluster_fields "total_interactions" s1 s2)
    by (done || in_list).
  by rewrite (same_on_getnum cluster_fields "freshness_score" s1 s2)
    by (done || in_list).
Qed.

Section ClusterReads.
Context `{Environment}.

Lemma topic_of_cluster_same_on df1 df2 fn labels centers id :
  same_on cluster_fields df1 df2 →
  topic_of_cluster df1 fn labels centers id
  = topic_of_cluster df2 fn labels centers id.
Proof.
  intros Hsame. unfold topic_of_cluster. cbn zeta.
  pose proof (same_on_select cluster_fields
                ((λ l, bool_decide (l = id)) <$> labels) df1 df2 Hsame) as Hsel.
  rewrite (proj1 Hsel).
  rewrite (same_on_getstr cluster_fields "content" _ _ Hsel) by in_list.
  rewrite (same_on_getnum cluster_fields "total_interactions" _ _ Hsel) by in_list.
  rewrite (same_on_getnum cluster_fields "heat_density" _ _ Hsel) by in_list.
  by rewrite (trending_score_same_on _ _ Hsel).
Qed.

(** X21. [perform_topic_clustering] reads the number of rows and five
    columns only: two frames of the same length that agree on
    [total_interactions], [content], [heat_density], [timestamp] and
    [freshness_score] give the same topics, whatever their other columns
    hold. *)
Theorem clustering_reads_five_columns df1 df2 g :
  same_on cluster_fields df1 df2 →
  perform_topic_clustering df1 g = perform_topic_clustering df2 g.
Proof.
  intros Hsame.
  assert (Hbody : clustering_body df1 g = clustering_body df2 g).
  { unfold clustering_body.
    rewrite (same_on_getnum cluster_fields "total_interactions" df1 df2)
      by (done || in_list).
    destruct (read (getnum "total_interactions") df2) as [ti|]; [|done].
    cbn zeta.
    pose proof (same_on_select cluster_fields
      ((λ x, fleb (of_int min_interactions_threshold) x) <$> ti) df1 df2 Hsame)
      as Hsel.
    rewrite (proj1 Hsel).
    rewrite (same_on_getstr cluster_fields "content" _ _ Hsel) by in_list.
    destruct (_ <? 3)%nat; [done|].
    destruct (read (getstr "content") _) as [texts|]; [|done].
    destruct (TfidfVectorizer _ _ _ _ _) as [[fn matrix]|]; [|done].
    destruct (KMeans_fit_predict _ _ _ _ _) as [[[labels centers]|] g']; [|done].
    destruct (bool_decide _); [|done]. do 2 f_equal.
    apply mapM_ext. intros id. by apply topic_of_cluster_same_on. }
  unfold perform_topic_clustering. rewrite (proj1 Hsame).
  destruct (nrows df2 <? 5)%nat eqn:Hsmall; [by rewrite !orb_true_r|].
  rewrite !orb_false_r.
  destruct (empty df1) eqn:E1, (empty df2) eqn:E2; [done| | |by rewrite Hbody].
  - (* the first frame has no column at all *)
    unfold clustering_body.
    rewrite <- (same_on_getnum cluster_fields "total_interactions" df1 df2)
      by (done || in_list).
    unfold empty in E1. apply orb_true_iff in E1 as [E1|E1].
    + apply bool_decide_eq_true in E1. apply Nat.ltb_ge in Hsmall.
      rewrite <- (proj1 Hsame) in Hsmall. lia.
    + apply bool_decide_eq_true in E1.
      unfold read, getnum, getcol, mbind, stage_bind, bind. cbn. by rewrite E1.
  - unfold clustering_body.
    rewrite (same_on_getnum cluster_fields "total_interactions" df1 df2)
      by (done || in_list).
    unfold empty in E2. apply orb_true_iff in E2 as [E2|E2].
    + apply bool_decide_eq_true in E2. apply Nat.ltb_ge in Hsmall. lia.
    + apply bool_decide_eq_true in E2.
      unfold read, getnum, getcol, mbind, stage_bind, bind. cbn. by rewrite E2.
Qed.

End ClusterReads.

(** Adding the column of days to the example batch changes no topic. *)
Lemma clustering_reads_five_columns_witness :
  same_on cluster_fields cluster_frame
    (set_col "date" (IntCol [0; 0; 0; 1; 1]%Z) cluster_frame)
  ∧ (∃ t, (@perform_topic_clustering cluster_env cluster_frame tt).1 = [t])
  ∧ @perform_topic_clustering cluster_env cluster_frame tt
    = @perform_topic_clustering cluster_env
        (set_col "date" (IntCol [0; 0; 0; 1; 1]%Z) cluster_frame) tt.
Proof.
  assert (Hsame : same_on cluster_fields cluster_frame
            (set_col "date" (IntCol [0; 0; 0; 1; 1]%Z) cluster_frame)).
  { split; [done|]. intros c Hc. cbn [set_col cols]. symmetry.
    apply lookup_insert_ne. intros <-. revert Hc. unfold cluster_fields.
    not_in_list. }
  split; [done|]. split.
  - destruct cluster_example as (t & Ht & _). by exists t.
  - by apply (@clustering_reads_five_columns cluster_env).
Defined.

(** ** The divisor and the window of the momentum *)

(** C2, as stated, fails: with two posts on day 0, none on day 1 and six on
    day 2 the code divides the growth by the number of days that have
    posts minus one and returns 4; dividing by the number of days of the
    window minus one gives 2 for a window of three days and 4/3 for one
    of four. *)
Lemma keyword_momentum_gap_day :
  let dates := matching_dates (contains (u "ai"))
                 (window_posts 2 3 gap_timestamps
                    (replicate 8 (u "news about ai"))) in
  let m := _calculate_keyword_momentum (u "ai") 2 momentum_frame_with_gap 3 in
  (count_on 0 dates = 2 ∧ count_on 1 dates = 0 ∧ count_on 2 dates = 6)%nat
  ∧ (m == 4)%Q
  ∧ (claimed_momentum 2 6 3 == 2)%Q
  ∧ (claimed_momentum 2 6 4 == 4 # 3)%Q
  ∧ ¬ (m == claimed_momentum 2 6 3)%Q
  ∧ ¬ (m == claimed_momentum 2 6 4)%Q.
Proof.
  cbv zeta.
  assert (Hm : (_calculate_keyword_momentum (u "ai") 2 momentum_frame_with_gap 3
                == 4)%Q).
  { rewrite (momentum_counts (u "ai") 2 momentum_frame_with_gap 3 gap_timestamps
               (replicate 8 (u "news about ai")) (contains (u "ai")));
      [by vm_compute| |by unfold momentum_frame_with_gap; cbn [cols];
                         rewrite lookup_insert_eq|done].
    unfold momentum_frame_with_gap. cbn [cols].
    rewrite lookup_insert_ne by done. by rewrite lookup_insert_eq. }
  split; [by vm_compute|]. split; [done|].
  split; [by vm_compute|]. split; [by vm_compute|].
  split; rewrite Hm; by vm_compute.
Qed.

(** C3, as stated, fails: the window reaches back to the date three days
    before the end date, a fourth calendar date.  The two batches hold the
    same posts on the three days that end with the end date, and the post
    of day -1 changes the momentum from 2 to 5/3. *)
Lemma keyword_momentum_counts_fourth_day :
  let m1 := _calculate_keyword_momentum (u "ai") 2 momentum_frame 3 in
  let m2 :=
    _calculate_keyword_momentum (u "ai") 2 momentum_frame_with_boundary_post 3 in
  claimed_window_posts 2 3 momentum_timestamps (replicate 12 (u "news about ai"))
  = claimed_window_posts 2 3 (day (-1) :: momentum_timestamps)
      (replicate 13 (u "news about ai"))
  ∧ (m1 == 2)%Q ∧ (m2 == 5 # 3)%Q ∧ ¬ (m1 == m2)%Q.
Proof.
  cbv zeta.
  assert (H1 : (_calculate_keyword_momentum (u "ai") 2 momentum_frame 3 == 2)%Q).
  { rewrite (momentum_counts (u "ai") 2 momentum_frame 3 momentum_timestamps
               (replicate 12 (u "news about ai")) (contains (u "ai")));
      [by vm_compute| |by unfold momentum_frame; cbn [cols];
                         rewrite lookup_insert_eq|done].
    unfold momentum_frame. cbn [cols].
    rewrite lookup_insert_ne by done. by rewrite lookup_insert_eq. }
  assert (H2 : (_calculate_keyword_momentum (u "ai") 2
                  momentum_frame_with_boundary_post 3 == 5 # 3)%Q).
  { rewrite (momentum_counts (u "ai") 2 momentum_frame_with_boundary_post 3
               (day (-1) :: momentum_timestamps)
               (replicate 13 (u "news about ai")) (contains (u "ai")));
      [by vm_compute| |by unfold momentum_frame_with_boundary_post; cbn [cols];
                         rewrite lookup_insert_eq|done].
    unfold momentum_frame_with_boundary_post. cbn [cols].
    rewrite lookup_insert_ne by done. by rewrite lookup_insert_eq. }
  split; [by vm_compute|]. split; [done|]. split; [done|].
  rewrite H1, H2. by vm_compute.
Qed.
